(** * Presence and call-routing coordinator of the nurse/patient video-call servers

    Two revisions of [server.js] are embedded side by side:
    - [Part000]: the plain-object server ([users], [activeCalls],
      [waitingQueue] as module-level variables);
    - [Part001]: the [state]-record server built on [Map]s, with the
      [userSockets] reverse index and the [registered] acknowledgement.

    part_001 also holds a third server, which pairs patients and nurses
    through rooms and a table of waiting calls; it is embedded as [Rooms].

    Handlers are functions from a state to a new state and the list of
    messages they emit, in emission order.  Conventions shared by both
    embeddings:
    - socket ids, user ids, roles and relayed bodies are JS strings; a
      string is falsy exactly when it is empty;
    - a plain object or a [Map] whose iteration order is observable
      ([users]) is an association list in insertion order; a [Map] that is
      only read by key ([activeCalls] and [userSockets] of part_001) is a
      [gmap];
    - socket ids are generated by socket.io, not chosen by a client: they
      are not canonical array indices and not property names inherited
      from [Object.prototype], so the keys of the plain object [users] of
      part_000 are enumerated in insertion order and a missing key reads
      as [undefined];
    - user ids are chosen by clients.  The plain object [activeCalls] of
      part_000 is keyed by them, so it is embedded with what a plain
      object does for every key: the [gmap] holds its own properties, a
      name that is not an own property reads as the member inherited from
      [Object.prototype] if there is one, and an assignment to
      [__proto__] stores nothing ([objGet], [objSet]);
    - request payloads are objects carrying the fields the listener
      destructures; relayed bodies are opaque;
    - [console.log] output and the [Date.now()] stamp of relayed chat
      messages are not part of the model.

    The operations of the specification are the listeners
    ['register'], ['callUser'] (requestCall), ['acceptWaiting']
    (admitFromQueue), ['endCall'], ['disconnect'] (onDisconnect),
    ['offer'] / ['answer'] / ['ice-candidate'] / ['chatMessage'] (relay)
    and ['getWaitingQueue'] (the read of the queue). *)

From Stdlib Require QArith.
From stdpp Require Import base list strings gmap pretty sorting.

Set Warnings "-clear-no-such-hyp".

Open Scope string_scope.
Open Scope list_scope.

(** ** JavaScript values used by the handlers *)

(** [!s] on a string: only the empty string is falsy. *)
Definition truthy (s : string) : bool := negb (String.eqb s "").

(** Truthiness of a value that is either [undefined] or a string. *)
Definition truthy_opt (o : option string) : bool :=
  match o with
  | Some s => truthy s
  | None => false
  end.

(** A value used as a property key: [undefined] is converted to the string
    ["undefined"]. *)
Definition js_key (o : option string) : string := default "undefined" o.

(** [['nurse', 'patient'].includes(role)] *)
Definition valid_role (role : string) : bool :=
  String.eqb role "nurse" || String.eqb role "patient".

(** ** Insertion-ordered string-keyed tables *)

Section alist.
Context {V : Type}.

(** [o[k]] / [m.get(k)] *)
Fixpoint aget (k : string) (l : list (string * V)) : option V :=
  match l with
  | [] => None
  | (k', v) :: l' => if String.eqb k' k then Some v else aget k l'
  end.

(** [o[k] = v] / [m.set(k, v)]: an existing key keeps its position, a new
    key goes last. *)
Fixpoint aset (k : string) (v : V) (l : list (string * V)) : list (string * V) :=
  match l with
  | [] => [(k, v)]
  | (k', v') :: l' =>
      if String.eqb k' k then (k', v) :: l' else (k', v') :: aset k v l'
  end.

(** [delete o[k]] / [m.delete(k)] *)
Fixpoint adel (k : string) (l : list (string * V)) : list (string * V) :=
  match l with
  | [] => []
  | (k', v') :: l' =>
      if String.eqb k' k then adel k l' else (k', v') :: adel k l'
  end.

(** In-place mutation of the object stored under [k]. *)
Fixpoint aalter (f : V → V) (k : string) (l : list (string * V)) : list (string * V) :=
  match l with
  | [] => []
  | (k', v') :: l' =>
      if String.eqb k' k then (k', f v') :: l' else (k', v') :: aalter f k l'
  end.
End alist.

(** ** The waiting queue: an array of ids *)

(** [q.includes(x)] *)
Fixpoint includes (x : string) (q : list string) : bool :=
  match q with
  | [] => false
  | y :: q' => String.eqb y x || includes x q'
  end.

(** [q.indexOf(x)]; [None] stands for [-1]. *)
Fixpoint indexOf (x : string) (q : list string) : option nat :=
  match q with
  | [] => None
  | y :: q' => if String.eqb y x then Some 0 else S <$> indexOf x q'
  end.

(** [q.splice(i, 1)] *)
Definition splice1 (i : nat) (q : list string) : list string := delete i q.

(** [if (!q.includes(x)) q.push(x)] *)
Definition pushUnique (x : string) (q : list string) : list string :=
  if includes x q then q else q ++ [x].

(** [i = q.indexOf(x); if (i !== -1) q.splice(i, 1)] *)
Definition removeId (x : string) (q : list string) : list string :=
  match indexOf x q with
  | Some i => splice1 i q
  | None => q
  end.

(** ** Plain objects used as maps *)

(** What reading a property of a plain object with string-valued own
    properties yields: [undefined], a string, or the member of
    [Object.prototype] inherited under the name read (a function, or
    [Object.prototype] itself for [__proto__]). *)
Inductive jsval :=
| JUndefined
| JString (s : string)
| JInherited (name : string).

(** The property names a plain object inherits from [Object.prototype]. *)
Definition inheritedNames : list string :=
  ["constructor"; "__defineGetter__"; "__defineSetter__"; "hasOwnProperty";
   "__lookupGetter__"; "__lookupSetter__"; "isPrototypeOf";
   "propertyIsEnumerable"; "toString"; "valueOf"; "__proto__";
   "toLocaleString"].

Definition inherited (k : string) : bool := includes k inheritedNames.

(** [o[k]]: an own property shadows the inherited member. *)
Definition objGet (k : string) (o : gmap string string) : jsval :=
  match o !! k with
  | Some v => JString v
  | None => if inherited k then JInherited k else JUndefined
  end.

(** [o[k] = v] for a string [v]: the setter of [__proto__] ignores a
    string; under any other name the string becomes an own property. *)
Definition objSet (k v : string) (o : gmap string string) : gmap string string :=
  if String.eqb k "__proto__" then o else <[k := v]> o.

(** [!!v]: functions and objects are truthy. *)
Definition truthy_val (v : jsval) : bool :=
  match v with
  | JUndefined => false
  | JString s => truthy s
  | JInherited _ => true
  end.

(** A value used as a property key.  [Object.prototype] converts to
    ["[object Object]"], a built-in function to its native-code text; the
    function inherited as [constructor] is [Object]. *)
Definition toKey (v : jsval) : string :=
  match v with
  | JUndefined => "undefined"
  | JString s => s
  | JInherited name =>
      if String.eqb name "__proto__" then "[object Object]"
      else "function " +:+ (if String.eqb name "constructor" then "Object" else name)
           +:+ "() { [native code] }"
  end.

(** ** Messages *)

Inductive relay_kind := Offer | Answer | IceCandidate | ChatMessage.

(** Event name and payload of an emitted message.  Fields that only one of
    the two servers sends are optional. *)
Inductive event :=
| EvError (message : string)
| EvOnlineUsers (snapshot : list (string * string * bool))
| EvRegistered (userId role : string)
| EvIncomingCall (from : string) (callerRole : option string)
| EvCallStartedTo (to : string)
| EvCallStartedFrom (from : string) (role : option string)
| EvCallWaiting (message : string) (queuePosition : option nat)
| EvWaitingPatient (patientId : option string) (queueLength : option nat)
| EvCallEnded (from : string) (reason : option string)
| EvRelay (kind : relay_kind) (body : string) (from : string)
| EvWaitingQueue (queue : list string).

(** [io.to(sid).emit] and [socket.emit] address one socket, [io.emit] all. *)
Inductive target := ToSocket (sid : string) | ToAll.

Definition emission : Type := target * event.

(** Normal completion of a handler, or an uncaught exception. *)
Inductive completion (A : Type) :=
| Returns (a : A)
| Throws (err : string).
Arguments Returns {A} a.
Arguments Throws {A} err.

(** Requests a connected socket can send. *)
Inductive request :=
| Register (userId role : string)
| CallUser (calleeId : string)
| AcceptWaiting (patientId : string)
| Relay (kind : relay_kind) (body to : string)
| EndCall (to : string)
| GetWaitingQueue
| Disconnect.

(** ** part_000: the plain-object server *)

Module Part000.

Record user := mkUser { id : string; role : string; busy : bool }.

Record state := mkState {
  users : list (string * user);        (* socket.id -> user *)
  activeCalls : gmap string string;    (* own properties: userId -> partnerId *)
  waitingQueue : list string           (* patientIds waiting for nurse *)
}.

Definition init : state := mkState [] ∅ [].

Definition findSocketByUserId (st : state) (userId : string) : option string :=
  fst <$> List.find (λ e, String.eqb (id e.2) userId) (users st).

(** [findSocketByUserId(v)] for a value read from [activeCalls]: [===]
    holds between the id of an entry and a string only. *)
Definition findSocketByValue (st : state) (v : jsval) : option string :=
  match v with
  | JString userId => findSocketByUserId st userId
  | _ => None
  end.

Definition getOnlineUsers (st : state) : list (string * string * bool) :=
  (λ e, (id e.2, role e.2, busy e.2)) <$> users st.

(** [users[sid].busy = b] *)
Definition setBusyAt (sid : string) (b : bool)
    (us : list (string * user)) : list (string * user) :=
  aalter (λ u, mkUser (id u) (role u) b) sid us.

Definition startCall (callerId calleeId : string) (st : state)
    : state * list emission :=
  let callerSocket := findSocketByUserId st callerId in
  let calleeSocket := findSocketByUserId st calleeId in
  if negb (truthy_opt callerSocket) || negb (truthy_opt calleeSocket) then (st, [])
  else
    let us1 := setBusyAt (js_key callerSocket) true (users st) in
    let us2 := setBusyAt (js_key calleeSocket) true us1 in
    let ac1 := objSet callerId calleeId (activeCalls st) in
    let ac2 := objSet calleeId callerId ac1 in
    let st' := mkState us2 ac2 (waitingQueue st) in
    (st', [ (ToSocket (js_key calleeSocket), EvIncomingCall callerId None);
            (ToAll, EvOnlineUsers (getOnlineUsers st')) ]).

Definition endCall (userId : string) (st : state) : state * list emission :=
  let partnerId := objGet userId (activeCalls st) in
  if negb (truthy_val partnerId) then (st, [])
  else
    let userSocket := findSocketByUserId st userId in
    let partnerSocket := findSocketByValue st partnerId in
    let us1 := if truthy_opt userSocket
               then setBusyAt (js_key userSocket) false (users st)
               else users st in
    let us2 := if truthy_opt partnerSocket
               then setBusyAt (js_key partnerSocket) false us1
               else us1 in
    let ended := if truthy_opt partnerSocket
                 then [(ToSocket (js_key partnerSocket), EvCallEnded userId None)]
                 else [] in
    let ac := delete (toKey partnerId) (delete userId (activeCalls st)) in
    let st' := mkState us2 ac (waitingQueue st) in
    (* Notify nurse of next waiting patient *)
    let nurseId :=
      match aget (js_key userSocket) us2 with
      | Some u => if String.eqb (role u) "nurse" then JString userId else partnerId
      | None => partnerId
      end in
    let waiting :=
      if (0 <? length (waitingQueue st))%nat && truthy_val nurseId then
        let nurseSocket := findSocketByValue st' nurseId in
        if truthy_opt nurseSocket
        then [(ToSocket (js_key nurseSocket),
               EvWaitingPatient (head (waitingQueue st)) None)]
        else []
      else [] in
    (st', ended ++ waiting ++ [(ToAll, EvOnlineUsers (getOnlineUsers st'))]).

(** ['register'] *)
Definition register (sock userId role : string) (st : state)
    : state * list emission :=
  if negb (truthy userId) || negb (valid_role role) then
    (st, [(ToSocket sock, EvError "Invalid registration")])
  else if existsb (λ e, String.eqb (id e.2) userId) (users st) then
    (st, [(ToSocket sock, EvError "User ID already taken")])
  else
    let st' := mkState (aset sock (mkUser userId role false) (users st))
                       (activeCalls st) (waitingQueue st) in
    (st', [(ToAll, EvOnlineUsers (getOnlineUsers st'))]).

(** ['callUser'] *)
Definition callUser (sock calleeId : string) (st : state)
    : completion (state * list emission) :=
  match aget sock (users st) with
  | None => Returns (st, [(ToSocket sock, EvError "Not registered")])
  | Some caller =>
      let calleeSocket := findSocketByUserId st calleeId in
      if negb (truthy_opt calleeSocket) then
        Returns (st, [(ToSocket sock, EvError "Callee offline")])
      else
        match aget (js_key calleeSocket) (users st) with
        | None => Throws "TypeError"
        | Some callee =>
            if String.eqb (role caller) (role callee) then
              Returns (st, [(ToSocket sock, EvError "Cannot call same role")])
            else if busy callee then
              if String.eqb (role caller) "patient" && String.eqb (role callee) "nurse" then
                if negb (includes (id caller) (waitingQueue st)) then
                  Returns
                    (mkState (users st) (activeCalls st)
                             (waitingQueue st ++ [id caller]),
                     [ (ToSocket (js_key calleeSocket),
                        EvWaitingPatient (Some (id caller)) None);
                       (ToSocket sock,
                        EvCallWaiting "Nurse is busy, added to queue" None) ])
                else
                  Returns
                    (st, [(ToSocket sock,
                           EvCallWaiting "Nurse is busy, added to queue" None)])
              else
                Returns (st, [(ToSocket sock, EvError "Callee is busy")])
            else
              let '(st', out) := startCall (id caller) (id callee) st in
              Returns (st', out ++ [(ToSocket sock, EvCallStartedTo calleeId)])
        end
  end.

(** ['acceptWaiting'] *)
Definition acceptWaiting (sock patientId : string) (st : state)
    : state * list emission :=
  match aget sock (users st) with
  | None => (st, [(ToSocket sock, EvError "Not authorized")])
  | Some nurse =>
      if negb (String.eqb (role nurse) "nurse") then
        (st, [(ToSocket sock, EvError "Not authorized")])
      else
        match indexOf patientId (waitingQueue st) with
        | None => (st, [(ToSocket sock, EvError "Patient not waiting")])
        | Some queueIndex =>
            let st1 := mkState (users st) (activeCalls st)
                               (splice1 queueIndex (waitingQueue st)) in
            let patientSocket := findSocketByUserId st1 patientId in
            if negb (truthy_opt patientSocket) then
              (st1, [(ToSocket sock, EvError "Patient offline")])
            else
              let '(st2, out) := startCall (id nurse) patientId st1 in
              (st2, out ++ [(ToSocket (js_key patientSocket),
                             EvCallStartedFrom (id nurse) None)])
        end
  end.

(** ['offer'], ['answer'], ['ice-candidate']: the sender is read with
    [users[socket.id].id], evaluated only once the target is found. *)
Definition signal (kind : relay_kind) (sock body to : string) (st : state)
    : completion (state * list emission) :=
  let toSocket := findSocketByUserId st to in
  if truthy_opt toSocket then
    match aget sock (users st) with
    | Some sender =>
        Returns (st, [(ToSocket (js_key toSocket), EvRelay kind body (id sender))])
    | None => Throws "TypeError"
    end
  else Returns (st, []).

(** ['chatMessage']: the sender is read with [users[socket.id]?.id]. *)
Definition chatMessage (sock body to : string) (st : state)
    : state * list emission :=
  let from := id <$> aget sock (users st) in
  if negb (truthy_opt from) then (st, [])
  else
    let toSocket := findSocketByUserId st to in
    if truthy_opt toSocket then
      (st, [(ToSocket (js_key toSocket), EvRelay ChatMessage body (js_key from))])
    else (st, []).

Definition relay (kind : relay_kind) (sock body to : string) (st : state)
    : completion (state * list emission) :=
  match kind with
  | ChatMessage => Returns (chatMessage sock body to st)
  | _ => signal kind sock body to st
  end.

(** ['endCall'] *)
Definition endCallRequest (sock to : string) (st : state)
    : state * list emission :=
  let from := id <$> aget sock (users st) in
  if truthy_opt from then
    match objGet (js_key from) (activeCalls st) with
    | JString partnerId =>
        if String.eqb partnerId to then endCall (js_key from) st else (st, [])
    | _ => (st, [])
    end
  else (st, []).

(** ['disconnect'] *)
Definition disconnect (sock : string) (st : state) : state * list emission :=
  match aget sock (users st) with
  | None => (st, [])
  | Some user =>
      let '(st1, out) := endCall (id user) st in
      let st2 := mkState (adel sock (users st1)) (activeCalls st1)
                         (removeId (id user) (waitingQueue st1)) in
      (st2, out ++ [(ToAll, EvOnlineUsers (getOnlineUsers st2))])
  end.

(** Dispatch of one request of socket [sock].  This server has no
    ['getWaitingQueue'] listener: the request is ignored. *)
Definition handle (sock : string) (req : request) (st : state)
    : completion (state * list emission) :=
  match req with
  | Register userId role => Returns (register sock userId role st)
  | CallUser calleeId => callUser sock calleeId st
  | AcceptWaiting patientId => Returns (acceptWaiting sock patientId st)
  | Relay kind body to => relay kind sock body to st
  | EndCall to => Returns (endCallRequest sock to st)
  | GetWaitingQueue => Returns (st, [])
  | Disconnect => Returns (disconnect sock st)
  end.

(** States the server can be in: the handlers run one at a time, each on
    behalf of a connected socket; an uncaught exception ends the process. *)
Inductive reachable : state → Prop :=
| reachable_init : reachable init
| reachable_step st sock req st' out :
    reachable st → sock ≠ "" →
    handle sock req st = Returns (st', out) → reachable st'.

(** Replays a log of requests, giving the final state and every emission. *)
Fixpoint run (log : list (string * request)) (st : state)
    : completion (state * list emission) :=
  match log with
  | [] => Returns (st, [])
  | (sock, req) :: log' =>
      match handle sock req st with
      | Returns (st', out) =>
          match run log' st' with
          | Returns (st'', out') => Returns (st'', out ++ out')
          | Throws e => Throws e
          end
      | Throws e => Throws e
      end
  end.

(** The state a log of requests leads to from [init]; a log on which some
    handler throws leads nowhere and is given [init]. *)
Definition stateAfter (log : list (string * request)) : state :=
  match run log init with
  | Returns (st, _) => st
  | Throws _ => init
  end.

(** Directory views. *)
Definition lookupById (st : state) (userId : string) : option user :=
  match findSocketByUserId st userId with
  | Some sid => aget sid (users st)
  | None => None
  end.

Definition isBusy (st : state) (userId : string) : option bool :=
  busy <$> lookupById st userId.

(** *** Well-formed states *)

(** Socket ids and user ids in the directory are non-empty, and no user
    id is held by two sockets. *)
Definition users_ok (us : list (string * user)) : Prop :=
  NoDup us.*1 ∧
  (∀ s u, (s, u) ∈ us → s ≠ "" ∧ id u ≠ "") ∧
  (∀ s1 u1 s2 u2, (s1, u1) ∈ us → (s2, u2) ∈ us → id u1 = id u2 → s1 = s2).

Record inv (st : state) : Prop := {
  inv_users : users_ok (users st);
  inv_queue : NoDup (waitingQueue st);
  inv_queue_ids : ∀ x, x ∈ waitingQueue st → x ≠ "";
  inv_calls : ∀ a b, activeCalls st !! a = Some b → b ≠ ""
}.

End Part000.

(** ** part_001: the [Map]-based server *)

Module Part001.

Record user := mkUser {
  id : string; role : string; busy : bool; socketId : string
}.

Record state := mkState {
  users : list (string * user);        (* socketId -> { id, role, busy, socketId } *)
  userSockets : gmap string string;    (* userId -> socketId *)
  activeCalls : gmap string string;    (* userId -> partnerId *)
  waitingQueue : list string           (* [patientIds] *)
}.

Definition init : state := mkState [] ∅ ∅ [].

Definition getUserBySocketId (st : state) (socketId : string) : option user :=
  aget socketId (users st).

Definition getUserById (st : state) (userId : string) : option user :=
  let socketId := userSockets st !! userId in
  if truthy_opt socketId then aget (js_key socketId) (users st) else None.

Definition getOnlineUsers (st : state) : list (string * string * bool) :=
  (λ e, (id e.2, role e.2, busy e.2)) <$> users st.

(** [user.busy = busy] mutates the object found through [userSockets];
    [state.users.set(user.socketId, user)] then stores that same object
    under its own [socketId].  Every object is created by ['register']
    under the key it records as [socketId], so the second step writes the
    object back where it was found. *)
Definition setUserBusy (userId : string) (b : bool) (st : state) : state :=
  match getUserById st userId with
  | Some user =>
      let user' := mkUser (id user) (role user) b (socketId user) in
      let us1 := aalter (λ _, user') (js_key (userSockets st !! userId)) (users st) in
      mkState (aset (socketId user) user' us1)
              (userSockets st) (activeCalls st) (waitingQueue st)
  | None => st
  end.

Definition broadcastOnlineUsers (st : state) : list emission :=
  [(ToAll, EvOnlineUsers (getOnlineUsers st))].

(** The third component is [result.success]; the only error is
    ['User not found']. *)
Definition startCall (callerId calleeId : string) (st : state)
    : state * list emission * bool :=
  match getUserById st callerId, getUserById st calleeId with
  | Some caller, Some callee =>
      let st1 := setUserBusy callerId true st in
      let st2 := setUserBusy calleeId true st1 in
      let ac1 := <[callerId := calleeId]> (activeCalls st2) in
      let ac2 := <[calleeId := callerId]> ac1 in
      let st' := mkState (users st2) (userSockets st2) ac2 (waitingQueue st2) in
      (st', (ToSocket (socketId callee), EvIncomingCall callerId (Some (role caller)))
             :: broadcastOnlineUsers st', true)
  | _, _ => (st, [], false)
  end.

Definition endCall (userId : string) (st : state) : state * list emission :=
  let partnerEntry := activeCalls st !! userId in
  if negb (truthy_opt partnerEntry) then (st, [])
  else
    let partnerId := js_key partnerEntry in
    let user := getUserById st userId in
    let partner := getUserById st partnerId in
    let st1 := match user with
               | Some _ => setUserBusy userId false st
               | None => st
               end in
    let st2 := match partner with
               | Some _ => setUserBusy partnerId false st1
               | None => st1
               end in
    let ended :=
      match partner with
      | Some p => [(ToSocket (socketId p), EvCallEnded userId (Some "User ended call"))]
      | None => []
      end in
    let ac := delete partnerId (delete userId (activeCalls st2)) in
    let st' := mkState (users st2) (userSockets st2) ac (waitingQueue st2) in
    (* Notify nurse of next waiting patient *)
    let waiting :=
      match user with
      | Some u =>
          if String.eqb (role u) "nurse" && (0 <? length (waitingQueue st'))%nat
          then [(ToSocket (socketId u),
                 EvWaitingPatient (head (waitingQueue st'))
                                  (Some (length (waitingQueue st'))))]
          else []
      | None => []
      end in
    (st', ended ++ waiting ++ broadcastOnlineUsers st').

Definition cleanupUser (socketId : string) (st : state) : state * list emission :=
  match aget socketId (users st) with
  | None => (st, [])
  | Some user =>
      (* End active call *)
      let '(st1, out) :=
        match activeCalls st !! id user with
        | Some _ => endCall (id user) st
        | None => (st, [])
        end in
      (* Remove from waiting queue *)
      let q := removeId (id user) (waitingQueue st1) in
      (* Cleanup state *)
      let st2 := mkState (adel socketId (users st1))
                         (delete (id user) (userSockets st1))
                         (activeCalls st1) q in
      (st2, out ++ broadcastOnlineUsers st2)
  end.

(** ['register'] *)
Definition register (sock userId role : string) (st : state)
    : state * list emission :=
  if negb (truthy userId) then
    (st, [(ToSocket sock, EvError "Invalid user ID")])
  else if negb (valid_role role) then
    (st, [(ToSocket sock, EvError "Invalid role")])
  else
    match userSockets st !! userId with
    | Some existingSocketId =>
        (* If same socket, ignore *)
        if String.eqb existingSocketId sock then
          (st, [(ToSocket sock, EvRegistered userId role)])
        else
          (st, [(ToSocket sock, EvError "User ID already registered")])
    | None =>
        let userData := mkUser userId role false sock in
        let st' := mkState (aset sock userData (users st))
                           (<[userId := sock]> (userSockets st))
                           (activeCalls st) (waitingQueue st) in
        (st', (ToSocket sock, EvRegistered userId role) :: broadcastOnlineUsers st')
    end.

(** ['callUser'] *)
Definition callUser (sock calleeId : string) (st : state)
    : state * list emission :=
  match getUserBySocketId st sock with
  | None => (st, [(ToSocket sock, EvError "Not registered")])
  | Some caller =>
      match getUserById st calleeId with
      | None => (st, [(ToSocket sock, EvError "User not found or offline")])
      | Some callee =>
          (* Prevent same-role calls *)
          if String.eqb (role caller) (role callee) then
            (st, [(ToSocket sock, EvError "Cannot call users with same role")])
          else if busy callee then
            if String.eqb (role caller) "patient" && String.eqb (role callee) "nurse" then
              (* Add to waiting queue *)
              let '(q, notice) :=
                if negb (includes (id caller) (waitingQueue st)) then
                  let q := waitingQueue st ++ [id caller] in
                  (q, [(ToSocket (socketId callee),
                        EvWaitingPatient (Some (id caller)) (Some (length q)))])
                else (waitingQueue st, []) in
              let position :=
                match indexOf (id caller) q with Some i => S i | None => 0%nat end in
              (mkState (users st) (userSockets st) (activeCalls st) q,
               notice ++
               [(ToSocket sock,
                 EvCallWaiting "Nurse is busy. You have been added to the queue."
                               (Some position))])
            else
              (st, [(ToSocket sock, EvError "User is currently busy")])
          else
            (* Start call *)
            let '(st', out, success) := startCall (id caller) (id callee) st in
            if success then (st', out ++ [(ToSocket sock, EvCallStartedTo calleeId)])
            else (st', out ++ [(ToSocket sock, EvError "User not found")])
      end
  end.

(** ['acceptWaiting'] *)
Definition acceptWaiting (sock patientId : string) (st : state)
    : state * list emission :=
  match getUserBySocketId st sock with
  | None => (st, [(ToSocket sock, EvError "Unauthorized action")])
  | Some nurse =>
      if negb (String.eqb (role nurse) "nurse") then
        (st, [(ToSocket sock, EvError "Unauthorized action")])
      else
        match indexOf patientId (waitingQueue st) with
        | None => (st, [(ToSocket sock, EvError "Patient not in queue")])
        | Some queueIndex =>
            let st1 := mkState (users st) (userSockets st) (activeCalls st)
                               (splice1 queueIndex (waitingQueue st)) in
            match getUserById st1 patientId with
            | None => (st1, [(ToSocket sock, EvError "Patient offline")])
            | Some patient =>
                let '(st2, out, success) := startCall (id nurse) patientId st1 in
                if success then
                  (st2, out ++ [(ToSocket (socketId patient),
                                 EvCallStartedFrom (id nurse) (Some (role nurse)))])
                else (st2, out)
            end
        end
  end.

(** ['offer'], ['answer'], ['ice-candidate'], ['chatMessage'] *)
Definition relay (kind : relay_kind) (sock body to : string) (st : state)
    : state * list emission :=
  match getUserBySocketId st sock, getUserById st to with
  | Some from, Some target =>
      (st, [(ToSocket (socketId target), EvRelay kind body (id from))])
  | _, _ => (st, [])
  end.

(** ['endCall'] *)
Definition endCallRequest (sock to : string) (st : state)
    : state * list emission :=
  match getUserBySocketId st sock with
  | None => (st, [])
  | Some from =>
      match activeCalls st !! id from with
      | Some partnerId =>
          if String.eqb partnerId to then endCall (id from) st else (st, [])
      | None => (st, [])
      end
  end.

(** ['getWaitingQueue'] *)
Definition getWaitingQueue (sock : string) (st : state) : state * list emission :=
  match getUserBySocketId st sock with
  | Some user =>
      if String.eqb (role user) "nurse"
      then (st, [(ToSocket sock, EvWaitingQueue (waitingQueue st))])
      else (st, [])
  | None => (st, [])
  end.

(** Every listener body is inside [try]/[catch] and no modelled step
    raises, so a request always completes. *)
Definition handle (sock : string) (req : request) (st : state)
    : state * list emission :=
  match req with
  | Register userId role => register sock userId role st
  | CallUser calleeId => callUser sock calleeId st
  | AcceptWaiting patientId => acceptWaiting sock patientId st
  | Relay kind body to => relay kind sock body to st
  | EndCall to => endCallRequest sock to st
  | GetWaitingQueue => getWaitingQueue sock st
  | Disconnect => cleanupUser sock st
  end.

Inductive reachable : state → Prop :=
| reachable_init : reachable init
| reachable_step st sock req :
    reachable st → sock ≠ "" → reachable (handle sock req st).1.

(** Replays a log of requests, giving the final state and every emission. *)
Fixpoint run (log : list (string * request)) (st : state)
    : state * list emission :=
  match log with
  | [] => (st, [])
  | (sock, req) :: log' =>
      let '(st', out) := handle sock req st in
      let '(st'', out') := run log' st' in
      (st'', out ++ out')
  end.

(** The state a log of requests leads to from [init]. *)
Definition stateAfter (log : list (string * request)) : state :=
  (run log init).1.

Definition isBusy (st : state) (userId : string) : option bool :=
  busy <$> getUserById st userId.

(** *** Well-formed states *)

(** Every directory entry sits under the socket id it records, that id
    and the user id are non-empty, and [userSockets] maps the user id
    back to the entry's socket. *)
Definition users_ok (us : list (string * user)) (socks : gmap string string) : Prop :=
  ∀ s u, (s, u) ∈ us →
    s ≠ "" ∧ id u ≠ "" ∧ socketId u = s ∧ socks !! id u = Some s.

Record inv (st : state) : Prop := {
  inv_users : users_ok (users st) (userSockets st);
  inv_queue : NoDup (waitingQueue st);
  inv_queue_ids : ∀ x, x ∈ waitingQueue st → x ≠ "";
  inv_calls : ∀ a b, activeCalls st !! a = Some b → b ≠ ""
}.

Definition withBusy (b : bool) (u : user) : user :=
  mkUser (id u) (role u) b (socketId u).

End Part001.

(** ** The waiting queue as a sequence of enqueue and remove operations *)

Inductive queueOp := Enqueue (x : string) | Remove (x : string).

Definition applyOp (q : list string) (op : queueOp) : list string :=
  match op with
  | Enqueue x => pushUnique x q
  | Remove x => removeId x q
  end.

Definition applyOps (ops : list queueOp) (q : list string) : list string :=
  foldl applyOp q ops.

(** The ids a sequence of operations enqueues, in that order. *)
Fixpoint enqueuedIds (ops : list queueOp) : list string :=
  match ops with
  | [] => []
  | Enqueue x :: ops' => x :: enqueuedIds ops'
  | Remove _ :: ops' => enqueuedIds ops'
  end.

(** The ids a sequence of operations takes out of the queue [q]: a removal
    counts when the id is in the queue at that moment. *)
Fixpoint takenOut (ops : list queueOp) (q : list string) : list string :=
  match ops with
  | [] => []
  | op :: ops' =>
      match op with
      | Remove x => if includes x q then [x] else []
      | Enqueue _ => []
      end ++ takenOut ops' (applyOp q op)
  end.

(** The queue in which every entry carries the position, in the sequence
    of operations, of the enqueue that put it there. *)
Definition stampOp (n : nat) (sq : list (string * nat)) (op : queueOp)
    : list (string * nat) :=
  match op with
  | Enqueue x => if includes x sq.*1 then sq else sq ++ [(x, n)]
  | Remove x =>
      match indexOf x sq.*1 with
      | Some i => delete i sq
      | None => sq
      end
  end.

Definition stampStep (acc : nat * list (string * nat)) (op : queueOp)
    : nat * list (string * nat) :=
  (S acc.1, stampOp acc.1 acc.2 op).

Definition stampedQueue (ops : list queueOp) : list (string * nat) :=
  (foldl stampStep (0, []) ops).2.

(** What the entries of a stamped queue say about the operations. *)
Record stamped_ok (ops : list queueOp) (sq : list (string * nat)) : Prop := {
  so_queue : sq.*1 = applyOps ops [];
  so_nodup : NoDup sq.*1;
  so_sorted : StronglySorted lt sq.*2;
  so_entry : ∀ x n, (x, n) ∈ sq →
    ops !! n = Some (Enqueue x) ∧
    (∀ m, n < m → ops !! m ≠ Some (Remove x)) ∧
    (∀ m, m < n → ops !! m = Some (Enqueue x) →
          ∃ k, m < k < n ∧ ops !! k = Some (Remove x));
  so_absent : ∀ x, x ∉ sq.*1 → ∀ m, ops !! m = Some (Enqueue x) →
    ∃ k, m < k ∧ ops !! k = Some (Remove x)
}.

(** [l] without the repetitions of an id and without the ids in [seen]:
    every id stays where it first occurs. *)
Fixpoint firstOccurrencesFrom (seen l : list string) : list string :=
  match l with
  | [] => []
  | x :: l' =>
      if includes x seen then firstOccurrencesFrom seen l'
      else x :: firstOccurrencesFrom (seen ++ [x]) l'
  end.

Definition firstOccurrences (l : list string) : list string :=
  firstOccurrencesFrom [] l.

(** What one request does to the queue of part_000. *)
Definition queueOps000 (sock : string) (req : request) (st : Part000.state)
    : list queueOp :=
  match req, aget sock (Part000.users st) with
  | CallUser calleeId, Some caller =>
      let calleeSocket := Part000.findSocketByUserId st calleeId in
      match aget (js_key calleeSocket) (Part000.users st) with
      | Some callee =>
          if truthy_opt calleeSocket && Part000.busy callee
             && String.eqb (Part000.role caller) "patient"
             && String.eqb (Part000.role callee) "nurse"
          then [Enqueue (Part000.id caller)] else []
      | None => []
      end
  | AcceptWaiting patientId, Some nurse =>
      if String.eqb (Part000.role nurse) "nurse" then [Remove patientId] else []
  | Disconnect, Some user => [Remove (Part000.id user)]
  | _, _ => []
  end.

(** What one request does to the queue of part_001. *)
Definition queueOps001 (sock : string) (req : request) (st : Part001.state)
    : list queueOp :=
  match req, Part001.getUserBySocketId st sock with
  | CallUser calleeId, Some caller =>
      match Part001.getUserById st calleeId with
      | Some callee =>
          if Part001.busy callee
             && String.eqb (Part001.role caller) "patient"
             && String.eqb (Part001.role callee) "nurse"
          then [Enqueue (Part001.id caller)] else []
      | None => []
      end
  | AcceptWaiting patientId, Some nurse =>
      if String.eqb (Part001.role nurse) "nurse" then [Remove patientId] else []
  | Disconnect, Some user => [Remove (Part001.id user)]
  | _, _ => []
  end.

(** The queue operations of a whole log. *)
Fixpoint logQueueOps000 (log : list (string * request)) (st : Part000.state)
    : list queueOp :=
  match log with
  | [] => []
  | (sock, req) :: log' =>
      match Part000.handle sock req st with
      | Returns (st', _) => queueOps000 sock req st ++ logQueueOps000 log' st'
      | Throws _ => []
      end
  end.

Fixpoint logQueueOps001 (log : list (string * request)) (st : Part001.state)
    : list queueOp :=
  match log with
  | [] => []
  | (sock, req) :: log' =>
      queueOps001 sock req st ++ logQueueOps001 log' (Part001.handle sock req st).1
  end.


(** ** part_001: the REST views *)

Module Api001.

(** The body of ['GET /api/stats'].  [activeCalls] is the number of
    bindings divided by two, a fraction when that number is odd. *)
Record stats := mkStats {
  onlineUsers : nat;
  activeCalls : QArith_base.Q;
  waitingQueue : nat;
  nurses : nat;
  patients : nat
}.

Definition apiStats (st : Part001.state) : stats :=
  mkStats
    (length (Part001.users st))
    (QArith_base.Qmake (Z.of_nat (size (Part001.activeCalls st))) 2)
    (length (Part001.waitingQueue st))
    (length (List.filter (λ e, String.eqb (Part001.role e.2) "nurse") (Part001.users st)))
    (length (List.filter (λ e, String.eqb (Part001.role e.2) "patient") (Part001.users st))).

(** The body of ['GET /api/users']. *)
Definition apiUsers (st : Part001.state) : list (string * string * bool) :=
  Part001.getOnlineUsers st.

End Api001.

(** ** part_001, second document: the room-based server *)

(** The second server of part_001 keeps three [Map]s, [rooms], [users] and
    [waitingCalls], all iterated by the code and therefore association
    lists in insertion order.  It never decides who receives a message: it
    names a socket.io room ([io.to(x)], or [socket.to(x)] for everybody in
    [x] but the sender) and lets sockets join rooms, so the embedding
    records these as effects, in program order.  Payload fields are
    strings ([enabled] a boolean); the three [Date.now()] readings of
    ['call-nurse'] are inputs of the request. *)
Module Rooms.

Module User.
Record t := mk {
  id : string;
  name : string;
  type : string;
  roomId : option string
}.
End User.

Module Room.
Record t := mk {
  id : string;
  name : string;
  patientName : string;
  status : string;
  patientId : string;
  nurse : option (string * string);
  nurseId : option string
}.
End Room.

Module Call.
Record t := mk {
  id : string;
  roomId : string;
  roomName : string;
  patientName : string;
  patientId : string;
  timestamp : N
}.
End Call.

Record state := mkState {
  rooms : list (string * Room.t);
  users : list (string * User.t);
  waitingCalls : list (string * Call.t)
}.

Definition init : state := mkState [] [] [].

Inductive message :=
| MsgRoomsUpdate (rooms : list Room.t)
| MsgWaitingCallsUpdate (calls : list Call.t)
| MsgIncomingCall (call : Call.t)
| MsgCallAccepted (roomId nurseName nurseId : string)
| MsgUserConnected (patientId : string)
| MsgOffer (offer sender : string)
| MsgAnswer (answer sender : string)
| MsgIceCandidate (candidate sender : string)
| MsgPeerAudioToggle (enabled : bool)
| MsgPeerVideoToggle (enabled : bool)
| MsgPeerScreenShareStart
| MsgPeerScreenShareStop
| MsgCallEnded
| MsgUserDisconnected.

(** [socket.join(room)], [io.to(room).emit(m)] and
    [socket.to(room).emit(m)]. *)
Inductive effect :=
| Join (sock room : string)
| EmitTo (room : string) (m : message)
| EmitToOthers (sender room : string) (m : message).

Inductive request :=
| Register (userType name roomId : string)
| CallNurse (patientName roomName : string) (now1 now2 now3 : N)
| AcceptCall (callId nurseName : string)
| Ready (roomId : string)
| Offer (offer target : string)
| Answer (answer target : string)
| IceCandidate (candidate target : string)
| ToggleAudio (roomId : string) (enabled : bool)
| ToggleVideo (roomId : string) (enabled : bool)
| ScreenShareStart (roomId : string)
| ScreenShareStop (roomId : string)
| EndCall (roomId : string)
| Disconnect.

(** [user.roomId = roomId] on the object stored in [users]. *)
Definition setRoomId (roomId : string) (u : User.t) : User.t :=
  User.mk (User.id u) (User.name u) (User.type u) (Some roomId).

(** [room.nurse = {id, name}; room.nurseId = id; room.status = 'active'] *)
Definition activate (nurseSock nurseName : string) (r : Room.t) : Room.t :=
  Room.mk (Room.id r) (Room.name r) (Room.patientName r) "active"
          (Room.patientId r) (Some (nurseSock, nurseName)) (Some nurseSock).

(** [`call_${t}`] and [`room_${t}`] *)
Definition callIdOf (t : N) : string := "call_" +:+ pretty t.
Definition roomIdOf (t : N) : string := "room_" +:+ pretty t.

(** [roomName || 'Patient Room'] *)
Definition roomNameOr (roomName : string) : string :=
  if truthy roomName then roomName else "Patient Room".

Definition register (sock userType name roomId : string) (st : state)
    : state * list effect :=
  let u := User.mk sock name userType
                   (if truthy roomId then Some roomId else None) in
  let st' := mkState (rooms st) (aset sock u (users st)) (waitingCalls st) in
  if String.eqb userType "nurse" then
    (st', [Join sock "nurses";
           EmitTo sock (MsgRoomsUpdate (rooms st').*2);
           EmitTo sock (MsgWaitingCallsUpdate (waitingCalls st').*2)])
  else (st', []).

Definition callNurse (sock patientName roomName : string) (now1 now2 now3 : N)
    (st : state) : state * list effect :=
  let callId := callIdOf now1 in
  let roomId := roomIdOf now2 in
  let room := Room.mk roomId (roomNameOr roomName) patientName "waiting" sock
                      None None in
  let rooms' := aset roomId room (rooms st) in
  let call := Call.mk callId roomId (roomNameOr roomName) patientName sock now3 in
  let calls' := aset callId call (waitingCalls st) in
  let users' :=
    match aget sock (users st) with
    | Some _ => aalter (setRoomId roomId) sock (users st)
    | None => users st
    end in
  (mkState rooms' users' calls',
   [Join sock roomId;
    EmitTo "nurses" (MsgIncomingCall call);
    EmitTo "nurses" (MsgWaitingCallsUpdate calls'.*2);
    EmitTo "nurses" (MsgRoomsUpdate rooms'.*2)]).

Definition acceptCall (sock callId nurseName : string) (st : state)
    : state * list effect :=
  match aget callId (waitingCalls st) with
  | Some call =>
      match aget (Call.roomId call) (rooms st) with
      | Some _ =>
          let rooms' := aalter (activate sock nurseName) (Call.roomId call) (rooms st) in
          let users' :=
            match aget sock (users st) with
            | Some _ => aalter (setRoomId (Call.roomId call)) sock (users st)
            | None => users st
            end in
          let calls' := adel callId (waitingCalls st) in
          (mkState rooms' users' calls',
           [Join sock (Call.roomId call);
            EmitTo (Call.patientId call)
                   (MsgCallAccepted (Call.roomId call) nurseName sock);
            EmitTo "nurses" (MsgWaitingCallsUpdate calls'.*2);
            EmitTo "nurses" (MsgRoomsUpdate rooms'.*2)])
      | None => (st, [])
      end
  | None => (st, [])
  end.

Definition ready (sock roomId : string) (st : state) : state * list effect :=
  match aget roomId (rooms st) with
  | Some room =>
      if String.eqb (Room.patientId room) sock then
        match Room.nurse room with
        | Some (nurseSock, _) =>
            (st, [EmitTo nurseSock (MsgUserConnected (Room.patientId room))])
        | None => (st, [])
        end
      else (st, [])
  | None => (st, [])
  end.

Definition iceCandidate (sock candidate target : string) (st : state)
    : state * list effect :=
  if truthy target then (st, [EmitTo target (MsgIceCandidate candidate sock)])
  else (st, []).

(** [for (const [callId, call] of waitingCalls.entries())
       if (p(call)) { waitingCalls.delete(callId); emit; break; }] *)
Definition dropFirstCall (p : Call.t → bool) (calls : list (string * Call.t))
    : list (string * Call.t) * list effect :=
  match List.find (λ e, p e.2) calls with
  | Some (callId, _) =>
      let calls' := adel callId calls in
      (calls', [EmitTo "nurses" (MsgWaitingCallsUpdate calls'.*2)])
  | None => (calls, [])
  end.

(** [if (rooms.get(roomId)) { rooms.delete(roomId); emit; }] *)
Definition dropRoom (roomId : string) (rs : list (string * Room.t))
    : list (string * Room.t) * list effect :=
  match aget roomId rs with
  | Some _ =>
      let rs' := adel roomId rs in
      (rs', [EmitTo "nurses" (MsgRoomsUpdate rs'.*2)])
  | None => (rs, [])
  end.

Definition endCall (sock roomId : string) (st : state) : state * list effect :=
  let '(rooms', out1) := dropRoom roomId (rooms st) in
  let '(calls', out2) :=
    dropFirstCall (λ c, String.eqb (Call.roomId c) roomId) (waitingCalls st) in
  (mkState rooms' (users st) calls',
   EmitToOthers sock roomId MsgCallEnded :: out1 ++ out2).

Definition disconnect (sock : string) (st : state) : state * list effect :=
  match aget sock (users st) with
  | Some user =>
      let '(rooms', out1) :=
        if truthy_opt (User.roomId user) then
          let '(rs, out) := dropRoom (js_key (User.roomId user)) (rooms st) in
          (rs, EmitTo (js_key (User.roomId user)) MsgUserDisconnected :: out)
        else (rooms st, []) in
      let '(calls', out2) :=
        dropFirstCall (λ c, String.eqb (Call.patientId c) sock) (waitingCalls st) in
      (mkState rooms' (adel sock (users st)) calls', out1 ++ out2)
  | None => (mkState (rooms st) (adel sock (users st)) (waitingCalls st), [])
  end.

Definition handle (sock : string) (req : request) (st : state)
    : state * list effect :=
  match req with
  | Register userType name roomId => register sock userType name roomId st
  | CallNurse patientName roomName now1 now2 now3 =>
      callNurse sock patientName roomName now1 now2 now3 st
  | AcceptCall callId nurseName => acceptCall sock callId nurseName st
  | Ready roomId => ready sock roomId st
  | Offer offer target => (st, [EmitTo target (MsgOffer offer sock)])
  | Answer answer target => (st, [EmitTo target (MsgAnswer answer sock)])
  | IceCandidate candidate target => iceCandidate sock candidate target st
  | ToggleAudio roomId enabled =>
      (st, [EmitToOthers sock roomId (MsgPeerAudioToggle enabled)])
  | ToggleVideo roomId enabled =>
      (st, [EmitToOthers sock roomId (MsgPeerVideoToggle enabled)])
  | ScreenShareStart roomId => (st, [EmitToOthers sock roomId MsgPeerScreenShareStart])
  | ScreenShareStop roomId => (st, [EmitToOthers sock roomId MsgPeerScreenShareStop])
  | EndCall roomId => endCall sock roomId st
  | Disconnect => disconnect sock st
  end.

Fixpoint run (log : list (string * request)) (st : state) : state * list effect :=
  match log with
  | [] => (st, [])
  | (sock, req) :: log' =>
      let '(st1, out1) := handle sock req st in
      let '(st2, out2) := run log' st1 in
      (st2, out1 ++ out2)
  end.

Definition stateAfter (log : list (string * request)) : state := (run log init).1.

Inductive reachable : state → Prop :=
| reachable_init : reachable init
| reachable_step sock req st :
    reachable st → reachable (handle sock req st).1.

(** Requests that change no table. *)
Definition relays (req : request) : bool :=
  match req with
  | Ready _ | Offer _ _ | Answer _ _ | IceCandidate _ _
  | ToggleAudio _ _ | ToggleVideo _ _ | ScreenShareStart _ | ScreenShareStop _ => true
  | _ => false
  end.

(** The sender a relayed message names, if it names one. *)
Definition senderOf (m : message) : option string :=
  match m with
  | MsgOffer _ sender | MsgAnswer _ sender | MsgIceCandidate _ sender => Some sender
  | _ => None
  end.

(** A room is either waiting without a nurse or active with the nurse
    whose socket is [nurseId]. *)
Definition room_ok (k : string) (r : Room.t) : Prop :=
  Room.id r = k ∧
  ((Room.status r = "waiting" ∧ Room.nurse r = None ∧ Room.nurseId r = None) ∨
   (∃ n nm, Room.status r = "active" ∧ Room.nurse r = Some (n, nm) ∧
            Room.nurseId r = Some n)).

Record inv (st : state) : Prop := {
  inv_rooms_keys : NoDup (rooms st).*1;
  inv_users_keys : NoDup (users st).*1;
  inv_calls_keys : NoDup (waitingCalls st).*1;
  inv_rooms : ∀ k r, (k, r) ∈ rooms st → room_ok k r;
  inv_users : ∀ k u, (k, u) ∈ users st → User.id u = k;
  inv_calls : ∀ k c, (k, c) ∈ waitingCalls st → Call.id c = k
}.

End Rooms.

(** Requests that only read: the four relays and ['getWaitingQueue']. *)
Definition readsOnly (req : request) : bool :=
  match req with
  | Relay _ _ _ | GetWaitingQueue => true
  | _ => false
  end.

(** ** How the directory evolves *)

(** The ways a request rewrites the [users] table of part_000: a flag write
    ([users[sid].busy = b]), a fresh registration, a deletion. *)
Inductive derived000
  : list (string * Part000.user) → list (string * Part000.user) → Prop :=
| derived000_refl us : derived000 us us
| derived000_busy us us' sid b :
    derived000 us us' → derived000 us (Part000.setBusyAt sid b us')
| derived000_set us us' sock userId role :
    derived000 us us' → truthy userId = true → valid_role role = true →
    derived000 us (aset sock (Part000.mkUser userId role false) us')
| derived000_del us us' sock :
    derived000 us us' → derived000 us (adel sock us').

(** The same for part_001. *)
Inductive derived001
  : list (string * Part001.user) → list (string * Part001.user) → Prop :=
| derived001_refl us : derived001 us us
| derived001_busy us us' sid b :
    derived001 us us' → derived001 us (aalter (Part001.withBusy b) sid us')
| derived001_set us us' sock userId role :
    derived001 us us' → truthy userId = true → valid_role role = true →
    derived001 us (aset sock (Part001.mkUser userId role false sock) us')
| derived001_del us us' sock :
    derived001 us us' → derived001 us (adel sock us').

(** The ids listed by a presence snapshot. *)
Definition snapshotIds (snapshot : list (string * string * bool)) : list string :=
  (λ t, t.1.1) <$> snapshot.

(** ** Sample sessions *)

(** A nurse on socket [s1] and a patient on socket [s2]. *)
Definition nurse_and_patient : list (string * request) :=
  [("s1", Register "n1" "nurse"); ("s2", Register "p1" "patient")].

(** The patient calls the nurse. *)
Definition first_call : list (string * request) :=
  nurse_and_patient ++ [("s2", CallUser "n1")].

(** While in that call, the patient calls a second, idle nurse on [s4]. *)
Definition patient_calls_again : list (string * request) :=
  first_call ++ [("s4", Register "n2" "nurse"); ("s2", CallUser "n2")].

(** A second patient on socket [s3] calls the nurse during that call. *)
Definition second_patient_waits : list (string * request) :=
  first_call ++ [("s3", Register "p2" "patient"); ("s3", CallUser "n1")].

(** The first call ends and the queued patient calls the nurse directly. *)
Definition queued_patient_calls_directly : list (string * request) :=
  second_patient_waits ++ [("s2", EndCall "n1"); ("s3", CallUser "n1")].

(** Three patients call the busy nurse; the second one disconnects. *)
Definition three_patients_wait : list (string * request) :=
  second_patient_waits ++
  [("s5", Register "p3" "patient"); ("s5", CallUser "n1");
   ("s6", Register "p4" "patient"); ("s6", CallUser "n1");
   ("s5", Disconnect)].

(** Socket [s1] registers as nurse [n1] and then as nurse [n9]; a patient
    registers. *)
Definition renamed_nurse : list (string * request) :=
  [("s1", Register "n1" "nurse"); ("s1", Register "n9" "nurse");
   ("s2", Register "p1" "patient")].

(** A nurse registers with the id [__proto__]; a patient registers and
    calls her. *)
Definition proto_nurse : list (string * request) :=
  [("s1", Register "__proto__" "nurse"); ("s2", Register "p1" "patient")].

Definition proto_call : list (string * request) :=
  proto_nurse ++ [("s2", CallUser "__proto__")].

(** Patient [p2] waits for the busy nurse; its socket then registers as
    [p9], and the first call ends. *)
Definition renamed_patient_waits : list (string * request) :=
  second_patient_waits ++ [("s3", Register "p9" "patient"); ("s2", EndCall "n1")].

(** A patient registers, leaves and comes back before the nurse is busy;
    it then waits, followed by another patient. *)
Definition returning_patient_waits : list (string * request) :=
  [("s1", Register "n1" "nurse"); ("s3", Register "p2" "patient");
   ("s3", Disconnect); ("s2", Register "p1" "patient"); ("s2", CallUser "n1");
   ("s3", Register "p2" "patient"); ("s3", CallUser "n1");
   ("s4", Register "p3" "patient"); ("s4", CallUser "n1")].

(** A nurse and a patient register on the room-based server; the patient
    calls for a nurse. *)
Definition patient_calls_nurse : list (string * Rooms.request) :=
  [("s1", Rooms.Register "nurse" "Nora" "");
   ("s2", Rooms.Register "patient" "Pat" "");
   ("s2", Rooms.CallNurse "Pat" "" 1000 1000 1001)].

(** * Properties *)

(** Finds a message in an explicit list of messages. *)
Ltac emitted := solve [repeat (first [by left | right])].

(** Closes a goal whose hypothesis [H] puts a message into an explicit list
    of other messages. *)
Ltac not_emitted H :=
  simpl in H;
  repeat (rewrite ?elem_of_app, ?elem_of_cons, ?elem_of_nil in H);
  naive_solver.

(** ** Strings and tables *)

Lemma truthy_true s : truthy s = true ↔ s ≠ "".
Proof.
  unfold truthy. destruct (String.eqb_spec s ""); simpl; split; congruence.
Qed.

Lemma truthy_opt_Some o :
  truthy_opt o = true ↔ ∃ s, o = Some s ∧ s ≠ "".
Proof.
  destruct o as [s|]; simpl.
  - rewrite truthy_true. split; [eauto | intros (? & [= ->] & ?); done].
  - split; [done | intros (? & ? & ?); done].
Qed.

Section alist_facts.
Context {V : Type}.
Implicit Types (l : list (string * V)) (k : string) (v : V).

Lemma aget_elem_of k v l : aget k l = Some v → (k, v) ∈ l.
Proof.
  induction l as [|[k' v'] l IH]; simpl; [done|].
  destruct (String.eqb_spec k' k); intros; simplify_eq; [left | right; auto].
Qed.

Lemma elem_of_aget k v l : (k, v) ∈ l → is_Some (aget k l).
Proof.
  induction l as [|[k' v'] l IH]; simpl; [by intros ?%elem_of_nil|].
  intros [?|?]%elem_of_cons; destruct (String.eqb_spec k' k); simplify_eq; eauto.
Qed.

Lemma aget_aset k k' v l :
  aget k' (aset k v l) = if String.eqb k k' then Some v else aget k' l.
Proof.
  induction l as [|[k0 v0] l IH]; simpl.
  - done.
  - destruct (String.eqb_spec k0 k); simpl; subst.
    + destruct (String.eqb_spec k k'); done.
    + rewrite IH. destruct (String.eqb_spec k0 k'), (String.eqb_spec k k');
        subst; done.
Qed.

Lemma aget_adel k k' l :
  aget k' (adel k l) = if String.eqb k k' then None else aget k' l.
Proof.
  induction l as [|[k0 v0] l IH]; simpl.
  - by destruct (String.eqb k k').
  - destruct (String.eqb_spec k0 k); simpl; subst.
    + rewrite IH. destruct (String.eqb_spec k k'); done.
    + rewrite IH. destruct (String.eqb_spec k0 k'), (String.eqb_spec k k');
        subst; done.
Qed.

Lemma aget_aalter f k k' l :
  aget k' (aalter f k l) = if String.eqb k k' then f <$> aget k l else aget k' l.
Proof.
  induction l as [|[k0 v0] l IH]; simpl.
  - by destruct (String.eqb k k').
  - destruct (String.eqb_spec k0 k); simpl; subst.
    + destruct (String.eqb_spec k k'); done.
    + rewrite IH. destruct (String.eqb_spec k0 k'), (String.eqb_spec k k');
        subst; done.
Qed.

Lemma elem_of_aset k v e l : e ∈ aset k v l → e = (k, v) ∨ e ∈ l.
Proof.
  induction l as [|[k0 v0] l IH]; simpl.
  - intros ?%list_elem_of_singleton. auto.
  - destruct (String.eqb_spec k0 k); subst;
      rewrite !elem_of_cons; naive_solver.
Qed.

Lemma elem_of_adel k e l : e ∈ adel k l → e ∈ l ∧ e.1 ≠ k.
Proof.
  induction l as [|[k0 v0] l IH]; simpl.
  - by intros ?%elem_of_nil.
  - destruct (String.eqb_spec k0 k); subst;
      rewrite ?elem_of_cons; naive_solver.
Qed.

Lemma elem_of_aalter f k k' v' l :
  (k', v') ∈ aalter f k l → ∃ v, (k', v) ∈ l ∧ (v' = v ∨ v' = f v).
Proof.
  induction l as [|[k0 v0] l IH]; simpl.
  - by intros ?%elem_of_nil.
  - destruct (String.eqb_spec k0 k); subst;
      rewrite !elem_of_cons; setoid_rewrite elem_of_cons; naive_solver.
Qed.

Lemma aset_same k v l : aget k l = Some v → aset k v l = l.
Proof.
  induction l as [|[k0 v0] l IH]; simpl; [done|].
  destruct (String.eqb_spec k0 k); intros; simplify_eq; [done|].
  by rewrite IH.
Qed.

Lemma aalter_const f k v l :
  aget k l = Some v → aalter (λ _, f v) k l = aalter f k l.
Proof.
  induction l as [|[k0 v0] l IH]; simpl; [done|].
  destruct (String.eqb_spec k0 k); intros; simplify_eq; [done|].
  by rewrite IH.
Qed.

(** Looking an entry up by a property of its value that the mutation
    leaves alone. *)
Lemma find_aalter (p : V → bool) f k l :
  (∀ v, p (f v) = p v) →
  fst <$> List.find (λ e, p e.2) (aalter f k l) = fst <$> List.find (λ e, p e.2) l.
Proof.
  intros Hp. induction l as [|[k0 v0] l IH]; simpl; [done|].
  destruct (String.eqb_spec k0 k); simpl; subst.
  - rewrite Hp. by destruct (p v0).
  - destruct (p v0); [done | apply IH].
Qed.

Lemma find_Some_aget (p : V → bool) l k :
  fst <$> List.find (λ e, p e.2) l = Some k → ∃ v, (k, v) ∈ l ∧ p v = true.
Proof.
  induction l as [|[k0 v0] l IH]; simpl; [done|].
  destruct (p v0) eqn:E; simpl.
  - intros [= ->]. exists v0. split; [left | done].
  - intros (v & ? & ?)%IH. exists v. split; [by right | done].
Qed.

Lemma find_None_elem (p : V → bool) l :
  fst <$> List.find (λ e, p e.2) l = None → ∀ k v, (k, v) ∈ l → p v = false.
Proof.
  induction l as [|[k0 v0] l IH]; simpl; [by intros _ ?? ?%elem_of_nil|].
  destruct (p v0) eqn:E; simpl; [done|].
  intros Hn k v [?|?]%elem_of_cons; simplify_eq; eauto.
Qed.

Lemma fst_aalter f k l : (aalter f k l).*1 = l.*1.
Proof.
  induction l as [|[k0 v0] l IH]; simpl; [done|].
  destruct (String.eqb k0 k); simpl; [done | by f_equal].
Qed.

Lemma elem_of_fst_aset k v k' l : k' ∈ (aset k v l).*1 → k' = k ∨ k' ∈ l.*1.
Proof.
  intros ([k0 v0] & -> & [[= -> ->]|Hin]%elem_of_aset)%list_elem_of_fmap; simpl;
    [by left | right].
  apply list_elem_of_fmap. by exists (k0, v0).
Qed.

Lemma NoDup_fst_aset k v l : NoDup l.*1 → NoDup (aset k v l).*1.
Proof.
  induction l as [|[k0 v0] l IH]; simpl.
  - intros _. apply NoDup_singleton.
  - rewrite NoDup_cons. intros [Hk0 Hl].
    destruct (String.eqb_spec k0 k); simpl; rewrite NoDup_cons; [done|].
    split; [|auto]. intros [?|?]%elem_of_fst_aset; done.
Qed.

Lemma NoDup_fst_adel k l : NoDup l.*1 → NoDup (adel k l).*1.
Proof.
  induction l as [|[k0 v0] l IH]; simpl; [done|].
  rewrite NoDup_cons. intros [Hk0 Hl].
  destruct (String.eqb_spec k0 k); simpl; [auto|].
  rewrite NoDup_cons. split; [|auto].
  intros ([k1 v1] & -> & [Hin _]%elem_of_adel)%list_elem_of_fmap.
  apply Hk0, list_elem_of_fmap. by exists (k1, v1).
Qed.

Lemma NoDup_fst_aget k v l : NoDup l.*1 → (k, v) ∈ l → aget k l = Some v.
Proof.
  induction l as [|[k0 v0] l IH]; simpl; [by intros _ ?%elem_of_nil|].
  rewrite NoDup_cons. intros [Hk0 Hl] [[= -> ->]|Hin]%elem_of_cons.
  - by rewrite String.eqb_refl.
  - destruct (String.eqb_spec k0 k); [|auto]. subst.
    destruct Hk0. apply list_elem_of_fmap. by exists (k, v).
Qed.

Lemma existsb_false_elem (p : V → bool) l :
  existsb (λ e, p e.2) l = false → ∀ k v, (k, v) ∈ l → p v = false.
Proof.
  induction l as [|[k0 v0] l IH]; simpl; [by intros _ ?? ?%elem_of_nil|].
  intros [? ?]%orb_false_iff k v [?|?]%elem_of_cons; simplify_eq; eauto.
Qed.
End alist_facts.

(** ** The queue operations *)

Lemma includes_elem_of x q : includes x q = true ↔ x ∈ q.
Proof.
  induction q as [|y q IH]; simpl.
  - split; [done | by intros ?%elem_of_nil].
  - rewrite orb_true_iff, IH, elem_of_cons.
    destruct (String.eqb_spec y x); naive_solver.
Qed.

Lemma includes_false x q : includes x q = false ↔ x ∉ q.
Proof. rewrite <- includes_elem_of. by destruct (includes x q). Qed.

Lemma indexOf_None x q : indexOf x q = None ↔ x ∉ q.
Proof.
  induction q as [|y q IH]; simpl.
  - split; [by intros _ ?%elem_of_nil | done].
  - rewrite not_elem_of_cons. destruct (String.eqb_spec y x).
    + naive_solver.
    + rewrite fmap_None, IH. naive_solver.
Qed.

Lemma indexOf_Some x q i : indexOf x q = Some i → q !! i = Some x.
Proof.
  revert i. induction q as [|y q IH]; simpl; [done|]. intros i.
  destruct (String.eqb_spec y x); [by intros [= <-]; subst|].
  intros (j & ? & ->)%fmap_Some. simpl. auto.
Qed.

Lemma elem_of_delete_index (q : list string) i y : y ∈ delete i q → y ∈ q.
Proof.
  revert i; induction q as [|z q IH]; intros [|i]; simpl;
    rewrite ?elem_of_cons; naive_solver.
Qed.

Lemma NoDup_delete_index (q : list string) i : NoDup q → NoDup (delete i q).
Proof.
  revert i; induction q as [|z q IH]; intros [|i]; simpl;
    rewrite ?NoDup_cons; [done.. | naive_solver |].
  intros [? ?]. split; [|auto]. by intros ?%elem_of_delete_index.
Qed.

Lemma elem_of_removeId x y q : y ∈ removeId x q → y ∈ q.
Proof.
  unfold removeId, splice1. destruct (indexOf x q); [|done].
  apply elem_of_delete_index.
Qed.

Lemma NoDup_removeId x q : NoDup q → NoDup (removeId x q).
Proof.
  unfold removeId, splice1. destruct (indexOf x q); [|done].
  apply NoDup_delete_index.
Qed.

Lemma removeId_cons x y q :
  removeId x (y :: q) = if String.eqb y x then q else y :: removeId x q.
Proof.
  unfold removeId, splice1. simpl. destruct (String.eqb y x); [done|].
  by destruct (indexOf x q).
Qed.

Lemma not_elem_of_removeId x q : NoDup q → x ∉ removeId x q.
Proof.
  induction q as [|y q IH]; [by intros _ ?%elem_of_nil|].
  rewrite NoDup_cons, removeId_cons. intros [? ?].
  destruct (String.eqb_spec y x); subst; [done|].
  rewrite not_elem_of_cons. auto.
Qed.

Lemma NoDup_pushUnique x q : NoDup q → NoDup (pushUnique x q).
Proof.
  unfold pushUnique. destruct (includes x q) eqn:E; [done|].
  apply includes_false in E. intros. apply NoDup_app.
  split_and!; [done | | apply NoDup_singleton].
  intros y ? ->%list_elem_of_singleton. done.
Qed.

(** ** part_000: what every reachable state satisfies *)

(** ** Plain objects *)

Lemma objSet_ne k v o : k ≠ "__proto__" → objSet k v o = <[k := v]> o.
Proof. unfold objSet. by intros ->%String.eqb_neq. Qed.

Lemma objSet_lookup k v o x y :
  objSet k v o !! x = Some y → (x = k ∧ y = v) ∨ o !! x = Some y.
Proof.
  unfold objSet. destruct (String.eqb k "__proto__"); [by right|].
  rewrite lookup_insert. case_decide; naive_solver.
Qed.

Lemma objGet_string k v o : objGet k o = JString v ↔ o !! k = Some v.
Proof.
  unfold objGet. destruct (o !! k); [naive_solver|].
  by destruct (inherited k).
Qed.

Lemma objGet_plain k o :
  inherited k = false → objGet k o = from_option JString JUndefined (o !! k).
Proof. unfold objGet. intros ->. by destruct (o !! k). Qed.

Module Facts000.
Import Part000.

Lemma setBusyAt_elem s u k b us :
  (s, u) ∈ setBusyAt k b us → ∃ u0, (s, u0) ∈ us ∧ id u = id u0 ∧ role u = role u0.
Proof.
  intros (u0 & ? & [->| ->])%elem_of_aalter; exists u0; done.
Qed.

Lemma users_ok_setBusyAt k b us : users_ok us → users_ok (setBusyAt k b us).
Proof.
  intros (Hnd & Hne & Hinj). split_and!.
  - unfold setBusyAt. by rewrite fst_aalter.
  - intros s u (u0 & ? & -> & _)%setBusyAt_elem. eauto.
  - intros s1 u1 s2 u2 (v1 & ? & -> & _)%setBusyAt_elem
      (v2 & ? & -> & _)%setBusyAt_elem. eauto.
Qed.

Lemma find_setBusyAt k b us x :
  fst <$> List.find (λ e, String.eqb (id e.2) x) (setBusyAt k b us)
  = fst <$> List.find (λ e, String.eqb (id e.2) x) us.
Proof. apply (find_aalter (λ u, String.eqb (id u) x)). done. Qed.

Lemma findSocket_Some st x s :
  findSocketByUserId st x = Some s → ∃ u, (s, u) ∈ users st ∧ id u = x.
Proof.
  intros (u & ? & ?%String.eqb_eq)%(find_Some_aget (λ u, String.eqb (id u) x)).
  eauto.
Qed.

Lemma findSocket_None st x s u :
  findSocketByUserId st x = None → (s, u) ∈ users st → id u ≠ x.
Proof.
  intros Hn Hin.
  apply (find_None_elem (λ u, String.eqb (id u) x)) with (k := s) (v := u) in Hn;
    [|done].
  by apply String.eqb_neq.
Qed.

(** The socket found for the id of a directory entry is that entry's. *)
Lemma findSocket_entry st s u :
  users_ok (users st) → (s, u) ∈ users st → findSocketByUserId st (id u) = Some s.
Proof.
  intros (_ & _ & Hinj) Hin.
  destruct (findSocketByUserId st (id u)) as [s'|] eqn:E.
  - apply findSocket_Some in E as (u' & ? & ?). f_equal. eauto.
  - by eapply findSocket_None in E.
Qed.

Lemma startCall_inv_000 a b st :
  inv st → a ≠ "" → b ≠ "" → inv (startCall a b st).1.
Proof.
  intros [] ??. unfold startCall.
  destruct (negb _ || negb _); [done|]. simpl.
  split; simpl; [by do 2 apply users_ok_setBusyAt | done | done |].
  intros x y [[_ ->]|[[_ ->]|?]%objSet_lookup]%objSet_lookup; eauto.
Qed.

Lemma endCall_queue_000 a st : waitingQueue (endCall a st).1 = waitingQueue st.
Proof. unfold endCall. by destruct (negb _). Qed.

Lemma endCall_inv_000 a st : inv st → inv (endCall a st).1.
Proof.
  intros []. unfold endCall.
  destruct (negb _); [done|]. simpl.
  split; simpl; [| done | done |].
  - repeat case_match; repeat apply users_ok_setBusyAt; done.
  - intros x y. rewrite !lookup_delete.
    repeat case_decide; naive_solver.
Qed.

Lemma register_inv_000 sock userId role st :
  inv st → sock ≠ "" → inv (register sock userId role st).1.
Proof.
  intros [(Hnd & Hne & Hinj) ? ? ?] Hsock. unfold register.
  destruct (negb (truthy userId) || _) eqn:Ev; [done|].
  apply orb_false_iff in Ev as [Hid%negb_false_iff%truthy_true _].
  destruct (existsb _ _) eqn:Ex; [done|]. simpl.
  pose proof (existsb_false_elem (λ u, String.eqb (id u) userId) _ Ex) as Hfresh.
  split; simpl; [| done..].
  split_and!.
  - by apply NoDup_fst_aset.
  - intros s u [[= -> ->]|?]%elem_of_aset; simpl; eauto.
  - intros s1 u1 s2 u2 [[= -> ->]|H1]%elem_of_aset [[= -> ->]|H2]%elem_of_aset;
      simpl; eauto.
    + intros E. apply Hfresh in H2. apply String.eqb_neq in H2. congruence.
    + intros E. apply Hfresh in H1. by apply String.eqb_neq in H1.
Qed.

Lemma callUser_inv_000 sock calleeId st st' out :
  inv st → callUser sock calleeId st = Returns (st', out) → inv st'.
Proof.
  intros Hinv. unfold callUser.
  destruct (aget sock (users st)) as [caller|] eqn:Ec; [|by intros [= <- _]].
  destruct (negb (truthy_opt _)) eqn:Et; [by intros [= <- _]|].
  apply negb_false_iff, truthy_opt_Some in Et as (cs & Ecs & ?).
  rewrite Ecs. simpl.
  destruct (aget cs (users st)) as [callee|] eqn:Ee; [|done].
  apply aget_elem_of in Ec, Ee.
  destruct Hinv as [(Hnd & Hne & Hinj) ? ? ?].
  destruct (String.eqb _ _); [by intros [= <- _]|].
  destruct (busy callee).
  - destruct (_ && _); [|by intros [= <- _]].
    destruct (negb (includes _ _)) eqn:Ei; intros [= <- _]; [|done].
    apply negb_true_iff, includes_false in Ei.
    split; simpl; [done | | | done].
    + apply NoDup_app. split_and!; [done | | apply NoDup_singleton].
      by intros y ? ->%list_elem_of_singleton.
    + intros x [?| ->%list_elem_of_singleton]%elem_of_app; [auto|].
      by apply Hne in Ec as [_ ?].
  - destruct (startCall _ _ _) as [st1 out1] eqn:Es. intros [= <- _].
    change st1 with (st1, out1).1. rewrite <- Es.
    apply startCall_inv_000; [done | |].
    + by apply Hne in Ec as [_ ?].
    + by apply Hne in Ee as [_ ?].
Qed.

Lemma acceptWaiting_inv_000 sock patientId st :
  inv st → inv (acceptWaiting sock patientId st).1.
Proof.
  intros Hinv. unfold acceptWaiting.
  destruct (aget sock (users st)) as [nurse|] eqn:En; [|done].
  destruct (negb (String.eqb _ _)); [done|].
  destruct (indexOf _ _) as [i|] eqn:Ei; [|done].
  apply aget_elem_of in En.
  assert (inv (mkState (users st) (activeCalls st)
                       (splice1 i (waitingQueue st)))) as Hinv1.
  { destruct Hinv. split; simpl; [done | by apply NoDup_delete_index | | done].
    intros x ?%elem_of_delete_index. auto. }
  destruct (negb (truthy_opt _)); [done|].
  destruct (startCall _ _ _) as [st2 out2] eqn:Es. simpl.
  change st2 with (st2, out2).1. rewrite <- Es.
  apply startCall_inv_000; [done | |].
  - destruct Hinv as [(_ & Hne & _) _ _ _]. by apply Hne in En as [_ ?].
  - destruct Hinv as [_ _ Hq _]. apply Hq.
    apply indexOf_Some in Ei. by eapply list_elem_of_lookup_2.
Qed.

Lemma endCallRequest_inv_000 sock to st : inv st → inv (endCallRequest sock to st).1.
Proof.
  intros Hinv. unfold endCallRequest.
  repeat case_match; try done; by apply endCall_inv_000.
Qed.

Lemma disconnect_inv sock st : inv st → inv (disconnect sock st).1.
Proof.
  intros Hinv. unfold disconnect.
  destruct (aget sock (users st)) as [user|]; [|done].
  destruct (endCall _ _) as [st1 out1] eqn:Ee. simpl.
  assert (inv st1) as [(Hnd & Hne & Hinj) ? ? ?].
  { change st1 with (st1, out1).1. rewrite <- Ee. by apply endCall_inv_000. }
  split; simpl; [| by apply NoDup_removeId | | done].
  - split_and!.
    + by apply NoDup_fst_adel.
    + intros s u [? _]%elem_of_adel. eauto.
    + intros s1 u1 s2 u2 [? _]%elem_of_adel [? _]%elem_of_adel. eauto.
  - intros x ?%elem_of_removeId. auto.
Qed.

Lemma handle_inv_000 sock req st st' out :
  inv st → sock ≠ "" → handle sock req st = Returns (st', out) → inv st'.
Proof.
  intros Hinv Hsock. destruct req; simpl.
  - intros [= E]. change st' with (st', out).1. rewrite <- E.
    by apply register_inv_000.
  - by apply callUser_inv_000.
  - intros [= E]. change st' with (st', out).1. rewrite <- E.
    by apply acceptWaiting_inv_000.
  - unfold relay, signal, chatMessage.
    repeat case_match; intros; simplify_eq; done.
  - intros [= E]. change st' with (st', out).1. rewrite <- E.
    by apply endCallRequest_inv_000.
  - by intros [= <- _].
  - intros [= E]. change st' with (st', out).1. rewrite <- E.
    by apply disconnect_inv.
Qed.

Lemma init_inv_000 : inv init.
Proof.
  split; simpl.
  - split_and!; [apply NoDup_nil_2 | intros *; by intros ?%elem_of_nil..].
  - apply NoDup_nil_2.
  - by intros ? ?%elem_of_nil.
  - intros a b. by rewrite lookup_empty.
Qed.

Lemma reachable_inv_000 st : reachable st → inv st.
Proof.
  induction 1; [apply init_inv_000 | by eapply handle_inv_000].
Qed.

(** A log that runs to completion ends in a reachable state. *)
Lemma run_reachable_000 log st st' out :
  reachable st → Forall (λ e, e.1 ≠ "") log →
  run log st = Returns (st', out) → reachable st'.
Proof.
  revert st out. induction log as [|[sock req] log IH]; simpl; intros st out Hr Hl.
  - by intros [= <- _].
  - apply Forall_cons in Hl as [? ?].
    destruct (handle sock req st) as [[st1 out1]|] eqn:Eh; [|done].
    destruct (run log st1) as [[st2 out2]|] eqn:Er; [|done].
    intros [= <- _]. eapply IH; [|done..].
    by eapply reachable_step.
Qed.

Lemma stateAfter_reachable_000 log :
  Forall (λ e, e.1 ≠ "") log → reachable (stateAfter log).
Proof.
  intros Hl. unfold stateAfter.
  destruct (run log init) as [[st out]|] eqn:E; [|apply reachable_init].
  eapply run_reachable_000; [apply reachable_init | done | done].
Qed.

End Facts000.

(** ** part_001: what every reachable state satisfies *)

Module Facts001.
Import Part001.

Lemma getUserById_Some st x u :
  getUserById st x = Some u ↔
  ∃ k, userSockets st !! x = Some k ∧ k ≠ "" ∧ aget k (users st) = Some u.
Proof.
  unfold getUserById. destruct (truthy_opt _) eqn:E.
  - apply truthy_opt_Some in E as (k & E & ?). rewrite E. simpl. naive_solver.
  - split; [done|]. intros (k & Ek & ? & _). rewrite Ek in E. simpl in E.
    apply truthy_true in H. congruence.
Qed.

(** The id of a directory entry resolves to that entry's socket. *)
Lemma getUserById_entry st s u :
  users_ok (users st) (userSockets st) → (s, u) ∈ users st →
  getUserById st (id u) = aget s (users st).
Proof.
  intros Hok Hin. destruct (Hok _ _ Hin) as (? & ? & ? & Hs).
  unfold getUserById. rewrite Hs. simpl.
  by apply truthy_true in H as ->.
Qed.

Lemma getUserById_id st x u :
  users_ok (users st) (userSockets st) → getUserById st x = Some u →
  (socketId u, u) ∈ users st ∧ userSockets st !! x = Some (socketId u) ∧
  socketId u ≠ "" ∧ aget (socketId u) (users st) = Some u.
Proof.
  intros Hok (k & ? & ? & Hg)%getUserById_Some.
  pose proof (aget_elem_of _ _ _ Hg) as Hin.
  destruct (Hok _ _ Hin) as (_ & _ & -> & _). done.
Qed.

Lemma setUserBusy_eq x b st u :
  users_ok (users st) (userSockets st) → getUserById st x = Some u →
  setUserBusy x b st
  = mkState (aalter (withBusy b) (socketId u) (users st))
            (userSockets st) (activeCalls st) (waitingQueue st).
Proof.
  intros Hok Hg. unfold setUserBusy. rewrite Hg.
  destruct (getUserById_id _ _ _ Hok Hg) as (_ & -> & _ & Ha). simpl.
  f_equal. fold (withBusy b u).
  rewrite (aalter_const (withBusy b) _ _ _ Ha).
  apply aset_same. rewrite aget_aalter, String.eqb_refl, Ha. done.
Qed.

Lemma users_ok_withBusy k b us socks :
  users_ok us socks → users_ok (aalter (withBusy b) k us) socks.
Proof.
  intros Hok s u (u0 & Hin & [->| ->])%elem_of_aalter; by apply Hok in Hin.
Qed.

Lemma setUserBusy_frame x b st :
  userSockets (setUserBusy x b st) = userSockets st ∧
  activeCalls (setUserBusy x b st) = activeCalls st ∧
  waitingQueue (setUserBusy x b st) = waitingQueue st.
Proof. unfold setUserBusy. by destruct (getUserById st x). Qed.

Lemma setUserBusy_inv x b st : inv st → inv (setUserBusy x b st).
Proof.
  intros Hinv. destruct (getUserById st x) as [u|] eqn:E.
  - destruct Hinv. rewrite (setUserBusy_eq _ _ _ _ inv_users0 E).
    split; simpl; [by apply users_ok_withBusy | done..].
  - unfold setUserBusy. by rewrite E.
Qed.

Lemma startCall_inv_001 a b st :
  inv st → a ≠ "" → b ≠ "" → inv (startCall a b st).1.1.
Proof.
  intros Hinv ??. unfold startCall.
  destruct (getUserById st a); [|done].
  destruct (getUserById st b); [|done]. simpl.
  assert (inv (setUserBusy b true (setUserBusy a true st))) as []
    by by do 2 apply setUserBusy_inv.
  split; simpl; [done..|].
  intros x y. rewrite !lookup_insert.
  repeat case_decide; naive_solver.
Qed.

Lemma endCall_queue_001 a st : waitingQueue (endCall a st).1 = waitingQueue st.
Proof.
  unfold endCall. destruct (negb _); [done|]. simpl.
  repeat case_match; rewrite ?(proj2 (proj2 (setUserBusy_frame _ _ _))); done.
Qed.

Lemma endCall_userSockets a st : userSockets (endCall a st).1 = userSockets st.
Proof.
  unfold endCall. destruct (negb _); [done|]. simpl.
  repeat case_match; rewrite ?(proj1 (setUserBusy_frame _ _ _)); done.
Qed.

Lemma endCall_inv_001 a st : inv st → inv (endCall a st).1.
Proof.
  intros Hinv. unfold endCall.
  destruct (negb _); [done|]. simpl.
  match goal with
  | |- inv (mkState (users ?s) _ _ _) => assert (inv s) as []
  end.
  { repeat case_match; repeat apply setUserBusy_inv; done. }
  split; simpl; [done..|].
  intros x y. rewrite !lookup_delete.
  repeat case_decide; naive_solver.
Qed.

Lemma register_inv_001 sock userId role st :
  inv st → sock ≠ "" → inv (register sock userId role st).1.
Proof.
  intros [Hok ? ? ?] Hsock. unfold register.
  destruct (negb (truthy userId)) eqn:Ev; [done|].
  apply negb_false_iff, truthy_true in Ev.
  destruct (negb (valid_role role)); [done|].
  destruct (userSockets st !! userId) eqn:Es; [by destruct (String.eqb _ _)|].
  split; simpl; [| done..].
  intros s u [[= -> ->]|Hin]%elem_of_aset; simpl.
  - by rewrite lookup_insert_eq.
  - destruct (Hok _ _ Hin) as (? & ? & ? & Hs). split_and!; [done..|].
    rewrite lookup_insert_ne; [done|]. congruence.
Qed.

Lemma callUser_inv_001 sock calleeId st : inv st → inv (callUser sock calleeId st).1.
Proof.
  intros Hinv. unfold callUser, getUserBySocketId.
  destruct (aget sock (users st)) as [caller|] eqn:Ec; [|done].
  destruct (getUserById st calleeId) as [callee|] eqn:Ee; [|done].
  apply aget_elem_of in Ec.
  pose proof (inv_users _ Hinv) as Hok.
  apply (getUserById_id _ _ _ Hok) in Ee as (Ee & _).
  destruct (String.eqb _ _); [done|].
  destruct (busy callee).
  - destruct (_ && _); [|done].
    destruct (negb (includes _ _)) eqn:Ei; simpl; [|by destruct Hinv].
    apply negb_true_iff, includes_false in Ei.
    destruct Hinv. split; simpl; [done | | | done].
    + apply NoDup_app. split_and!; [done | | apply NoDup_singleton].
      by intros y ? ->%list_elem_of_singleton.
    + intros x [?| ->%list_elem_of_singleton]%elem_of_app; [auto|].
      by apply Hok in Ec as (_ & ? & _).
  - destruct (startCall _ _ _) as [[st1 out1] ok] eqn:Es.
    assert (inv st1).
    { change st1 with (st1, out1, ok).1.1. rewrite <- Es.
      apply startCall_inv_001; [done | |].
      - by apply Hok in Ec as (_ & ? & _).
      - by apply Hok in Ee as (_ & ? & _). }
    by destruct ok.
Qed.

Lemma acceptWaiting_inv_001 sock patientId st :
  inv st → inv (acceptWaiting sock patientId st).1.
Proof.
  intros Hinv. unfold acceptWaiting, getUserBySocketId.
  destruct (aget sock (users st)) as [nurse|] eqn:En; [|done].
  destruct (negb (String.eqb _ _)); [done|].
  destruct (indexOf _ _) as [i|] eqn:Ei; [|done].
  apply aget_elem_of in En.
  assert (inv (mkState (users st) (userSockets st) (activeCalls st)
                       (splice1 i (waitingQueue st)))) as Hinv1.
  { destruct Hinv. split; simpl; [done | by apply NoDup_delete_index | | done].
    intros x ?%elem_of_delete_index. auto. }
  destruct (getUserById _ patientId); [|done].
  destruct (startCall _ _ _) as [[st2 out2] ok] eqn:Es.
  assert (inv st2).
  { change st2 with (st2, out2, ok).1.1. rewrite <- Es.
    apply startCall_inv_001; [done | |].
    - destruct Hinv as [Hok _ _ _]. by apply Hok in En as (_ & ? & _).
    - destruct Hinv as [_ _ Hq _]. apply Hq.
      apply indexOf_Some in Ei. by eapply list_elem_of_lookup_2. }
  by destruct ok.
Qed.

Lemma endCallRequest_inv_001 sock to st : inv st → inv (endCallRequest sock to st).1.
Proof.
  intros Hinv. unfold endCallRequest.
  repeat case_match; try done; by apply endCall_inv_001.
Qed.

Lemma cleanupUser_inv sock st : inv st → inv (cleanupUser sock st).1.
Proof.
  intros Hinv. unfold cleanupUser.
  destruct (aget sock (users st)) as [user|] eqn:Eu; [|done].
  match goal with
  | |- context [let '(_, _) := ?e in _] => destruct e as [st1 out1] eqn:Ee
  end. simpl.
  apply aget_elem_of in Eu.
  assert (inv st1 ∧ userSockets st1 = userSockets st) as [[Hok ? ? ?] Hsocks].
  { destruct (activeCalls st !! id user); [|by simplify_eq].
    change st1 with (st1, out1).1. rewrite <- Ee.
    split; [by apply endCall_inv_001 | apply endCall_userSockets]. }
  split; simpl; [| by apply NoDup_removeId | | done].
  - intros s u [Hin Hs]%elem_of_adel. simpl in Hs.
    destruct (Hok _ _ Hin) as (? & ? & ? & Hsk). split_and!; [done..|].
    rewrite lookup_delete_ne; [done|].
    intros E. apply (inv_users _ Hinv) in Eu as (_ & _ & _ & Hs1).
    rewrite Hsocks in Hsk. congruence.
  - intros x ?%elem_of_removeId. auto.
Qed.

Lemma handle_inv_001 sock req st : inv st → sock ≠ "" → inv (handle sock req st).1.
Proof.
  intros Hinv Hsock. destruct req; simpl.
  - by apply register_inv_001.
  - by apply callUser_inv_001.
  - by apply acceptWaiting_inv_001.
  - unfold relay. by repeat case_match.
  - by apply endCallRequest_inv_001.
  - unfold getWaitingQueue. by repeat case_match.
  - by apply cleanupUser_inv.
Qed.

Lemma init_inv_001 : inv init.
Proof.
  split; simpl.
  - by intros ?? ?%elem_of_nil.
  - apply NoDup_nil_2.
  - by intros ? ?%elem_of_nil.
  - intros a b. by rewrite lookup_empty.
Qed.

Lemma reachable_inv_001 st : reachable st → inv st.
Proof.
  induction 1; [apply init_inv_001 | by apply handle_inv_001].
Qed.

Lemma run_reachable_001 log st :
  reachable st → Forall (λ e, e.1 ≠ "") log → reachable (run log st).1.
Proof.
  revert st. induction log as [|[sock req] log IH]; simpl; intros st Hr Hl; [done|].
  apply Forall_cons in Hl as [? ?].
  destruct (handle sock req st) as [st1 out1] eqn:Eh.
  specialize (IH st1). destruct (run log st1) as [st2 out2]. simpl in *.
  apply IH; [|done]. change st1 with (st1, out1).1. rewrite <- Eh.
  by apply reachable_step.
Qed.

Lemma stateAfter_reachable_001 log :
  Forall (λ e, e.1 ≠ "") log → reachable (stateAfter log).
Proof. intros. by apply run_reachable_001; [apply reachable_init|]. Qed.

End Facts001.

(** ** part_000: effect of [startCall] and [endCall] *)

Module Calls000.
Import Part000 Facts000.

Lemma findSocket_aget st x s :
  findSocketByUserId st x = Some s → is_Some (aget s (users st)).
Proof. intros (u & ? & _)%findSocket_Some. by eapply elem_of_aget. Qed.

Lemma isBusy_setBusyAt st us k b x q ac :
  us = setBusyAt k b (users st) →
  isBusy (mkState us ac q) x
  = match findSocketByUserId st x with
    | Some s => if String.eqb k s then Some b else isBusy st x
    | None => None
    end.
Proof.
  intros ->. unfold isBusy, lookupById, findSocketByUserId. simpl.
  rewrite find_setBusyAt.
  destruct (fst <$> List.find _ (users st)) as [s|] eqn:E; [|done].
  unfold setBusyAt. rewrite aget_aalter.
  destruct (String.eqb_spec k s); [|done]. subst.
  destruct (findSocket_aget st x s E) as [u ->]. done.
Qed.

Lemma findSocket_setBusyAt st us k b x q ac :
  us = setBusyAt k b (users st) →
  findSocketByUserId (mkState us ac q) x = findSocketByUserId st x.
Proof. intros ->. unfold findSocketByUserId. simpl. apply find_setBusyAt. Qed.

(** When both parties are online, [startCall] marks both busy and binds
    each to the other; nothing else in the state changes. *)
Lemma startCall_paired_000 a b st sa sb :
  findSocketByUserId st a = Some sa → sa ≠ "" →
  findSocketByUserId st b = Some sb → sb ≠ "" →
  let st' := (startCall a b st).1 in
  isBusy st' a = Some true ∧ isBusy st' b = Some true ∧
  activeCalls st' = objSet b a (objSet a b (activeCalls st)) ∧
  waitingQueue st' = waitingQueue st ∧
  (∀ x, findSocketByUserId st' x = findSocketByUserId st x) ∧
  (startCall a b st).2 =
    [(ToSocket sb, EvIncomingCall a None); (ToAll, EvOnlineUsers (getOnlineUsers st'))].
Proof.
  intros Ea Ha Eb Hb. unfold startCall. rewrite Ea, Eb. simpl.
  apply truthy_true in Ha as ->, Hb as ->. simpl.
  pose (st1 := mkState (setBusyAt sa true (users st)) (activeCalls st) (waitingQueue st)).
  assert (∀ x, findSocketByUserId st1 x = findSocketByUserId st x) as H1
    by (intros; by eapply findSocket_setBusyAt).
  split_and!; try done.
  - erewrite (isBusy_setBusyAt st1); [|done].
    rewrite H1, Ea. destruct (String.eqb sb sa); [done|]. unfold st1.
    erewrite (isBusy_setBusyAt st); [|done]. by rewrite Ea, String.eqb_refl.
  - erewrite (isBusy_setBusyAt st1); [|done].
    by rewrite H1, Eb, String.eqb_refl.
  - intros x. rewrite <- H1. by eapply (findSocket_setBusyAt st1).
Qed.

Lemma paired_insert (a b : string) (ac : gmap string string) :
  <[b := a]> (<[a := b]> ac) !! a = Some b ∧
  <[b := a]> (<[a := b]> ac) !! b = Some a.
Proof.
  rewrite lookup_insert_eq. split; [|done].
  rewrite lookup_insert. case_decide; [by subst|]. by rewrite lookup_insert_eq.
Qed.

(** Both assignments of [startCall] take effect unless an id is
    [__proto__]. *)
Lemma paired_lookup (a b : string) (ac : gmap string string) :
  a ≠ "__proto__" → b ≠ "__proto__" →
  objSet b a (objSet a b ac) !! a = Some b ∧
  objSet b a (objSet a b ac) !! b = Some a.
Proof. intros Ha Hb. rewrite !objSet_ne by done. apply paired_insert. Qed.

(** [endCall] on a bound id: both bindings go, both parties that are
    online become idle, and the partner's socket is told who hung up. *)
Lemma endCall_released_000 a b st :
  activeCalls st !! a = Some b → b ≠ "" →
  let st' := (endCall a st).1 in
  activeCalls st' = delete b (delete a (activeCalls st)) ∧
  waitingQueue st' = waitingQueue st ∧
  (∀ x, findSocketByUserId st' x = findSocketByUserId st x) ∧
  (∀ s, findSocketByUserId st a = Some s → s ≠ "" → isBusy st' a = Some false) ∧
  (∀ s, findSocketByUserId st b = Some s → s ≠ "" →
        isBusy st' b = Some false ∧ (ToSocket s, EvCallEnded a None) ∈ (endCall a st).2).
Proof.
  intros Eab Hb. unfold endCall. rewrite (proj2 (objGet_string _ _ _) Eab). simpl.
  apply truthy_true in Hb as Hb'. rewrite Hb'. simpl.
  destruct (findSocketByUserId st a) as [sa|] eqn:Ea;
    destruct (findSocketByUserId st b) as [sb|] eqn:Eb; simpl.
  - destruct (truthy sa) eqn:Ta, (truthy sb) eqn:Tb; simpl;
      (split_and!; [done | done | | |]).
    all: try (intros s [= <-] ?%truthy_true; congruence).
    all: try (intros x; unfold findSocketByUserId; simpl;
              rewrite ?find_setBusyAt; done).
    + intros s [= <-] _.
      pose (st1 := mkState (setBusyAt sa false (users st)) (activeCalls st)
                          (waitingQueue st)).
      erewrite (isBusy_setBusyAt st1); [|done]. unfold st1.
      erewrite (findSocket_setBusyAt st); [|done]. rewrite Ea.
      destruct (String.eqb sb sa); [done|].
      erewrite (isBusy_setBusyAt st); [|done]. by rewrite Ea, String.eqb_refl.
    + intros s [= <-] _. split; [|by left].
      pose (st1 := mkState (setBusyAt sa false (users st)) (activeCalls st)
                          (waitingQueue st)).
      erewrite (isBusy_setBusyAt st1); [|done]. unfold st1.
      erewrite (findSocket_setBusyAt st); [|done].
      by rewrite Eb, String.eqb_refl.
    + intros s [= <-] _.
      erewrite (isBusy_setBusyAt st); [|done]. by rewrite Ea, String.eqb_refl.
    + intros s [= <-] _. split; [|by left].
      erewrite (isBusy_setBusyAt st); [|done]. by rewrite Eb, String.eqb_refl.
  - destruct (truthy sa) eqn:Ta; simpl; (split_and!; [done | done | | | done]).
    all: try (intros s [= <-] ?%truthy_true; congruence).
    all: try (intros x; unfold findSocketByUserId; simpl;
              rewrite ?find_setBusyAt; done).
    intros s [= <-] _.
    erewrite (isBusy_setBusyAt st); [|done]. by rewrite Ea, String.eqb_refl.
  - destruct (truthy sb) eqn:Tb; simpl; (split_and!; [done | done | | done |]).
    all: try (intros s [= <-] ?%truthy_true; congruence).
    all: try (intros x; unfold findSocketByUserId; simpl;
              rewrite ?find_setBusyAt; done).
    intros s [= <-] _. split; [|by left].
    erewrite (isBusy_setBusyAt st); [|done]. by rewrite Eb, String.eqb_refl.
  - split_and!; done.
Qed.

End Calls000.

(** ** part_001: effect of [startCall] and [endCall] *)

Module Calls001.
Import Part001 Facts001.

(** Reading the directory after one entry's [busy] flag was written. *)
Lemma getUserById_withBusy st k b x :
  users_ok (users st) (userSockets st) →
  getUserById (mkState (aalter (withBusy b) k (users st)) (userSockets st)
                       (activeCalls st) (waitingQueue st)) x
  = (λ u, if String.eqb k (socketId u) then withBusy b u else u) <$> getUserById st x.
Proof.
  intros Hok. unfold getUserById. simpl.
  destruct (truthy_opt _); [|done].
  rewrite aget_aalter.
  destruct (aget (js_key _) (users st)) as [u|] eqn:E; simpl.
  - pose proof (aget_elem_of _ _ _ E) as (_ & _ & -> & _)%Hok.
    destruct (String.eqb_spec k (js_key (userSockets st !! x))); [|done].
    subst. by rewrite E.
  - destruct (String.eqb_spec k (js_key (userSockets st !! x))); [|done].
    subst. by rewrite E.
Qed.

Lemma getUserById_setUserBusy st y b x :
  users_ok (users st) (userSockets st) →
  getUserById (setUserBusy y b st) x
  = match getUserById st y with
    | Some uy =>
        (λ u, if String.eqb (socketId uy) (socketId u) then withBusy b u else u)
          <$> getUserById st x
    | None => getUserById st x
    end.
Proof.
  intros Hok. destruct (getUserById st y) as [uy|] eqn:E.
  - rewrite (setUserBusy_eq _ _ _ _ Hok E). by apply getUserById_withBusy.
  - unfold setUserBusy. by rewrite E.
Qed.

Lemma setUserBusy_users_ok y b st :
  users_ok (users st) (userSockets st) →
  users_ok (users (setUserBusy y b st)) (userSockets (setUserBusy y b st)).
Proof.
  intros Hok. destruct (getUserById st y) as [uy|] eqn:E.
  - rewrite (setUserBusy_eq _ _ _ _ Hok E). simpl. by apply users_ok_withBusy.
  - unfold setUserBusy. by rewrite E.
Qed.

(** When both ids resolve, [startCall] succeeds, marks both busy and
    binds each to the other; queue and reverse index are untouched. *)
Lemma startCall_paired_001 a b st ua ub :
  users_ok (users st) (userSockets st) →
  getUserById st a = Some ua → getUserById st b = Some ub →
  let st' := (startCall a b st).1.1 in
  (startCall a b st).2 = true ∧
  isBusy st' a = Some true ∧ isBusy st' b = Some true ∧
  activeCalls st' = <[b := a]> (<[a := b]> (activeCalls st)) ∧
  waitingQueue st' = waitingQueue st ∧
  userSockets st' = userSockets st ∧
  (startCall a b st).1.2 =
    (ToSocket (socketId ub), EvIncomingCall a (Some (role ua)))
      :: broadcastOnlineUsers st'.
Proof.
  intros Hok Ea Eb. unfold startCall. rewrite Ea, Eb. simpl.
  pose proof (setUserBusy_users_ok a true st Hok) as Hok1.
  destruct (setUserBusy_frame a true st) as (Hs1 & Hc1 & Hq1).
  destruct (setUserBusy_frame b true (setUserBusy a true st)) as (Hs2 & Hc2 & Hq2).
  split_and!; try done.
  - unfold isBusy, getUserById at 1. simpl.
    fold (getUserById (setUserBusy b true (setUserBusy a true st)) a).
    rewrite (getUserById_setUserBusy _ b), !(getUserById_setUserBusy st a) by done.
    rewrite Ea, Eb. simpl. rewrite String.eqb_refl. simpl.
    by destruct (String.eqb _ _).
  - unfold isBusy, getUserById at 1. simpl.
    fold (getUserById (setUserBusy b true (setUserBusy a true st)) b).
    rewrite (getUserById_setUserBusy _ b), !(getUserById_setUserBusy st a) by done.
    rewrite Ea, Eb. simpl.
    destruct (String.eqb (socketId ua) (socketId ub)); simpl;
      by rewrite String.eqb_refl.
  - by rewrite Hc2, Hc1.
  - by rewrite Hq2, Hq1.
  - by rewrite Hs2, Hs1.
Qed.

(** [endCall] on a bound id: both bindings go, both parties that are
    online become idle, and the partner's socket is told who hung up. *)
Lemma endCall_released_001 a b st :
  users_ok (users st) (userSockets st) →
  activeCalls st !! a = Some b → b ≠ "" →
  let st' := (endCall a st).1 in
  activeCalls st' = delete b (delete a (activeCalls st)) ∧
  waitingQueue st' = waitingQueue st ∧
  userSockets st' = userSockets st ∧
  (∀ x, isBusy st x = None → isBusy st' x = None) ∧
  (∀ u, getUserById st a = Some u → isBusy st' a = Some false) ∧
  (∀ u, getUserById st b = Some u →
        isBusy st' b = Some false ∧
        (ToSocket (socketId u), EvCallEnded a (Some "User ended call"))
          ∈ (endCall a st).2).
Proof.
  intros Hok Eab Hb. unfold endCall. rewrite Eab. simpl.
  apply truthy_true in Hb as Hb'. rewrite Hb'. simpl.
  set (st1 := match getUserById st a with
              | Some _ => setUserBusy a false st | None => st end).
  set (st2 := match getUserById st b with
              | Some _ => setUserBusy b false st1 | None => st1 end).
  assert (users_ok (users st1) (userSockets st1)) as Hok1.
  { unfold st1. destruct (getUserById st a); [by apply setUserBusy_users_ok|done]. }
  assert (userSockets st1 = userSockets st ∧ activeCalls st1 = activeCalls st ∧
          waitingQueue st1 = waitingQueue st) as (Hs1 & Hc1 & Hq1).
  { unfold st1. destruct (getUserById st a); [apply setUserBusy_frame|done]. }
  assert (userSockets st2 = userSockets st1 ∧ activeCalls st2 = activeCalls st1 ∧
          waitingQueue st2 = waitingQueue st1) as (Hs2 & Hc2 & Hq2).
  { unfold st2. destruct (getUserById st b); [apply setUserBusy_frame|done]. }
  assert (∀ x, getUserById st1 x
               = match getUserById st a with
                 | Some ua => (λ u, if String.eqb (socketId ua) (socketId u)
                                    then withBusy false u else u) <$> getUserById st x
                 | None => getUserById st x
                 end) as H1.
  { intros x. unfold st1. destruct (getUserById st a) eqn:E; [|done].
    by rewrite getUserById_setUserBusy, E. }
  assert (∀ x, getUserById st2 x
               = match getUserById st b with
                 | Some ub => (λ u, if String.eqb (socketId ub) (socketId u)
                                    then withBusy false u else u) <$> getUserById st1 x
                 | None => getUserById st1 x
                 end) as H2.
  { intros x. unfold st2. destruct (getUserById st b) as [ub|] eqn:E; [|done].
    rewrite getUserById_setUserBusy by done. rewrite (H1 b), E.
    destruct (getUserById st a) as [ua|]; simpl; [|done].
    by destruct (String.eqb (socketId ua) (socketId ub)). }
  assert (∀ st' x, users st' = users st2 → userSockets st' = userSockets st2 →
                   getUserById st' x = getUserById st2 x) as Hsame.
  { intros st' x Hu Hs. unfold getUserById. by rewrite Hu, Hs. }
  split_and!.
  - by rewrite Hc2, Hc1.
  - by rewrite Hq2, Hq1.
  - by rewrite Hs2, Hs1.
  - unfold isBusy. intros x Hx. rewrite (Hsame _ x) by done. rewrite H2, H1.
    destruct (getUserById st x); [done|]. by repeat case_match.
  - intros u Ea. unfold isBusy. rewrite (Hsame _ a) by done. rewrite H2, H1, Ea.
    simpl. rewrite String.eqb_refl.
    destruct (getUserById st b) as [ub|]; simpl; [|done].
    by destruct (String.eqb (socketId ub) _).
  - intros u Eb. split.
    + unfold isBusy. rewrite (Hsame _ b) by done. rewrite H2, H1, Eb.
      destruct (getUserById st a) as [ua|]; simpl.
      * destruct (String.eqb (socketId ua) (socketId u)); simpl;
          by rewrite String.eqb_refl.
      * by rewrite String.eqb_refl.
    + rewrite Eb. by left.
Qed.

End Calls001.

(** ** Claims *)

(** C1.  A call can be reported as started without the two ids being
    paired.  part_001: socket [s1] registered [n1] and then [n9], which
    leaves [n1] in the reverse index; patient [p1] calling [n1] is answered
    [callStarted] for [n1], yet the binding made is [p1]-[n9], [n1] is bound
    to nobody, and neither [endCall] for [n1] nor the patient's ['endCall']
    request naming [n1] ends anything.  part_000 answers the same request
    with "Callee offline".  part_000: a nurse registered as [__proto__] is
    called by [p1]; the call is reported as started and both are busy, but
    only [p1] is bound, and [endCall] for [__proto__] leaves [p1] busy and
    bound and tells it nothing.  part_001 pairs and releases both on the
    same requests. *)
Theorem call_started_without_pairing :
  (let r := Part001.callUser "s2" "n1" (Part001.stateAfter renamed_nurse) in
   r.2 = [(ToSocket "s1", EvIncomingCall "p1" (Some "patient"));
          (ToAll, EvOnlineUsers [("n9", "nurse", true); ("p1", "patient", true)]);
          (ToSocket "s2", EvCallStartedTo "n1")] ∧
   Part001.activeCalls r.1 !! "p1" = Some "n9" ∧
   Part001.activeCalls r.1 !! "n9" = Some "p1" ∧
   Part001.activeCalls r.1 !! "n1" = None ∧
   Part001.endCall "n1" r.1 = (r.1, []) ∧
   Part001.endCallRequest "s2" "n1" r.1 = (r.1, []))
  ∧
  Part000.callUser "s2" "n1" (Part000.stateAfter renamed_nurse)
  = Returns (Part000.stateAfter renamed_nurse,
             [(ToSocket "s2", EvError "Callee offline")])
  ∧
  (let st' := Part000.stateAfter proto_call in
   Part000.callUser "s2" "__proto__" (Part000.stateAfter proto_nurse)
   = Returns (st',
              [(ToSocket "s1", EvIncomingCall "p1" None);
               (ToAll, EvOnlineUsers [("__proto__", "nurse", true);
                                      ("p1", "patient", true)]);
               (ToSocket "s2", EvCallStartedTo "__proto__")]) ∧
   Part000.activeCalls st' !! "p1" = Some "__proto__" ∧
   Part000.activeCalls st' !! "__proto__" = None ∧
   (Part000.endCall "__proto__" st').2
   = [(ToAll, EvOnlineUsers [("__proto__", "nurse", false);
                             ("p1", "patient", true)])] ∧
   Part000.isBusy (Part000.endCall "__proto__" st').1 "p1" = Some true ∧
   Part000.activeCalls (Part000.endCall "__proto__" st').1 !! "p1" = Some "__proto__")
  ∧
  (let st' := Part001.stateAfter proto_call in
   Part001.activeCalls st' !! "p1" = Some "__proto__" ∧
   Part001.activeCalls st' !! "__proto__" = Some "p1" ∧
   (Part001.endCall "__proto__" st').2
   = [(ToSocket "s2", EvCallEnded "__proto__" (Some "User ended call"));
      (ToAll, EvOnlineUsers [("__proto__", "nurse", false);
                             ("p1", "patient", false)])] ∧
   Part001.isBusy (Part001.endCall "__proto__" st').1 "p1" = Some false ∧
   Part001.activeCalls (Part001.endCall "__proto__" st').1 !! "p1" = None).
Proof. cbv zeta. split_and!; vm_compute; reflexivity. Qed.

(** When ['callUser'] answers the caller with [callStarted], the caller
    [a] and the participant [b] the request resolved to are both busy and
    bound to each other; ending the call from either side tells the other
    side's socket who hung up, and clears both busy flags and both
    bindings.  In part_000 [b] is the requested id and neither id is
    [__proto__]; in part_001 [b] is the id of the entry [getUserById] finds
    for the requested id. *)
Theorem call_started_pairs_resolved_ids :
  (∀ st sock calleeId caller st' out,
     Part000.reachable st →
     aget sock (Part000.users st) = Some caller →
     Part000.id caller ≠ "__proto__" → calleeId ≠ "__proto__" →
     Part000.callUser sock calleeId st = Returns (st', out) →
     (ToSocket sock, EvCallStartedTo calleeId) ∈ out →
     let a := Part000.id caller in
     let b := calleeId in
     Part000.isBusy st' a = Some true ∧ Part000.isBusy st' b = Some true ∧
     Part000.activeCalls st' !! a = Some b ∧ Part000.activeCalls st' !! b = Some a ∧
     (∃ sb, Part000.findSocketByUserId st' b = Some sb ∧
            (ToSocket sb, EvCallEnded a None) ∈ (Part000.endCall a st').2) ∧
     (∃ sa, Part000.findSocketByUserId st' a = Some sa ∧
            (ToSocket sa, EvCallEnded b None) ∈ (Part000.endCall b st').2) ∧
     (∀ x y, x ∈ [a; b] → y ∈ [a; b] →
             Part000.isBusy (Part000.endCall x st').1 y = Some false ∧
             Part000.activeCalls (Part000.endCall x st').1 !! y = None))
  ∧
  (∀ st sock calleeId caller callee,
     Part001.reachable st →
     Part001.getUserBySocketId st sock = Some caller →
     Part001.getUserById st calleeId = Some callee →
     (ToSocket sock, EvCallStartedTo calleeId) ∈ (Part001.callUser sock calleeId st).2 →
     let st' := (Part001.callUser sock calleeId st).1 in
     let a := Part001.id caller in
     let b := Part001.id callee in
     Part001.isBusy st' a = Some true ∧ Part001.isBusy st' b = Some true ∧
     Part001.activeCalls st' !! a = Some b ∧ Part001.activeCalls st' !! b = Some a ∧
     (ToSocket (Part001.socketId callee), EvCallEnded a (Some "User ended call"))
       ∈ (Part001.endCall a st').2 ∧
     (ToSocket (Part001.socketId caller), EvCallEnded b (Some "User ended call"))
       ∈ (Part001.endCall b st').2 ∧
     (∀ x y, x ∈ [a; b] → y ∈ [a; b] →
             Part001.isBusy (Part001.endCall x st').1 y = Some false ∧
             Part001.activeCalls (Part001.endCall x st').1 !! y = None)).
Proof.
  split.
  - intros st sock calleeId caller st' out Hr Ec Hpa Hpb Hcall Hout a b.
    apply Facts000.reachable_inv_000 in Hr as [Hok _ _ _].
    pose proof Hok as (_ & Hne & _).
    unfold Part000.callUser in Hcall. rewrite Ec in Hcall.
    destruct (negb (truthy_opt _)) eqn:Et; [simplify_eq; not_emitted Hout|].
    apply negb_false_iff, truthy_opt_Some in Et as (sb & Eb & Hsb).
    rewrite Eb in Hcall. simpl in Hcall.
    destruct (aget sb (Part000.users st)) as [callee|] eqn:Ee; [|done].
    destruct (String.eqb _ _); [simplify_eq; not_emitted Hout|].
    destruct (Part000.busy callee).
    { repeat case_match; simplify_eq; not_emitted Hout. }
    apply aget_elem_of in Ec.
    pose proof (Facts000.findSocket_entry _ _ _ Hok Ec) as Ea.
    destruct (Hne _ _ Ec) as [Hsock Ha].
    destruct (Facts000.findSocket_Some _ _ _ Eb) as (ub & Hub & Hidb).
    destruct (Hne _ _ Hub) as [_ Hb]. rewrite Hidb in Hb.
    apply aget_elem_of in Ee.
    assert (Part000.id callee = calleeId) as Hcallee.
    { destruct Hok as (Hnd & _ & _).
      pose proof (NoDup_fst_aget _ _ _ Hnd Hub) as E1.
      pose proof (NoDup_fst_aget _ _ _ Hnd Ee) as E2. congruence. }
    rewrite Hcallee in Hcall.
    destruct (Part000.startCall _ _ _) as [st1 out1] eqn:Es. simplify_eq.
    destruct (Calls000.startCall_paired_000 _ _ _ _ _ Ea Hsock Eb Hsb)
      as (Ba & Bb & Hac & _ & Hfind & _).
    rewrite Es in Ba, Bb, Hac, Hfind. simpl in Ba, Bb, Hac, Hfind.
    destruct (Calls000.paired_lookup a b (Part000.activeCalls st) Hpa Hpb)
      as [Lab Lba].
    fold a in Hac. fold b in Hac. rewrite <- Hac in Lab, Lba.
    pose proof (Calls000.endCall_released_000 a b st' Lab Hb)
      as (Dac & _ & _ & Ia & Ib).
    pose proof (Calls000.endCall_released_000 b a st' Lba Ha)
      as (Dac' & _ & _ & Ib' & Ia').
    assert (Part000.findSocketByUserId st' a = Some sock) as Ea' by by rewrite Hfind.
    assert (Part000.findSocketByUserId st' b = Some sb) as Eb' by by rewrite Hfind.
    split_and!; try done.
    + exists sb. split; [done|]. by apply Ib.
    + exists sock. split; [done|]. by apply Ia'.
    + intros x y Hx Hy.
      assert (∀ m : gmap string string,
                 delete b (delete a m) !! y = None ∧ delete a (delete b m) !! y = None)
        as Hdel.
      { intros m. rewrite !lookup_delete.
        rewrite !elem_of_cons, elem_of_nil in Hy.
        repeat case_decide; naive_solver. }
      rewrite !elem_of_cons, elem_of_nil in Hx, Hy.
      destruct Hx as [->|[->|[]]].
      * rewrite Dac. split; [|apply Hdel].
        destruct Hy as [->|[->|[]]]; [by eapply Ia | by eapply Ib].
      * rewrite Dac'. split; [|apply Hdel].
        destruct Hy as [->|[->|[]]]; [by eapply Ia' | by eapply Ib'].
  - intros st sock calleeId caller callee Hr Ec Ee Hout st' a b.
    pose proof (Facts001.reachable_inv_001 _ Hr) as Hinv.
    pose proof (Part001.inv_users _ Hinv) as Hok.
    subst st'. unfold Part001.callUser in *. rewrite Ec, Ee in *.
    destruct (String.eqb _ _); [not_emitted Hout|].
    destruct (Part001.busy callee).
    { repeat case_match; simplify_eq; not_emitted Hout. }
    unfold Part001.getUserBySocketId in Ec.
    pose proof (aget_elem_of _ _ _ Ec) as Hc.
    pose proof (Facts001.getUserById_id _ _ _ Hok Ee) as (He & _ & _ & Eeg).
    destruct (Hok _ _ Hc) as (_ & Ha & Hsc & _).
    destruct (Hok _ _ He) as (_ & Hb & _ & _).
    assert (Part001.getUserById st a = Some caller) as Ea.
    { unfold a. by rewrite (Facts001.getUserById_entry _ _ _ Hok Hc). }
    assert (Part001.getUserById st b = Some callee) as Eb.
    { unfold b. by rewrite (Facts001.getUserById_entry _ _ _ Hok He). }
    pose proof (Calls001.startCall_paired_001 a b st _ _ Hok Ea Eb)
      as (Hsucc & Ba & Bb & Hac & _ & Hsocks & _).
    fold a b in Hout |- *.
    destruct (Part001.startCall a b st) as [[st1 out1] ok] eqn:Es.
    simpl in Hsucc, Ba, Bb, Hac, Hsocks. subst ok. simpl.
    assert (Part001.users_ok (Part001.users st1) (Part001.userSockets st1)) as Hok1.
    { pose proof (Facts001.startCall_inv_001 a b st Hinv Ha Hb) as Hi.
      rewrite Es in Hi. apply Hi. }
    destruct (Calls000.paired_insert a b (Part001.activeCalls st)) as [Lab Lba].
    rewrite <- Hac in Lab, Lba.
    pose proof (Calls001.endCall_released_001 a b st1 Hok1 Lab Hb)
      as (Dac & _ & _ & _ & Ia & Ib).
    pose proof (Calls001.endCall_released_001 b a st1 Hok1 Lba Ha)
      as (Dac' & _ & _ & _ & Ib' & Ia').
    assert (∃ ua ub, Part001.getUserById st1 a = Some ua ∧
                     Part001.getUserById st1 b = Some ub) as (ua & ub & Ea1 & Eb1).
    { unfold Part001.isBusy in Ba, Bb.
      destruct (Part001.getUserById st1 a), (Part001.getUserById st1 b);
        simplify_eq/=; eauto. }
    assert (Part001.socketId ua = Part001.socketId caller ∧
            Part001.socketId ub = Part001.socketId callee) as [Hsa Hsb].
    { destruct (Facts001.getUserById_id _ _ _ Hok1 Ea1) as (_ & S1 & _).
      destruct (Facts001.getUserById_id _ _ _ Hok1 Eb1) as (_ & S2 & _).
      destruct (Facts001.getUserById_id _ _ _ Hok Ea) as (_ & S3 & _).
      destruct (Facts001.getUserById_id _ _ _ Hok Eb) as (_ & S4 & _).
      rewrite Hsocks in S1, S2. split; congruence. }
    split_and!; try done.
    + rewrite <- Hsb. by eapply Ib.
    + rewrite <- Hsa. by eapply Ia'.
    + intros x y Hx Hy.
      assert (∀ m : gmap string string,
                 delete b (delete a m) !! y = None ∧ delete a (delete b m) !! y = None)
        as Hdel.
      { intros m. rewrite !lookup_delete.
        rewrite !elem_of_cons, elem_of_nil in Hy.
        repeat case_decide; naive_solver. }
      rewrite !elem_of_cons, elem_of_nil in Hx, Hy.
      destruct Hx as [->|[->|[]]].
      * rewrite Dac. split; [|apply Hdel].
        destruct Hy as [->|[->|[]]]; [by eapply Ia | by eapply Ib].
      * rewrite Dac'. split; [|apply Hdel].
        destruct Hy as [->|[->|[]]]; [by eapply Ia' | by eapply Ib'].
Qed.

Lemma call_started_pairs_resolved_ids_witness :
  (let st' := Part000.stateAfter first_call in
   Part000.isBusy st' "p1" = Some true ∧ Part000.isBusy st' "n1" = Some true ∧
   Part000.activeCalls st' !! "p1" = Some "n1" ∧
   Part000.isBusy (Part000.endCall "n1" st').1 "p1" = Some false)
  ∧
  (let st' := Part001.stateAfter first_call in
   Part001.isBusy st' "p1" = Some true ∧ Part001.isBusy st' "n1" = Some true ∧
   Part001.activeCalls st' !! "p1" = Some "n1" ∧
   Part001.isBusy (Part001.endCall "n1" st').1 "p1" = Some false).
Proof.
  destruct call_started_pairs_resolved_ids as [H000 H001]. split.
  - edestruct (H000 (Part000.stateAfter nurse_and_patient) "s2" "n1")
      as (Ba & Bb & Lab & _ & _ & _ & Hend).
    + apply Facts000.stateAfter_reachable_000. by repeat constructor.
    + vm_compute. reflexivity.
    + done.
    + done.
    + vm_compute. reflexivity.
    + vm_compute. set_solver.
    + split_and!; [exact Ba | exact Bb | exact Lab |].
      apply (Hend "n1" "p1"); set_solver.
  - edestruct (H001 (Part001.stateAfter nurse_and_patient) "s2" "n1")
      as (Ba & Bb & Lab & _ & _ & _ & Hend).
    + apply Facts001.stateAfter_reachable_001. by repeat constructor.
    + vm_compute. reflexivity.
    + vm_compute. reflexivity.
    + vm_compute. set_solver.
    + split_and!; [exact Ba | exact Bb | exact Lab |].
      apply (Hend "n1" "p1"); set_solver.
Defined.

Lemma pushUnique_idem x q : pushUnique x (pushUnique x q) = pushUnique x q.
Proof.
  unfold pushUnique. destruct (includes x q) eqn:E; [by rewrite E|].
  assert (includes x (q ++ [x]) = true) as ->; [|done].
  apply includes_elem_of, elem_of_app. right. by left.
Qed.

(** C6.  A patient calling a busy nurse is answered [callWaiting]; the
    patient's id is appended to the waiting queue when it is not there yet
    and the queue is left as it is otherwise; directory and calls are not
    touched.  Asking again changes nothing: enqueueing is idempotent. *)
Theorem busy_nurse_enqueues_once :
  (∀ st sock calleeId caller calleeSocket callee,
     aget sock (Part000.users st) = Some caller →
     Part000.findSocketByUserId st calleeId = Some calleeSocket →
     calleeSocket ≠ "" →
     aget calleeSocket (Part000.users st) = Some callee →
     Part000.busy callee = true →
     Part000.role caller = "patient" → Part000.role callee = "nurse" →
     ∃ st' out,
       Part000.callUser sock calleeId st = Returns (st', out) ∧
       (ToSocket sock, EvCallWaiting "Nurse is busy, added to queue" None) ∈ out ∧
       Part000.users st' = Part000.users st ∧
       Part000.activeCalls st' = Part000.activeCalls st ∧
       Part000.waitingQueue st' = pushUnique (Part000.id caller) (Part000.waitingQueue st) ∧
       (Part000.id caller ∉ Part000.waitingQueue st →
        Part000.waitingQueue st' = Part000.waitingQueue st ++ [Part000.id caller]) ∧
       (Part000.id caller ∈ Part000.waitingQueue st → st' = st) ∧
       ∃ out2, Part000.callUser sock calleeId st' = Returns (st', out2) ∧
               (ToSocket sock, EvCallWaiting "Nurse is busy, added to queue" None) ∈ out2)
  ∧
  (∀ st sock calleeId caller callee,
     Part001.getUserBySocketId st sock = Some caller →
     Part001.getUserById st calleeId = Some callee →
     Part001.busy callee = true →
     Part001.role caller = "patient" → Part001.role callee = "nurse" →
     ∃ st' position,
       (Part001.callUser sock calleeId st).1 = st' ∧
       (ToSocket sock,
        EvCallWaiting "Nurse is busy. You have been added to the queue." (Some position))
         ∈ (Part001.callUser sock calleeId st).2 ∧
       Part001.users st' = Part001.users st ∧
       Part001.userSockets st' = Part001.userSockets st ∧
       Part001.activeCalls st' = Part001.activeCalls st ∧
       Part001.waitingQueue st' = pushUnique (Part001.id caller) (Part001.waitingQueue st) ∧
       (Part001.id caller ∉ Part001.waitingQueue st →
        Part001.waitingQueue st' = Part001.waitingQueue st ++ [Part001.id caller]) ∧
       (Part001.id caller ∈ Part001.waitingQueue st → st' = st) ∧
       (Part001.callUser sock calleeId st').1 = st' ∧
       (ToSocket sock,
        EvCallWaiting "Nurse is busy. You have been added to the queue." (Some position))
         ∈ (Part001.callUser sock calleeId st').2)
  ∧
  (∀ x q, pushUnique x (pushUnique x q) = pushUnique x q).
Proof.
  split_and!; [| | apply pushUnique_idem].
  - intros st sock calleeId caller calleeSocket callee Ec Es Hs Ee Hb Hrc Hre.
    assert (∀ q, Part000.callUser sock calleeId
                   (Part000.mkState (Part000.users st) (Part000.activeCalls st) q)
                 = Returns
                     (Part000.mkState (Part000.users st) (Part000.activeCalls st)
                        (pushUnique (Part000.id caller) q),
                      (if includes (Part000.id caller) q then []
                       else [(ToSocket calleeSocket,
                              EvWaitingPatient (Some (Part000.id caller)) None)])
                      ++ [(ToSocket sock,
                           EvCallWaiting "Nurse is busy, added to queue" None)]))
      as Hcall.
    { intros q. unfold Part000.callUser, Part000.findSocketByUserId in *. simpl.
      rewrite Ec, Es. simpl. apply truthy_true in Hs as ->. simpl.
      rewrite Ee, Hb, Hrc, Hre. simpl. unfold pushUnique.
      by destruct (includes _ q). }
    destruct st as [us ac q]. simpl in *.
    rewrite Hcall. do 2 eexists. split; [done|]. simpl.
    split_and!; try done.
    + apply elem_of_app. right. by left.
    + intros ?%includes_false. unfold pushUnique. by case_match.
    + intros ?%includes_elem_of. unfold pushUnique. by case_match.
    + rewrite Hcall, pushUnique_idem. eexists. split; [done|].
      apply elem_of_app. right. by left.
  - intros st sock calleeId caller callee Ec Ee Hb Hrc Hre.
    assert (∀ q, Part001.callUser sock calleeId
                   (Part001.mkState (Part001.users st) (Part001.userSockets st)
                                    (Part001.activeCalls st) q)
                 = (Part001.mkState (Part001.users st) (Part001.userSockets st)
                                    (Part001.activeCalls st)
                                    (pushUnique (Part001.id caller) q),
                    (if includes (Part001.id caller) q then []
                     else [(ToSocket (Part001.socketId callee),
                            EvWaitingPatient (Some (Part001.id caller))
                                             (Some (length (q ++ [Part001.id caller]))))])
                    ++ [(ToSocket sock,
                         EvCallWaiting "Nurse is busy. You have been added to the queue."
                           (Some match indexOf (Part001.id caller)
                                         (pushUnique (Part001.id caller) q) with
                                 | Some i => S i
                                 | None => 0%nat
                                 end))]))
      as Hcall.
    { intros q. unfold Part001.callUser, Part001.getUserBySocketId,
        Part001.getUserById in *. simpl.
      rewrite Ec, Ee, Hb, Hrc, Hre. simpl. unfold pushUnique.
      by destruct (includes _ q). }
    destruct st as [us socks ac q]. simpl in *.
    rewrite Hcall. do 2 eexists. split; [done|]. simpl.
    split_and!; try done.
    + apply elem_of_app. right. by left.
    + intros ?%includes_false. unfold pushUnique. by case_match.
    + intros ?%includes_elem_of. unfold pushUnique. by case_match.
    + by rewrite Hcall, pushUnique_idem.
    + rewrite Hcall, !pushUnique_idem. apply elem_of_app. right. by left.
Qed.

Lemma busy_nurse_enqueues_once_witness :
  (let st := Part000.stateAfter (first_call ++ [("s3", Register "p2" "patient")]) in
   ∃ st' out,
     Part000.callUser "s3" "n1" st = Returns (st', out) ∧
     Part000.waitingQueue st' = Part000.waitingQueue st ++ ["p2"] ∧
     ∃ out2, Part000.callUser "s3" "n1" st' = Returns (st', out2))
  ∧
  (let st := Part001.stateAfter (first_call ++ [("s3", Register "p2" "patient")]) in
   let st' := (Part001.callUser "s3" "n1" st).1 in
   Part001.waitingQueue st' = Part001.waitingQueue st ++ ["p2"] ∧
   (Part001.callUser "s3" "n1" st').1 = st').
Proof.
  destruct busy_nurse_enqueues_once as (H000 & H001 & _). split.
  - edestruct (H000 (Part000.stateAfter
                       (first_call ++ [("s3", Register "p2" "patient")])) "s3" "n1")
      as (st' & out & E & _ & _ & _ & _ & Q & _ & out2 & E2 & _);
      [vm_compute; reflexivity | vm_compute; reflexivity | done
      | vm_compute; reflexivity | reflexivity | reflexivity | reflexivity |].
    exists st', out. split_and!; [exact E | | by exists out2].
    apply Q. vm_compute. intros Hin. inversion Hin.
  - edestruct (H001 (Part001.stateAfter
                       (first_call ++ [("s3", Register "p2" "patient")])) "s3" "n1")
      as (st' & pos & E & _ & _ & _ & _ & _ & Q & _ & E2 & _);
      [vm_compute; reflexivity | vm_compute; reflexivity
      | reflexivity | reflexivity | reflexivity |].
    cbv zeta. rewrite E. split; [|exact E2].
    apply Q. vm_compute. intros Hin. inversion Hin.
Defined.

(** C10.  A registration that is refused -- empty user id, role other than
    nurse or patient, or user id already held (in part_001: by another
    socket) -- is answered with one [error] message and leaves directory,
    calls and queue exactly as they were; and whenever ['register'] answers
    [error], the state is unchanged. *)
Theorem rejected_registration_changes_nothing :
  (∀ st sock userId role,
     truthy userId = false ∨ valid_role role = false ∨
     (∃ s u, (s, u) ∈ Part000.users st ∧ Part000.id u = userId) →
     ∃ message,
       Part000.register sock userId role st = (st, [(ToSocket sock, EvError message)]))
  ∧
  (∀ st sock userId role,
     truthy userId = false ∨ valid_role role = false ∨
     (∃ s, Part001.userSockets st !! userId = Some s ∧ s ≠ sock) →
     ∃ message,
       Part001.register sock userId role st = (st, [(ToSocket sock, EvError message)]))
  ∧
  (∀ st sock userId role message,
     (ToSocket sock, EvError message) ∈ (Part000.register sock userId role st).2 →
     (Part000.register sock userId role st).1 = st)
  ∧
  (∀ st sock userId role message,
     (ToSocket sock, EvError message) ∈ (Part001.register sock userId role st).2 →
     (Part001.register sock userId role st).1 = st).
Proof.
  split_and!.
  - intros st sock userId role Hrej. unfold Part000.register.
    destruct (negb (truthy userId) || negb (valid_role role)) eqn:Ev; [by eexists|].
    apply orb_false_iff in Ev as [Hid%negb_false_iff Hrole%negb_false_iff].
    destruct Hrej as [?|[?|(s & u & Hin & Hu)]]; [congruence..|].
    destruct (existsb _ _) eqn:Ex; [by eexists|].
    pose proof (existsb_false_elem (λ u, String.eqb (Part000.id u) userId)
                  _ Ex s u Hin) as Hne.
    by apply String.eqb_neq in Hne.
  - intros st sock userId role Hrej. unfold Part001.register.
    destruct (negb (truthy userId)) eqn:Hid; [by eexists|].
    destruct (negb (valid_role role)) eqn:Hrole; [by eexists|].
    apply negb_false_iff in Hid, Hrole.
    destruct Hrej as [?|[?|(s & -> & Hs)]]; [congruence..|].
    apply String.eqb_neq in Hs as ->. by eexists.
  - intros st sock userId role message. unfold Part000.register.
    repeat case_match; try done. intros Hout. not_emitted Hout.
  - intros st sock userId role message.
    unfold Part001.register, Part001.broadcastOnlineUsers.
    repeat case_match; try done; intros Hout; not_emitted Hout.
Qed.

Lemma rejected_registration_changes_nothing_witness :
  (Part000.register "s9" "n1" "nurse" (Part000.stateAfter first_call)).1
    = Part000.stateAfter first_call ∧
  (Part001.register "s9" "n1" "nurse" (Part001.stateAfter first_call)).1
    = Part001.stateAfter first_call ∧
  (Part000.register "s9" "d1" "doctor" (Part000.stateAfter first_call)).1
    = Part000.stateAfter first_call ∧
  (Part001.register "s9" "" "nurse" (Part001.stateAfter first_call)).1
    = Part001.stateAfter first_call.
Proof.
  destruct rejected_registration_changes_nothing as (H000 & H001 & E000 & E001).
  split_and!.
  - destruct (H000 (Part000.stateAfter first_call) "s9" "n1" "nurse") as [m ->];
      [|reflexivity].
    right; right. exists "s1", (Part000.mkUser "n1" "nurse" true).
    split; [|reflexivity]. vm_compute. by left.
  - destruct (H001 (Part001.stateAfter first_call) "s9" "n1" "nurse") as [m ->];
      [|reflexivity].
    right; right. exists "s1". split; [vm_compute; reflexivity | done].
  - apply (E000 _ _ _ _ "Invalid registration"). vm_compute. by left.
  - apply (E001 _ _ _ _ "Invalid user ID"). vm_compute. by left.
Defined.

Lemma removeId_middle x q1 q2 : x ∉ q1 → removeId x (q1 ++ x :: q2) = q1 ++ q2.
Proof.
  induction q1 as [|y q1 IH]; simpl; intros Hx.
  - by rewrite removeId_cons, String.eqb_refl.
  - apply not_elem_of_cons in Hx as [Hxy Hx].
    rewrite removeId_cons. apply not_eq_sym, String.eqb_neq in Hxy as ->.
    by rewrite IH.
Qed.

Lemma indexOf_removeId x q i : indexOf x q = Some i → splice1 i q = removeId x q.
Proof. unfold removeId. by intros ->. Qed.

Lemma indexOf_elem_of x q : x ∈ q → ∃ i, indexOf x q = Some i.
Proof.
  intros Hx. destruct (indexOf x q) as [i|] eqn:E; [eauto|].
  by apply indexOf_None in E.
Qed.

(** C5.  Patient [p2] waits in the queue; its socket [s3] then registers
    as [p9], so no participant has the id [p2] any more, and the nurse's
    call ends.  When the nurse accepts [p2], part_000 answers "Patient
    offline" and drops the queue entry, as the claim says.  part_001 still
    finds [s3] through the entry [p2] left in the reverse index: it drops
    the queue entry but reports no error and starts a call, binding the
    nurse to the id [p2] and marking the participant [p9] busy. *)
Theorem accept_waiting_of_renamed_patient :
  (let st := Part000.stateAfter renamed_patient_waits in
   let r := Part000.acceptWaiting "s1" "p2" st in
   Part000.waitingQueue st = ["p2"] ∧
   Part000.getOnlineUsers st
   = [("n1", "nurse", false); ("p1", "patient", false); ("p9", "patient", false)] ∧
   r.2 = [(ToSocket "s1", EvError "Patient offline")] ∧
   Part000.waitingQueue r.1 = [] ∧
   Part000.users r.1 = Part000.users st ∧
   Part000.activeCalls r.1 = Part000.activeCalls st)
  ∧
  (let st := Part001.stateAfter renamed_patient_waits in
   let r := Part001.acceptWaiting "s1" "p2" st in
   Part001.waitingQueue st = ["p2"] ∧
   Part001.getOnlineUsers st
   = [("n1", "nurse", false); ("p1", "patient", false); ("p9", "patient", false)] ∧
   r.2 = [(ToSocket "s3", EvIncomingCall "n1" (Some "nurse"));
          (ToAll, EvOnlineUsers [("n1", "nurse", true); ("p1", "patient", false);
                                 ("p9", "patient", true)]);
          (ToSocket "s3", EvCallStartedFrom "n1" (Some "nurse"))] ∧
   Part001.waitingQueue r.1 = [] ∧
   Part001.activeCalls r.1 !! "n1" = Some "p2" ∧
   Part001.activeCalls r.1 !! "p2" = Some "n1").
Proof. cbv zeta. split_and!; vm_compute; reflexivity. Qed.

(** ['acceptWaiting']: a socket that is not registered as a nurse is
    answered "not authorized" and nothing changes; an id that is not in the
    queue is answered "not waiting" and nothing changes; a queued id is
    taken out of the queue wherever it stands; if the id resolves to no
    socket ([findSocketByUserId], [getUserById]) the answer is "offline"
    and only the queue entry is gone; otherwise the result is that of
    [startCall], and on a reachable state nurse and patient are busy and
    bound to each other (in part_000 when neither id is [__proto__]). *)
Theorem accept_waiting_cases :
  (∀ st sock patientId,
     (∀ nurse, aget sock (Part000.users st) = Some nurse → Part000.role nurse ≠ "nurse") →
     Part000.acceptWaiting sock patientId st
     = (st, [(ToSocket sock, EvError "Not authorized")]))
  ∧
  (∀ st sock patientId nurse,
     aget sock (Part000.users st) = Some nurse → Part000.role nurse = "nurse" →
     (patientId ∉ Part000.waitingQueue st →
      Part000.acceptWaiting sock patientId st
      = (st, [(ToSocket sock, EvError "Patient not waiting")])) ∧
     (patientId ∈ Part000.waitingQueue st →
      truthy_opt (Part000.findSocketByUserId st patientId) = false →
      Part000.acceptWaiting sock patientId st
      = (Part000.mkState (Part000.users st) (Part000.activeCalls st)
                         (removeId patientId (Part000.waitingQueue st)),
         [(ToSocket sock, EvError "Patient offline")])) ∧
     (∀ patientSocket,
        Part000.reachable st →
        patientId ∈ Part000.waitingQueue st →
        Part000.findSocketByUserId st patientId = Some patientSocket →
        Part000.id nurse ≠ "__proto__" → patientId ≠ "__proto__" →
        let st1 := Part000.mkState (Part000.users st) (Part000.activeCalls st)
                     (removeId patientId (Part000.waitingQueue st)) in
        let st' := (Part000.acceptWaiting sock patientId st).1 in
        st' = (Part000.startCall (Part000.id nurse) patientId st1).1 ∧
        (ToSocket patientSocket, EvCallStartedFrom (Part000.id nurse) None)
          ∈ (Part000.acceptWaiting sock patientId st).2 ∧
        (patientId ∉ Part000.waitingQueue st') ∧
        Part000.isBusy st' (Part000.id nurse) = Some true ∧
        Part000.isBusy st' patientId = Some true ∧
        Part000.activeCalls st' !! Part000.id nurse = Some patientId ∧
        Part000.activeCalls st' !! patientId = Some (Part000.id nurse)))
  ∧
  (∀ st sock patientId,
     (∀ nurse, Part001.getUserBySocketId st sock = Some nurse →
               Part001.role nurse ≠ "nurse") →
     Part001.acceptWaiting sock patientId st
     = (st, [(ToSocket sock, EvError "Unauthorized action")]))
  ∧
  (∀ st sock patientId nurse,
     Part001.getUserBySocketId st sock = Some nurse → Part001.role nurse = "nurse" →
     (patientId ∉ Part001.waitingQueue st →
      Part001.acceptWaiting sock patientId st
      = (st, [(ToSocket sock, EvError "Patient not in queue")])) ∧
     (patientId ∈ Part001.waitingQueue st →
      Part001.getUserById st patientId = None →
      Part001.acceptWaiting sock patientId st
      = (Part001.mkState (Part001.users st) (Part001.userSockets st)
                         (Part001.activeCalls st)
                         (removeId patientId (Part001.waitingQueue st)),
         [(ToSocket sock, EvError "Patient offline")])) ∧
     (∀ patient,
        Part001.reachable st →
        patientId ∈ Part001.waitingQueue st →
        Part001.getUserById st patientId = Some patient →
        let st1 := Part001.mkState (Part001.users st) (Part001.userSockets st)
                     (Part001.activeCalls st)
                     (removeId patientId (Part001.waitingQueue st)) in
        let st' := (Part001.acceptWaiting sock patientId st).1 in
        st' = (Part001.startCall (Part001.id nurse) patientId st1).1.1 ∧
        (ToSocket (Part001.socketId patient),
         EvCallStartedFrom (Part001.id nurse) (Some (Part001.role nurse)))
          ∈ (Part001.acceptWaiting sock patientId st).2 ∧
        (patientId ∉ Part001.waitingQueue st') ∧
        Part001.isBusy st' (Part001.id nurse) = Some true ∧
        Part001.isBusy st' patientId = Some true ∧
        Part001.activeCalls st' !! Part001.id nurse = Some patientId ∧
        Part001.activeCalls st' !! patientId = Some (Part001.id nurse)))
  ∧
  (∀ x q1 q2, x ∉ q1 → removeId x (q1 ++ x :: q2) = q1 ++ q2).
Proof.
  split_and!; [| | | | apply removeId_middle].
  - intros st sock patientId Hno. unfold Part000.acceptWaiting.
    destruct (aget sock (Part000.users st)) as [nurse|]; [|done].
    specialize (Hno nurse eq_refl). by apply String.eqb_neq in Hno as ->.
  - intros st sock patientId nurse En Hrole. unfold Part000.acceptWaiting.
    rewrite En, Hrole. simpl. split_and!.
    + intros ->%indexOf_None. done.
    + intros (i & Ei)%indexOf_elem_of Hoff. rewrite Ei.
      unfold Part000.findSocketByUserId in *. simpl. rewrite Hoff. simpl.
      by rewrite (indexOf_removeId _ _ _ Ei).
    + intros ps Hr (i & Ei)%indexOf_elem_of Eps Hpn Hpp.
      pose proof (Facts000.reachable_inv_000 _ Hr) as [Hok Hnd _ _].
      pose proof Hok as (_ & Hne & _).
      rewrite Ei. rewrite (indexOf_removeId _ _ _ Ei).
      set (st1 := Part000.mkState _ _ (removeId _ _)).
      assert (Part000.findSocketByUserId st1 patientId = Some ps) as Eps1 by done.
      destruct (Facts000.findSocket_Some _ _ _ Eps) as (up & Hup & _).
      destruct (Hne _ _ Hup) as [Hps _].
      rewrite Eps1. simpl. apply truthy_true in Hps as Hps'. rewrite Hps'. simpl.
      apply aget_elem_of in En.
      pose proof (Facts000.findSocket_entry _ _ _ Hok En) as Ens.
      destruct (Hne _ _ En) as [Hsock _].
      destruct (Calls000.startCall_paired_000 (Part000.id nurse) patientId st1
                  sock ps Ens Hsock Eps1 Hps) as (Ba & Bb & Hac & Hq & _ & _).
      destruct (Part000.startCall _ _ st1) as [st2 out2] eqn:Es. simpl in *.
      destruct (Calls000.paired_lookup (Part000.id nurse) patientId
                  (Part000.activeCalls st) Hpn Hpp) as [L1 L2].
      rewrite <- Hac in L1, L2.
      split_and!; try done.
      * apply elem_of_app. right. by left.
      * rewrite Hq. by apply not_elem_of_removeId.
  - intros st sock patientId Hno. unfold Part001.acceptWaiting.
    destruct (Part001.getUserBySocketId st sock) as [nurse|]; [|done].
    specialize (Hno nurse eq_refl). by apply String.eqb_neq in Hno as ->.
  - intros st sock patientId nurse En Hrole. unfold Part001.acceptWaiting.
    rewrite En, Hrole. simpl. split_and!.
    + intros ->%indexOf_None. done.
    + intros (i & Ei)%indexOf_elem_of Hoff. rewrite Ei.
      unfold Part001.getUserById in *. simpl. rewrite Hoff.
      by rewrite (indexOf_removeId _ _ _ Ei).
    + intros patient Hr (i & Ei)%indexOf_elem_of Ep.
      pose proof (Facts001.reachable_inv_001 _ Hr) as [Hok Hnd _ _].
      rewrite Ei. rewrite (indexOf_removeId _ _ _ Ei).
      set (st1 := Part001.mkState _ _ _ (removeId _ _)).
      assert (Part001.getUserById st1 patientId = Some patient) as Ep1 by done.
      rewrite Ep1.
      unfold Part001.getUserBySocketId in En.
      assert (Part001.getUserById st1 (Part001.id nurse) = Some nurse) as En1.
      { change (Part001.getUserById st (Part001.id nurse) = Some nurse).
        by rewrite (Facts001.getUserById_entry _ sock _ Hok (aget_elem_of _ _ _ En)). }
      destruct (Calls001.startCall_paired_001 (Part001.id nurse) patientId st1
                  nurse patient Hok En1 Ep1) as (Hs & Ba & Bb & Hac & Hq & _ & _).
      destruct (Part001.startCall _ _ st1) as [[st2 out2] ok] eqn:Es. simpl in *.
      subst ok. simpl.
      destruct (Calls000.paired_insert (Part001.id nurse) patientId
                  (Part001.activeCalls st)) as [L1 L2].
      rewrite <- Hac in L1, L2.
      split_and!; try done.
      * apply elem_of_app. right. by left.
      * rewrite Hq. by apply not_elem_of_removeId.
Qed.

Lemma find_None_intro {V} (p : V → bool) (l : list (string * V)) :
  (∀ k v, (k, v) ∈ l → p v = false) → fst <$> List.find (λ e, p e.2) l = None.
Proof.
  induction l as [|[k0 v0] l IH]; simpl; [done|]. intros Hall.
  rewrite (Hall k0 v0) by left. apply IH. intros k v ?. apply (Hall k v). by right.
Qed.

Lemma find_adel_other {V} (p : V → bool) (k ks : string) (l : list (string * V)) :
  fst <$> List.find (λ e, p e.2) l = Some ks → ks ≠ k →
  fst <$> List.find (λ e, p e.2) (adel k l) = Some ks.
Proof.
  induction l as [|[k0 v0] l IH]; simpl; [done|].
  destruct (p v0) eqn:E; simpl.
  - intros [= ->] Hne. apply String.eqb_neq in Hne as ->. simpl. by rewrite E.
  - intros Hf Hne. destruct (String.eqb k0 k); simpl; [|rewrite E]; auto.
Qed.

(** C9.  A nurse registered with the id [__proto__] is in a call with
    patient [p1] when her socket disconnects.  In part_000 the assignment
    [activeCalls['__proto__'] = 'p1'] of [startCall] stored nothing, so
    [endCall] reads [Object.prototype] as her partner: the patient is told
    nothing, stays busy and stays bound to the nurse who is gone.  part_001,
    on the same requests, tells the patient, clears its busy flag and
    removes its binding, as the claim says. *)
Theorem disconnect_of_proto_nurse :
  (let st := Part000.stateAfter proto_call in
   let r := Part000.disconnect "s1" st in
   Part000.getOnlineUsers st
   = [("__proto__", "nurse", true); ("p1", "patient", true)] ∧
   Part000.activeCalls st !! "p1" = Some "__proto__" ∧
   r.2 = [(ToAll, EvOnlineUsers [("__proto__", "nurse", false);
                                 ("p1", "patient", true)]);
          (ToAll, EvOnlineUsers [("p1", "patient", true)])] ∧
   Part000.isBusy r.1 "p1" = Some true ∧
   Part000.activeCalls r.1 !! "p1" = Some "__proto__")
  ∧
  (let st := Part001.stateAfter proto_call in
   let r := Part001.cleanupUser "s1" st in
   Part001.getOnlineUsers st
   = [("__proto__", "nurse", true); ("p1", "patient", true)] ∧
   Part001.activeCalls st !! "p1" = Some "__proto__" ∧
   r.2 = [(ToSocket "s2", EvCallEnded "__proto__" (Some "User ended call"));
          (ToAll, EvOnlineUsers [("__proto__", "nurse", false);
                                 ("p1", "patient", false)]);
          (ToAll, EvOnlineUsers [("p1", "patient", false)])] ∧
   Part001.isBusy r.1 "p1" = Some false ∧
   Part001.activeCalls r.1 !! "p1" = None).
Proof. cbv zeta. split_and!; vm_compute; reflexivity. Qed.

(** When the socket of a participant whose id has a binding in
    [activeCalls] disconnects (a nurse in particular), the call is ended as
    by [endCall]: the partner's socket is told, the partner's busy flag is
    cleared, neither of the two keeps a binding, and the disconnected id is
    gone from the directory and from the waiting queue. *)
Theorem disconnect_in_call_releases_partner :
  (∀ st sock user partnerId,
     Part000.reachable st →
     aget sock (Part000.users st) = Some user →
     Part000.activeCalls st !! Part000.id user = Some partnerId →
     let st' := (Part000.disconnect sock st).1 in
     (∀ u, Part000.lookupById st' partnerId = Some u → Part000.busy u = false) ∧
     (∀ partnerSocket,
        Part000.findSocketByUserId st partnerId = Some partnerSocket →
        (ToSocket partnerSocket, EvCallEnded (Part000.id user) None)
          ∈ (Part000.disconnect sock st).2 ∧
        (partnerSocket ≠ sock → Part000.isBusy st' partnerId = Some false)) ∧
     Part000.activeCalls st' !! Part000.id user = None ∧
     Part000.activeCalls st' !! partnerId = None ∧
     aget sock (Part000.users st') = None ∧
     Part000.lookupById st' (Part000.id user) = None ∧
     Part000.id user ∉ Part000.waitingQueue st')
  ∧
  (∀ st sock user partnerId,
     Part001.reachable st →
     Part001.getUserBySocketId st sock = Some user →
     Part001.activeCalls st !! Part001.id user = Some partnerId →
     let st' := (Part001.cleanupUser sock st).1 in
     (∀ u, Part001.getUserById st' partnerId = Some u → Part001.busy u = false) ∧
     (∀ partner,
        Part001.getUserById st partnerId = Some partner →
        (ToSocket (Part001.socketId partner),
         EvCallEnded (Part001.id user) (Some "User ended call"))
          ∈ (Part001.cleanupUser sock st).2 ∧
        (Part001.socketId partner ≠ sock → partnerId ≠ Part001.id user →
         Part001.isBusy st' partnerId = Some false)) ∧
     Part001.activeCalls st' !! Part001.id user = None ∧
     Part001.activeCalls st' !! partnerId = None ∧
     Part001.getUserBySocketId st' sock = None ∧
     Part001.getUserById st' (Part001.id user) = None ∧
     Part001.id user ∉ Part001.waitingQueue st').
Proof.
  split.
  - intros st sock user p Hr Eu Ep st'.
    pose proof (Facts000.reachable_inv_000 _ Hr) as Hinv.
    pose proof Hinv as [Hok Hq _ Hcalls].
    pose proof (Hcalls _ _ Ep) as Hp.
    set (a := Part000.id user) in *.
    pose proof (Calls000.endCall_released_000 a p st Ep Hp)
      as (Hac & Hqq & Hfind & Ia & Ib).
    pose proof (Facts000.endCall_inv_000 a st Hinv) as [Hok1 _ _ _].
    pose proof (aget_elem_of _ _ _ Eu) as Hin.
    pose proof (Facts000.findSocket_entry _ _ _ Hok Hin) as Ea. fold a in Ea.
    pose proof Hok as (_ & Hne & _). destruct (Hne _ _ Hin) as [Hsock _].
    subst st'. unfold Part000.disconnect. rewrite Eu. fold a.
    destruct (Part000.endCall a st) as [st1 out1] eqn:Ee. simpl in *.
    assert (∀ x u, Part000.lookupById
                     (Part000.mkState (adel sock (Part000.users st1))
                        (Part000.activeCalls st1)
                        (removeId a (Part000.waitingQueue st1))) x = Some u →
                   Part000.lookupById st1 x = Some u ∧
                   Part000.findSocketByUserId st1 x ≠ Some sock) as Hlook.
    { intros x u. unfold Part000.lookupById at 1, Part000.findSocketByUserId at 1.
      simpl. destruct (fst <$> List.find _ _) as [s|] eqn:Ef; [|done].
      apply (find_Some_aget (λ u, String.eqb (Part000.id u) x)) in Ef
        as (u' & [Hu' Hs]%elem_of_adel & <-%String.eqb_eq).
      simpl in Hs. rewrite aget_adel.
      apply not_eq_sym, String.eqb_neq in Hs as Hs'. rewrite Hs'. intros Hg.
      unfold Part000.lookupById.
      rewrite (Facts000.findSocket_entry _ _ _ Hok1 Hu'). split; congruence. }
    split_and!.
    + intros u [Hu Hns]%Hlook.
      unfold Part000.lookupById in Hu.
      destruct (Part000.findSocketByUserId st1 p) as [s|] eqn:Es; [|done].
      rewrite Hfind in Es.
      destruct (Facts000.findSocket_Some _ _ _ Es) as (u0 & Hu0 & _).
      destruct (Hne _ _ Hu0) as [Hs _].
      destruct (Ib s Es Hs) as [Hb _].
      unfold Part000.isBusy, Part000.lookupById in Hb.
      rewrite Hfind, Es, Hu in Hb. by simplify_eq/=.
    + intros ps Eps.
      destruct (Facts000.findSocket_Some _ _ _ Eps) as (u0 & Hu0 & _).
      destruct (Hne _ _ Hu0) as [Hs _].
      destruct (Ib ps Eps Hs) as [Hb Hout].
      split; [apply elem_of_app; by left|].
      intros Hps. unfold Part000.isBusy, Part000.lookupById in *.
      unfold Part000.findSocketByUserId at 1. simpl.
      rewrite Hfind, Eps in Hb.
      assert (fst <$> List.find (λ e, String.eqb (Part000.id e.2) p)
                        (adel sock (Part000.users st1)) = Some ps) as ->.
      { apply (find_adel_other (λ u, String.eqb (Part000.id u) p)); [|done].
        rewrite <- Eps, <- Hfind. done. }
      rewrite aget_adel. apply not_eq_sym, String.eqb_neq in Hps as ->. done.
    + rewrite Hac, !lookup_delete. repeat case_decide; done.
    + rewrite Hac, !lookup_delete. repeat case_decide; done.
    + by rewrite aget_adel, String.eqb_refl.
    + unfold Part000.lookupById, Part000.findSocketByUserId. simpl.
      rewrite (find_None_intro (λ u, String.eqb (Part000.id u) a)); [done|].
      intros k v [Hkv Hk]%elem_of_adel. simpl in Hk.
      apply String.eqb_neq. intros Hid.
      rewrite <- Hfind in Ea.
      destruct (Facts000.findSocket_Some _ _ _ Ea) as (u1 & Hu1 & Hid1).
      destruct Hok1 as (_ & _ & Hinj).
      apply Hk. eapply Hinj; [exact Hkv | exact Hu1 | congruence].
    + rewrite Hqq. by apply not_elem_of_removeId.
  - intros st sock user p Hr Eu Ep st'.
    pose proof (Facts001.reachable_inv_001 _ Hr) as Hinv.
    pose proof Hinv as [Hok Hq _ Hcalls].
    pose proof (Hcalls _ _ Ep) as Hp.
    set (a := Part001.id user) in *.
    pose proof (Calls001.endCall_released_001 a p st Hok Ep Hp)
      as (Hac & Hqq & Hsocks & Hnone & Ia & Ib).
    pose proof (Facts001.endCall_inv_001 a st Hinv) as [Hok1 _ _ _].
    unfold Part001.getUserBySocketId in Eu.
    pose proof (aget_elem_of _ _ _ Eu) as Hin.
    subst st'. unfold Part001.cleanupUser. rewrite Eu. fold a. rewrite Ep.
    destruct (Part001.endCall a st) as [st1 out1] eqn:Ee. simpl in *.
    assert (∀ x u, Part001.getUserById
                     (Part001.mkState (adel sock (Part001.users st1))
                        (delete a (Part001.userSockets st1))
                        (Part001.activeCalls st1)
                        (removeId a (Part001.waitingQueue st1))) x = Some u →
                   Part001.getUserById st1 x = Some u) as Hlook.
    { intros x u (k & Hk & Hne & Hg)%Facts001.getUserById_Some. simpl in *.
      apply Facts001.getUserById_Some. exists k.
      rewrite lookup_delete in Hk. case_decide; [done|].
      rewrite aget_adel in Hg. destruct (String.eqb sock k); done. }
    split_and!.
    + intros u Hu%Hlook.
      destruct (Part001.getUserById st p) as [u0|] eqn:E0.
      * destruct (Ib u0 eq_refl) as [Hb _]. unfold Part001.isBusy in Hb.
        rewrite Hu in Hb. by simplify_eq/=.
      * specialize (Hnone p). unfold Part001.isBusy in Hnone.
        rewrite E0, Hu in Hnone. by specialize (Hnone eq_refl).
    + intros partner Epartner. destruct (Ib partner Epartner) as [Hb Hout].
      split; [apply elem_of_app; by left|].
      intros Hps Hpa. unfold Part001.isBusy in *.
      destruct (Part001.getUserById st1 p) as [u1|] eqn:E1; [|done].
      destruct (Facts001.getUserById_id _ _ _ Hok1 E1) as (_ & Hs1 & Hne1 & Hg1).
      destruct (Facts001.getUserById_id _ _ _ Hok Epartner) as (_ & Hs0 & _ & _).
      assert (Part001.socketId u1 = Part001.socketId partner) as Hsame
        by (rewrite Hsocks in Hs1; congruence).
      assert (Part001.getUserById
                (Part001.mkState (adel sock (Part001.users st1))
                   (delete a (Part001.userSockets st1))
                   (Part001.activeCalls st1)
                   (removeId a (Part001.waitingQueue st1))) p = Some u1) as ->; [|done].
      apply Facts001.getUserById_Some. exists (Part001.socketId u1). simpl.
      split_and!; [by rewrite lookup_delete_ne | done |].
      rewrite aget_adel. rewrite Hsame.
      apply not_eq_sym, String.eqb_neq in Hps as ->. by rewrite <- Hsame.
    + rewrite Hac, !lookup_delete. repeat case_decide; done.
    + rewrite Hac, !lookup_delete. repeat case_decide; done.
    + unfold Part001.getUserBySocketId. simpl. by rewrite aget_adel, String.eqb_refl.
    + unfold Part001.getUserById. simpl. by rewrite lookup_delete_eq.
    + rewrite Hqq. by apply not_elem_of_removeId.
Qed.

Lemma accept_waiting_cases_witness :
  (let st := Part000.stateAfter (second_patient_waits ++ [("s2", EndCall "n1")]) in
   let st' := (Part000.acceptWaiting "s1" "p2" st).1 in
   Part000.waitingQueue st = ["p2"] ∧ Part000.waitingQueue st' = [] ∧
   Part000.isBusy st' "p2" = Some true ∧ Part000.isBusy st' "n1" = Some true)
  ∧
  (let st := Part001.stateAfter (second_patient_waits ++ [("s2", EndCall "n1")]) in
   let st' := (Part001.acceptWaiting "s1" "p2" st).1 in
   Part001.waitingQueue st = ["p2"] ∧ Part001.waitingQueue st' = [] ∧
   Part001.isBusy st' "p2" = Some true ∧ Part001.isBusy st' "n1" = Some true).
Proof.
  destruct accept_waiting_cases as (_ & H000 & _ & H001 & _). split.
  - edestruct (H000 (Part000.stateAfter (second_patient_waits ++ [("s2", EndCall "n1")]))
                 "s1" "p2") as (_ & _ & Hpair);
      [vm_compute; reflexivity | reflexivity |].
    edestruct (Hpair "s3") as (_ & _ & _ & Bn & Bp & _).
    + apply Facts000.stateAfter_reachable_000. by repeat constructor.
    + vm_compute. by left.
    + vm_compute. reflexivity.
    + vm_compute. done.
    + done.
    + split_and!; [vm_compute; reflexivity | vm_compute; reflexivity
                   | exact Bp | exact Bn].
  - edestruct (H001 (Part001.stateAfter (second_patient_waits ++ [("s2", EndCall "n1")]))
                 "s1" "p2") as (_ & _ & Hpair);
      [vm_compute; reflexivity | reflexivity |].
    edestruct Hpair as (_ & _ & _ & Bn & Bp & _).
    + apply Facts001.stateAfter_reachable_001. by repeat constructor.
    + vm_compute. by left.
    + vm_compute. reflexivity.
    + split_and!; [vm_compute; reflexivity | vm_compute; reflexivity
                   | exact Bp | exact Bn].
Defined.

Lemma disconnect_in_call_releases_partner_witness :
  (let st' := (Part000.disconnect "s1" (Part000.stateAfter first_call)).1 in
   Part000.isBusy st' "p1" = Some false ∧ Part000.activeCalls st' !! "p1" = None ∧
   Part000.lookupById st' "n1" = None)
  ∧
  (let st' := (Part001.cleanupUser "s1" (Part001.stateAfter first_call)).1 in
   Part001.isBusy st' "p1" = Some false ∧ Part001.activeCalls st' !! "p1" = None ∧
   Part001.getUserById st' "n1" = None).
Proof.
  destruct disconnect_in_call_releases_partner as [H000 H001]. split.
  - edestruct (H000 (Part000.stateAfter first_call) "s1") as (_ & Hp & _ & Hb & _ & Hg & _).
    + apply Facts000.stateAfter_reachable_000. by repeat constructor.
    + vm_compute. reflexivity.
    + vm_compute. reflexivity.
    + split_and!; [|exact Hb | exact Hg].
      apply (Hp "s2"); [vm_compute; reflexivity | done].
  - edestruct (H001 (Part001.stateAfter first_call) "s1") as (_ & Hp & _ & Hb & _ & Hg & _).
    + apply Facts001.stateAfter_reachable_001. by repeat constructor.
    + vm_compute. reflexivity.
    + vm_compute. reflexivity.
    + split_and!; [|exact Hb | exact Hg].
      eapply Hp; [vm_compute; reflexivity | done | done].
Defined.

(** C2, as stated, fails: ['callUser'] looks at the callee's busy flag only.
    A patient in a call with nurse [n1] who calls the idle nurse [n2] is
    answered [callStarted]; the patient's binding is replaced while [n1]
    stays bound to the patient, so the patient is the partner in two
    bindings. *)
Lemma busy_caller_starts_second_call :
  (let st := Part000.stateAfter first_call in
   let st' := Part000.stateAfter patient_calls_again in
   Part000.isBusy st "p1" = Some true ∧
   Part000.activeCalls st !! "p1" = Some "n1" ∧
   Part000.run patient_calls_again Part000.init
   = Returns (st', match Part000.run patient_calls_again Part000.init with
                   | Returns (_, out) => out
                   | Throws _ => []
                   end) ∧
   (ToSocket "s2", EvCallStartedTo "n2")
     ∈ match Part000.callUser "s2" "n2"
               (Part000.stateAfter (first_call ++ [("s4", Register "n2" "nurse")])) with
       | Returns (_, out) => out
       | Throws _ => []
       end ∧
   Part000.activeCalls st' !! "p1" = Some "n2" ∧
   Part000.activeCalls st' !! "n1" = Some "p1" ∧
   Part000.activeCalls st' !! "n2" = Some "p1" ∧
   Part000.isBusy st' "n1" = Some true)
  ∧
  (let st := Part001.stateAfter first_call in
   let st' := Part001.stateAfter patient_calls_again in
   Part001.isBusy st "p1" = Some true ∧
   Part001.activeCalls st !! "p1" = Some "n1" ∧
   (ToSocket "s2", EvCallStartedTo "n2")
     ∈ (Part001.callUser "s2" "n2"
          (Part001.stateAfter (first_call ++ [("s4", Register "n2" "nurse")]))).2 ∧
   Part001.activeCalls st' !! "p1" = Some "n2" ∧
   Part001.activeCalls st' !! "n1" = Some "p1" ∧
   Part001.activeCalls st' !! "n2" = Some "p1" ∧
   Part001.isBusy st' "n1" = Some true).
Proof.
  split; cbv zeta; split_and!; try (vm_compute; reflexivity);
    vm_compute; set_solver.
Qed.

(** C2, amended.  ['callUser'] never starts a call for a callee whose busy
    flag is set: the caller is queued or refused, and every directory entry
    (hence every busy flag) and every call binding stays as it was. *)
Theorem busy_callee_is_never_paired :
  (∀ st sock calleeId caller calleeSocket callee st' out,
     aget sock (Part000.users st) = Some caller →
     Part000.findSocketByUserId st calleeId = Some calleeSocket →
     aget calleeSocket (Part000.users st) = Some callee →
     Part000.busy callee = true →
     Part000.callUser sock calleeId st = Returns (st', out) →
     Part000.users st' = Part000.users st ∧
     Part000.activeCalls st' = Part000.activeCalls st ∧
     ((ToSocket sock, EvCallStartedTo calleeId) ∉ out) ∧
     (out = [(ToSocket sock, EvError "Callee is busy")] ∨
      out = [(ToSocket sock, EvError "Cannot call same role")] ∨
      out = [(ToSocket sock, EvError "Callee offline")] ∨
      (ToSocket sock, EvCallWaiting "Nurse is busy, added to queue" None) ∈ out))
  ∧
  (∀ st sock calleeId caller callee,
     Part001.getUserBySocketId st sock = Some caller →
     Part001.getUserById st calleeId = Some callee →
     Part001.busy callee = true →
     let st' := (Part001.callUser sock calleeId st).1 in
     let out := (Part001.callUser sock calleeId st).2 in
     Part001.users st' = Part001.users st ∧
     Part001.userSockets st' = Part001.userSockets st ∧
     Part001.activeCalls st' = Part001.activeCalls st ∧
     ((ToSocket sock, EvCallStartedTo calleeId) ∉ out) ∧
     (out = [(ToSocket sock, EvError "User is currently busy")] ∨
      out = [(ToSocket sock, EvError "Cannot call users with same role")] ∨
      ∃ position,
        (ToSocket sock,
         EvCallWaiting "Nurse is busy. You have been added to the queue."
                       (Some position)) ∈ out)).
Proof.
  split.
  - intros st sock calleeId caller cs callee st' out Ec Es Ee Hb.
    unfold Part000.callUser. rewrite Ec, Es. simpl.
    destruct (negb (truthy cs)).
    { intros [= <- <-]. split_and!; try done; [|auto]. intros H. not_emitted H. }
    rewrite Ee, Hb.
    destruct (String.eqb _ _).
    { intros [= <- <-]. split_and!; try done; [|auto]. intros H. not_emitted H. }
    destruct (_ && _).
    + destruct (negb _); intros [= <- <-]; simpl;
        (split_and!; try done; [intros H; not_emitted H|]);
        do 3 right; emitted.
    + intros [= <- <-]. split_and!; try done; [|auto]. intros H. not_emitted H.
  - intros st sock calleeId caller callee Ec Ee Hb st' out. subst st' out.
    unfold Part001.callUser. rewrite Ec, Ee, Hb.
    destruct (String.eqb _ _).
    { simpl. split_and!; try done; [|auto]. intros H. not_emitted H. }
    destruct (_ && _).
    + destruct (negb _); simpl;
        (split_and!; try done; [intros H; not_emitted H|]);
        do 2 right; eexists; emitted.
    + simpl. split_and!; try done; [|auto]. intros H. not_emitted H.
Qed.

Lemma busy_callee_is_never_paired_witness :
  Part000.activeCalls (Part000.stateAfter second_patient_waits)
  = Part000.activeCalls (Part000.stateAfter first_call) ∧
  Part001.activeCalls (Part001.stateAfter second_patient_waits)
  = Part001.activeCalls (Part001.stateAfter first_call).
Proof.
  destruct busy_callee_is_never_paired as [H000 H001]. split.
  - edestruct (H000 (Part000.stateAfter
                       (first_call ++ [("s3", Register "p2" "patient")])) "s3" "n1")
      as (_ & Hac & _);
      [vm_compute; reflexivity | vm_compute; reflexivity | vm_compute; reflexivity
      | reflexivity | vm_compute; reflexivity |].
    vm_compute in Hac. vm_compute. exact Hac.
  - edestruct (H001 (Part001.stateAfter
                       (first_call ++ [("s3", Register "p2" "patient")])) "s3" "n1")
      as (_ & _ & Hac & _);
      [vm_compute; reflexivity | vm_compute; reflexivity | reflexivity |].
    vm_compute in Hac. vm_compute. exact Hac.
Defined.

(** C3, as stated, fails: ['callUser'] pairs ids without consulting or
    updating the queue.  Patient [p2] is queued behind a call; the call
    ends; [p2] calls the now idle nurse again and is paired, still queued. *)
Lemma queued_patient_becomes_busy :
  (let st := Part000.stateAfter queued_patient_calls_directly in
   Part000.run queued_patient_calls_directly Part000.init
   = Returns (st, match Part000.run queued_patient_calls_directly Part000.init with
                  | Returns (_, out) => out
                  | Throws _ => []
                  end) ∧
   "p2" ∈ Part000.waitingQueue st ∧
   Part000.isBusy st "p2" = Some true ∧
   Part000.activeCalls st !! "p2" = Some "n1")
  ∧
  (let st := Part001.stateAfter queued_patient_calls_directly in
   "p2" ∈ Part001.waitingQueue st ∧
   Part001.isBusy st "p2" = Some true ∧
   Part001.activeCalls st !! "p2" = Some "n1").
Proof.
  split; cbv zeta; split_and!; try (vm_compute; reflexivity); vm_compute; emitted.
Qed.

Lemma startCall_queue_000 a b st :
  Part000.waitingQueue (Part000.startCall a b st).1 = Part000.waitingQueue st.
Proof. unfold Part000.startCall. by destruct (_ || _). Qed.

Lemma startCall_queue_001 a b st :
  Part001.waitingQueue (Part001.startCall a b st).1.1 = Part001.waitingQueue st.
Proof.
  unfold Part001.startCall. repeat case_match; simpl; [|done..].
  by rewrite !(proj2 (proj2 (Facts001.setUserBusy_frame _ _ _))).
Qed.

(** C3, amended.  In every reachable state the queue holds no id twice, and
    an id admitted through ['acceptWaiting'] is taken out of the queue
    before it is paired: once the patient is sent [callStarted], the
    admitted id is no longer queued. *)
Theorem admitted_id_is_not_queued :
  (∀ st, Part000.reachable st → NoDup (Part000.waitingQueue st))
  ∧
  (∀ st sock patientId target nurseId,
     Part000.reachable st →
     (target, EvCallStartedFrom nurseId None)
       ∈ (Part000.acceptWaiting sock patientId st).2 →
     patientId ∈ Part000.waitingQueue st ∧
     patientId ∉ Part000.waitingQueue (Part000.acceptWaiting sock patientId st).1)
  ∧
  (∀ st, Part001.reachable st → NoDup (Part001.waitingQueue st))
  ∧
  (∀ st sock patientId target nurseId nurseRole,
     Part001.reachable st →
     (target, EvCallStartedFrom nurseId nurseRole)
       ∈ (Part001.acceptWaiting sock patientId st).2 →
     patientId ∈ Part001.waitingQueue st ∧
     patientId ∉ Part001.waitingQueue (Part001.acceptWaiting sock patientId st).1).
Proof.
  split_and!.
  - intros st Hr. by destruct (Facts000.reachable_inv_000 _ Hr).
  - intros st sock patientId target nurseId Hr.
    destruct (Facts000.reachable_inv_000 _ Hr) as [_ Hnd _ _].
    unfold Part000.acceptWaiting.
    destruct (aget sock (Part000.users st)) as [nurse|]; [|intros H; not_emitted H].
    destruct (negb (String.eqb _ _)); [intros H; not_emitted H|].
    destruct (indexOf _ _) as [i|] eqn:Ei; [|intros H; not_emitted H].
    destruct (negb (truthy_opt _)); [intros H; not_emitted H|].
    rewrite (indexOf_removeId _ _ _ Ei).
    pose proof (startCall_queue_000 (Part000.id nurse) patientId
                  (Part000.mkState (Part000.users st) (Part000.activeCalls st)
                     (removeId patientId (Part000.waitingQueue st)))) as Hq.
    destruct (Part000.startCall _ _ _) as [st2 out2]. simpl in *. intros _.
    split.
    + apply indexOf_Some in Ei. by eapply list_elem_of_lookup_2.
    + rewrite Hq. by apply not_elem_of_removeId.
  - intros st Hr. by destruct (Facts001.reachable_inv_001 _ Hr).
  - intros st sock patientId target nurseId nurseRole Hr.
    destruct (Facts001.reachable_inv_001 _ Hr) as [_ Hnd _ _].
    unfold Part001.acceptWaiting.
    destruct (Part001.getUserBySocketId st sock) as [nurse|];
      [|intros H; not_emitted H].
    destruct (negb (String.eqb _ _)); [intros H; not_emitted H|].
    destruct (indexOf _ _) as [i|] eqn:Ei; [|intros H; not_emitted H].
    rewrite (indexOf_removeId _ _ _ Ei).
    destruct (Part001.getUserById _ patientId); [|intros H; not_emitted H].
    pose proof (startCall_queue_001 (Part001.id nurse) patientId
                  (Part001.mkState (Part001.users st) (Part001.userSockets st)
                     (Part001.activeCalls st)
                     (removeId patientId (Part001.waitingQueue st)))) as Hq.
    destruct (Part001.startCall _ _ _) as [[st2 out2] ok]. simpl in *. intros _.
    split.
    + apply indexOf_Some in Ei. by eapply list_elem_of_lookup_2.
    + destruct ok; simpl; rewrite Hq; by apply not_elem_of_removeId.
Qed.

Lemma admitted_id_is_not_queued_witness :
  ("p2" ∉ Part000.waitingQueue
            (Part000.acceptWaiting "s1" "p2"
               (Part000.stateAfter (second_patient_waits ++ [("s2", EndCall "n1")]))).1) ∧
  ("p2" ∉ Part001.waitingQueue
            (Part001.acceptWaiting "s1" "p2"
               (Part001.stateAfter (second_patient_waits ++ [("s2", EndCall "n1")]))).1).
Proof.
  destruct admitted_id_is_not_queued as (_ & H000 & _ & H001). split.
  - eapply (H000 _ "s1" "p2" (ToSocket "s3") "n1").
    + apply Facts000.stateAfter_reachable_000. by repeat constructor.
    + vm_compute. emitted.
  - eapply (H001 _ "s1" "p2" (ToSocket "s3") "n1" (Some "nurse")).
    + apply Facts001.stateAfter_reachable_001. by repeat constructor.
    + vm_compute. emitted.
Defined.

Lemma filter_pushUnique_drop keep x q :
  keep x = false → List.filter keep (pushUnique x q) = List.filter keep q.
Proof.
  intros Hx. unfold pushUnique. destruct (includes x q); [done|].
  rewrite List.filter_app. simpl. rewrite Hx. apply app_nil_r.
Qed.

Lemma filter_removeId_drop keep x q :
  keep x = false → List.filter keep (removeId x q) = List.filter keep q.
Proof.
  intros Hx. induction q as [|y q IH]; [done|].
  rewrite removeId_cons. destruct (String.eqb_spec y x); simpl.
  - subst. by rewrite Hx.
  - by rewrite IH.
Qed.

Lemma includes_filter keep x q :
  keep x = true → includes x (List.filter keep q) = includes x q.
Proof.
  intros Hx. induction q as [|y q IH]; [done|]. simpl.
  destruct (keep y) eqn:Hy; simpl; rewrite IH; [done|].
  destruct (String.eqb_spec y x); [congruence | done].
Qed.

Lemma filter_pushUnique_keep keep x q1 q2 :
  keep x = true → List.filter keep q1 = List.filter keep q2 →
  List.filter keep (pushUnique x q1) = List.filter keep (pushUnique x q2).
Proof.
  intros Hx Hq. unfold pushUnique.
  rewrite <- (includes_filter keep x q1), <- (includes_filter keep x q2), Hq by done.
  destruct (includes _ _); [done|].
  rewrite !List.filter_app. by rewrite Hq.
Qed.

(** *** Entries and the enqueues that made them *)

Lemma stamped_snoc ops op :
  foldl stampStep (0, []) (ops ++ [op])
  = stampStep (foldl stampStep (0, []) ops) op.
Proof. by rewrite foldl_app. Qed.

Lemma stamped_count ops : (foldl stampStep (0, []) ops).1 = length ops.
Proof.
  induction ops as [|op ops IH] using rev_ind; [done|].
  rewrite stamped_snoc, length_app. simpl. rewrite IH. lia.
Qed.

Lemma stampedQueue_snoc ops op :
  stampedQueue (ops ++ [op]) = stampOp (length ops) (stampedQueue ops) op.
Proof.
  unfold stampedQueue. rewrite stamped_snoc. simpl. by rewrite stamped_count.
Qed.

Lemma applyOps_snoc ops op q : applyOps (ops ++ [op]) q = applyOp (applyOps ops q) op.
Proof. unfold applyOps. by rewrite foldl_app. Qed.

Lemma StronglySorted_snoc (l : list nat) (x : nat) :
  StronglySorted lt l → Forall (λ y, y < x) l → StronglySorted lt (l ++ [x]).
Proof.
  induction 1 as [|y l Hl IH Hy]; simpl; intros Hx.
  - repeat constructor.
  - apply Forall_cons in Hx as [Hyx Hx]. constructor; [auto|].
    apply Forall_app. split; [done|]. by constructor.
Qed.

Lemma StronglySorted_delete (l : list nat) i :
  StronglySorted lt l → StronglySorted lt (delete i l).
Proof.
  intros Hl. revert i. induction Hl as [|y l Hl IH Hy]; intros [|i]; simpl.
  - constructor.
  - constructor.
  - done.
  - constructor; [apply IH|]. by apply Forall_delete.
Qed.

Lemma elem_of_delete_entry {A} (l : list A) i e : e ∈ delete i l → e ∈ l.
Proof.
  revert i; induction l as [|z l IH]; intros [|i]; simpl;
    rewrite ?elem_of_cons; naive_solver.
Qed.

Lemma elem_of_removeId_ne x y q : y ∈ q → y ≠ x → y ∈ removeId x q.
Proof.
  induction q as [|z q IH]; [done|]. rewrite removeId_cons.
  intros [->|Hy]%elem_of_cons Hne.
  - apply String.eqb_neq in Hne as ->. by left.
  - destruct (String.eqb z x); [done|]. right. auto.
Qed.

Lemma removeId_absent x q : x ∉ q → removeId x q = q.
Proof. intros Hx%indexOf_None. unfold removeId. by rewrite Hx. Qed.

Lemma lookup_snoc_old {A} (l : list A) (x y : A) n :
  (l ++ [x]) !! n = Some y → n < length l → l !! n = Some y.
Proof. intros H ?. by rewrite lookup_app_l in H. Qed.

Lemma lookup_snoc_inv {A} (l : list A) (x y : A) n :
  (l ++ [x]) !! n = Some y → l !! n = Some y ∨ (n = length l ∧ y = x).
Proof.
  intros H. destruct (decide (n < length l)).
  - left. by rewrite lookup_app_l in H.
  - right. rewrite lookup_app_r in H by lia.
    destruct (n - length l) as [|k] eqn:E; simpl in H; [|done].
    split; [lia | congruence].
Qed.

Lemma stamped_ok_nil : stamped_ok [] [].
Proof.
  split; simpl; try done.
  - constructor.
  - constructor.
  - by intros ?? ?%elem_of_nil.
Qed.

Lemma stamped_ok_step ops sq op :
  stamped_ok ops sq → stamped_ok (ops ++ [op]) (stampOp (length ops) sq op).
Proof.
  intros [Hq Hnd Hs He Ha].
  assert (∀ x n, (x, n) ∈ sq → n < length ops) as Hlt.
  { intros x n Hin. destruct (He x n Hin) as [Hn _]. by apply lookup_lt_Some in Hn. }
  assert (∀ x n y, (x, n) ∈ sq → y ≠ Remove x →
            (ops ++ [y]) !! n = Some (Enqueue x) ∧
            (∀ m, n < m → (ops ++ [y]) !! m ≠ Some (Remove x)) ∧
            (∀ m, m < n → (ops ++ [y]) !! m = Some (Enqueue x) →
                  ∃ k, m < k < n ∧ (ops ++ [y]) !! k = Some (Remove x))) as Hold.
  { intros x n y Hin Hy. destruct (He x n Hin) as (Hn & Hafter & Hfirst).
    pose proof (Hlt x n Hin) as Hn'. split_and!.
    - by apply lookup_app_l_Some.
    - intros m Hm [Hl|[-> E]]%lookup_snoc_inv; [by eapply Hafter|congruence].
    - intros m Hm Hl. apply lookup_snoc_old in Hl; [|lia].
      destruct (Hfirst m Hm Hl) as (k & Hk & Hr). exists k. split; [done|].
      by apply lookup_app_l_Some. }
  assert (∀ x y, x ∉ sq.*1 → ∀ m, m < length ops →
            (ops ++ [y]) !! m = Some (Enqueue x) →
            ∃ k, m < k ∧ (ops ++ [y]) !! k = Some (Remove x)) as Habs.
  { intros x y Hx m Hm Hl. apply lookup_snoc_old in Hl; [|done].
    destruct (Ha x Hx m Hl) as (k & Hk & Hr). exists k. split; [done|].
    by apply lookup_app_l_Some. }
  destruct op as [x|x]; simpl.
  - (* Enqueue *)
    destruct (includes x sq.*1) eqn:Ei.
    + split.
      * rewrite applyOps_snoc, <- Hq. simpl. unfold pushUnique. by rewrite Ei.
      * done.
      * done.
      * intros y n Hin. by apply Hold.
      * intros y Hy m [Hl|[-> [= ->]]]%lookup_snoc_inv.
        -- apply Habs; [done | by apply lookup_lt_Some in Hl | by apply lookup_app_l_Some].
        -- by apply includes_elem_of in Ei.
    + apply includes_false in Ei. split.
      * rewrite applyOps_snoc, <- Hq. simpl. unfold pushUnique.
        apply includes_false in Ei as ->. by rewrite fmap_app.
      * rewrite fmap_app. simpl. apply NoDup_app. split_and!; [done| |apply NoDup_singleton].
        by intros y Hy ->%list_elem_of_singleton.
      * rewrite fmap_app. simpl. apply StronglySorted_snoc; [done|].
        apply Forall_forall. intros n ([y n'] & -> & Hin)%list_elem_of_fmap. simpl.
        by eapply Hlt.
      * intros y n [Hin|[= -> ->]%list_elem_of_singleton]%elem_of_app.
        -- by apply Hold.
        -- split_and!.
           ++ rewrite lookup_app_r by lia. by rewrite Nat.sub_diag.
           ++ intros m Hm Hl. apply lookup_lt_Some in Hl.
              rewrite length_app in Hl. simpl in Hl. lia.
           ++ intros m Hm Hl. apply lookup_snoc_old in Hl; [|done].
              destruct (Ha x Ei m Hl) as (k & Hk & Hr). exists k.
              pose proof (lookup_lt_Some _ _ _ Hr). split; [lia|].
              by apply lookup_app_l_Some.
      * intros y Hy m [Hl|[-> [= ->]]]%lookup_snoc_inv.
        -- apply Habs; [|by apply lookup_lt_Some in Hl | by apply lookup_app_l_Some].
           intros Hin. apply Hy. rewrite fmap_app. apply elem_of_app. by left.
        -- destruct Hy. rewrite fmap_app. apply elem_of_app. right. by left.
  - (* Remove *)
    assert ((match indexOf x sq.*1 with Some i => delete i sq | None => sq end).*1
            = removeId x sq.*1) as Hfst.
    { unfold removeId, splice1. destruct (indexOf x sq.*1); [|done].
      apply list_fmap_delete. }
    assert (∀ y n, (y, n) ∈ match indexOf x sq.*1 with
                            | Some i => delete i sq | None => sq end →
                   (y, n) ∈ sq ∧ y ≠ x) as Hsub.
    { intros y n Hin. split.
      - destruct (indexOf x sq.*1); [by eapply elem_of_delete_entry | done].
      - intros ->. apply (not_elem_of_removeId x sq.*1 Hnd).
        rewrite <- Hfst. apply list_elem_of_fmap. by exists (x, n). }
    split.
    + rewrite applyOps_snoc, <- Hq. done.
    + rewrite Hfst. by apply NoDup_removeId.
    + destruct (indexOf x sq.*1); [|done].
      rewrite list_fmap_delete. by apply StronglySorted_delete.
    + intros y n [Hin Hne]%Hsub. apply Hold; [done | congruence].
    + intros y Hy m [Hl|[-> [=]]]%lookup_snoc_inv.
      rewrite Hfst in Hy.
      destruct (decide (y = x)) as [->|Hne].
      * exists (length ops). split; [by apply lookup_lt_Some in Hl|].
        rewrite lookup_app_r by lia. by rewrite Nat.sub_diag.
      * apply Habs; [|by apply lookup_lt_Some in Hl | by apply lookup_app_l_Some].
        intros Hin. apply Hy. by apply elem_of_removeId_ne.
Qed.

Lemma stampedQueue_ok ops : stamped_ok ops (stampedQueue ops).
Proof.
  induction ops as [|op ops IH] using rev_ind; [apply stamped_ok_nil|].
  rewrite stampedQueue_snoc. by apply stamped_ok_step.
Qed.

(** *** Ids that are never taken out *)

(** Operations on ids outside [keep] do not show among the ids in [keep]. *)
Lemma applyOps_filter keep ops q1 q2 :
  (∀ x, x ∈ takenOut ops q1 → keep x = false) →
  List.filter keep q1 = List.filter keep q2 →
  List.filter keep (applyOps ops q1)
  = List.filter keep (applyOps (Enqueue <$> List.filter keep (enqueuedIds ops)) q2).
Proof.
  revert q1 q2. induction ops as [|[x|x] ops IH]; simpl; intros q1 q2 Hrm Hq.
  - done.
  - destruct (keep x) eqn:Hx; simpl.
    + apply IH; [done|]. by apply filter_pushUnique_keep.
    + apply IH; [done|]. by rewrite filter_pushUnique_drop.
  - apply IH; [intros; apply Hrm; apply elem_of_app; by right|].
    destruct (includes x q1) eqn:Ei.
    + rewrite filter_removeId_drop; [done|]. apply Hrm. by left.
    + apply includes_false in Ei. by rewrite removeId_absent.
Qed.

Lemma applyOps_enqueues l q :
  applyOps (Enqueue <$> l) q = q ++ firstOccurrencesFrom q l.
Proof.
  revert q. induction l as [|x l IH]; simpl; intros q; [by rewrite app_nil_r|].
  unfold pushUnique. destruct (includes x q); [apply IH|].
  rewrite IH. by rewrite <- app_assoc.
Qed.

Lemma firstOccurrencesFrom_subseteq seen l x :
  x ∈ firstOccurrencesFrom seen l → x ∈ l.
Proof.
  revert seen. induction l as [|y l IH]; simpl; intros seen; [done|].
  destruct (includes y seen); rewrite ?elem_of_cons; naive_solver.
Qed.

Lemma firstOccurrencesFrom_NoDup seen l :
  NoDup l → (∀ x, x ∈ l → x ∉ seen) → firstOccurrencesFrom seen l = l.
Proof.
  revert seen. induction l as [|y l IH]; simpl; intros seen Hnd Hdis; [done|].
  apply NoDup_cons in Hnd as [Hy Hnd].
  assert (includes y seen = false) as ->.
  { apply includes_false, Hdis. by left. }
  f_equal. apply IH; [done|].
  intros x Hx [?| ->%list_elem_of_singleton]%elem_of_app; [|done].
  eapply Hdis; [by right | done].
Qed.

Lemma filter_all keep (l : list string) :
  (∀ x, x ∈ l → keep x = true) → List.filter keep l = l.
Proof.
  induction l as [|y l IH]; simpl; intros Hall; [done|].
  rewrite (Hall y) by left. f_equal. apply IH. intros. apply Hall. by right.
Qed.

(** Strict FIFO: the ids that no operation takes out stand in the queue in
    the order in which they were first enqueued. *)
Lemma applyOps_fifo keep ops :
  (∀ x, x ∈ takenOut ops [] → keep x = false) →
  List.filter keep (applyOps ops [])
  = firstOccurrences (List.filter keep (enqueuedIds ops)).
Proof.
  intros Hrm. rewrite (applyOps_filter keep ops [] []) by done.
  rewrite applyOps_enqueues. simpl. apply filter_all.
  intros x Hx%firstOccurrencesFrom_subseteq.
  apply list_elem_of_In in Hx. by apply List.filter_In in Hx as [_ ?].
Qed.

Lemma handle_queue_000 sock req st st' out :
  Part000.handle sock req st = Returns (st', out) →
  Part000.waitingQueue st' = applyOps (queueOps000 sock req st) (Part000.waitingQueue st).
Proof.
  destruct req; simpl.
  - intros [= E]. change st' with (st', out).1. rewrite <- E.
    unfold Part000.register, queueOps000. by repeat case_match.
  - unfold Part000.callUser, queueOps000.
    destruct (aget sock _) as [caller|]; [|by intros [= <- _]].
    destruct (truthy_opt _); simpl; [|by intros [= <- _]; case_match].
    destruct (aget (js_key _) _) as [callee|]; [|done].
    destruct (String.eqb_spec (Part000.role caller) (Part000.role callee)) as [E|E].
    { intros [= <- _]. repeat case_match; try done.
      repeat match goal with
             | H : _ && _ = true |- _ => apply andb_true_iff in H as [? ?]
             | H : String.eqb _ _ = true |- _ => apply String.eqb_eq in H
             end. congruence. }
    destruct (Part000.busy callee); simpl.
    + destruct (_ =? "patient"), (_ =? "nurse"); simpl; try by intros [= <- _].
      unfold pushUnique.
      destruct (includes _ _); simpl; by intros [= <- _].
    + pose proof (startCall_queue_000 (Part000.id caller) (Part000.id callee) st).
      destruct (Part000.startCall _ _ _). by intros [= <- _].
  - intros [= E]. change st' with (st', out).1. rewrite <- E.
    unfold Part000.acceptWaiting, queueOps000.
    destruct (aget sock _) as [nurse|]; [|done].
    destruct (_ =? "nurse"); simpl; [|done].
    unfold removeId. destruct (indexOf _ _) as [i|]; [|done].
    destruct (negb _); [done|].
    pose proof (startCall_queue_000 (Part000.id nurse) patientId
                  (Part000.mkState (Part000.users st) (Part000.activeCalls st)
                     (splice1 i (Part000.waitingQueue st)))).
    by destruct (Part000.startCall _ _ _).
  - unfold Part000.relay, Part000.signal, Part000.chatMessage, queueOps000.
    repeat case_match; intros; simplify_eq; done.
  - intros [= E]. change st' with (st', out).1. rewrite <- E.
    unfold Part000.endCallRequest, queueOps000.
    repeat case_match; try done; by rewrite Facts000.endCall_queue_000.
  - by intros [= <- _].
  - intros [= E]. change st' with (st', out).1. rewrite <- E.
    unfold Part000.disconnect, queueOps000.
    destruct (aget sock _) as [user|]; [|done].
    pose proof (Facts000.endCall_queue_000 (Part000.id user) st).
    destruct (Part000.endCall _ _). simpl in *. congruence.
Qed.

Lemma handle_queue_001 sock req st :
  Part001.waitingQueue (Part001.handle sock req st).1
  = applyOps (queueOps001 sock req st) (Part001.waitingQueue st).
Proof.
  destruct req; simpl.
  - unfold Part001.register, queueOps001. by repeat case_match.
  - unfold Part001.callUser, queueOps001.
    destruct (Part001.getUserBySocketId _ _) as [caller|]; [|done].
    destruct (Part001.getUserById _ _) as [callee|]; [|done].
    destruct (String.eqb_spec (Part001.role caller) (Part001.role callee)) as [E|E].
    { repeat case_match; try done.
      repeat match goal with
             | H : _ && _ = true |- _ => apply andb_true_iff in H as [? ?]
             | H : String.eqb _ _ = true |- _ => apply String.eqb_eq in H
             end. congruence. }
    destruct (Part001.busy callee); simpl.
    + destruct (_ =? "patient"), (_ =? "nurse"); simpl; try done.
      unfold pushUnique. by destruct (includes _ _).
    + pose proof (startCall_queue_001 (Part001.id caller) (Part001.id callee) st).
      destruct (Part001.startCall _ _ _) as [[? ?] []]; done.
  - unfold Part001.acceptWaiting, queueOps001.
    destruct (Part001.getUserBySocketId _ _) as [nurse|]; [|done].
    destruct (_ =? "nurse"); simpl; [|done].
    unfold removeId. destruct (indexOf _ _) as [i|]; [|done].
    destruct (Part001.getUserById _ _); [|done].
    pose proof (startCall_queue_001 (Part001.id nurse) patientId
                  (Part001.mkState (Part001.users st) (Part001.userSockets st)
                     (Part001.activeCalls st)
                     (splice1 i (Part001.waitingQueue st)))).
    destruct (Part001.startCall _ _ _) as [[? ?] []]; done.
  - unfold Part001.relay, queueOps001. by repeat case_match.
  - unfold Part001.endCallRequest, queueOps001.
    repeat case_match; try done; by rewrite Facts001.endCall_queue_001.
  - unfold Part001.getWaitingQueue, queueOps001. by repeat case_match.
  - unfold Part001.cleanupUser, queueOps001, Part001.getUserBySocketId.
    destruct (aget sock _) as [user|]; [|done].
    pose proof (Facts001.endCall_queue_001 (Part001.id user) st).
    destruct (Part001.activeCalls st !! _); [|done].
    destruct (Part001.endCall _ _). simpl in *. congruence.
Qed.

Lemma applyOps_app ops1 ops2 q :
  applyOps (ops1 ++ ops2) q = applyOps ops2 (applyOps ops1 q).
Proof. apply foldl_app. Qed.

Lemma run_queue_000 log st st' out :
  Part000.run log st = Returns (st', out) →
  Part000.waitingQueue st'
  = applyOps (logQueueOps000 log st) (Part000.waitingQueue st).
Proof.
  revert st out. induction log as [|[sock req] log IH]; simpl; intros st out.
  - by intros [= <- _].
  - destruct (Part000.handle sock req st) as [[st1 out1]|] eqn:Eh; [|done].
    destruct (Part000.run log st1) as [[st2 out2]|] eqn:Er; [|done].
    intros [= <- _]. rewrite applyOps_app, <- (handle_queue_000 _ _ _ _ _ Eh).
    by eapply IH.
Qed.

Lemma run_queue_001 log st :
  Part001.waitingQueue (Part001.run log st).1
  = applyOps (logQueueOps001 log st) (Part001.waitingQueue st).
Proof.
  revert st. induction log as [|[sock req] log IH]; simpl; intros st; [done|].
  rewrite applyOps_app, <- handle_queue_001.
  destruct (Part001.handle sock req st) as [st1 out1].
  specialize (IH st1). by destruct (Part001.run log st1).
Qed.

(** C8.  The waiting queue is strictly first-in first-out.  After any
    sequence of enqueue and remove operations started on the empty queue,
    every entry of the queue stands for one enqueue of its id: the first
    one since the id was last removed, with no removal of the id after it;
    the entries stand in the order of these enqueues; and an id enqueued
    and not removed afterwards has an entry.  In particular
    the ids that were never taken out of the queue stand in the order in
    which they were first enqueued, which is the order of the enqueues when
    each was enqueued once.  The queue of either server after any log of
    requests is the result of such a sequence, and ['getWaitingQueue']
    hands a nurse that queue as it is. *)
Theorem waiting_queue_is_fifo :
  (∀ ops,
     (stampedQueue ops).*1 = applyOps ops [] ∧
     StronglySorted lt (stampedQueue ops).*2 ∧
     ∀ x n, (x, n) ∈ stampedQueue ops →
       ops !! n = Some (Enqueue x) ∧
       (∀ m, n < m → ops !! m ≠ Some (Remove x)) ∧
       (∀ m, m < n → ops !! m = Some (Enqueue x) →
             ∃ k, m < k < n ∧ ops !! k = Some (Remove x)))
  ∧
  (∀ ops x m,
     ops !! m = Some (Enqueue x) →
     (∀ k, m < k → ops !! k ≠ Some (Remove x)) →
     x ∈ applyOps ops [])
  ∧
  (∀ ops keep,
     (∀ x, x ∈ takenOut ops [] → keep x = false) →
     List.filter keep (applyOps ops [])
     = firstOccurrences (List.filter keep (enqueuedIds ops)) ∧
     (NoDup (List.filter keep (enqueuedIds ops)) →
      List.filter keep (applyOps ops []) = List.filter keep (enqueuedIds ops)))
  ∧
  (∀ log st' out,
     Part000.run log Part000.init = Returns (st', out) →
     Part000.waitingQueue st' = applyOps (logQueueOps000 log Part000.init) [])
  ∧
  (∀ log,
     Part001.waitingQueue (Part001.stateAfter log)
     = applyOps (logQueueOps001 log Part001.init) [])
  ∧
  (∀ st sock nurse,
     Part001.getUserBySocketId st sock = Some nurse →
     Part001.role nurse = "nurse" →
     Part001.getWaitingQueue sock st
     = (st, [(ToSocket sock, EvWaitingQueue (Part001.waitingQueue st))])).
Proof.
  split_and!.
  - intros ops. destruct (stampedQueue_ok ops) as [Hq _ Hs He _]. done.
  - intros ops x m Hm Hlast. destruct (stampedQueue_ok ops) as [Hq _ _ _ Ha].
    rewrite <- Hq. destruct (decide (x ∈ (stampedQueue ops).*1)) as [|Hx]; [done|].
    destruct (Ha x Hx m Hm) as (k & Hk & Hr). by destruct (Hlast k Hk).
  - intros ops keep Hrm. split; [by apply applyOps_fifo|].
    intros Hnd. rewrite applyOps_fifo by done.
    apply firstOccurrencesFrom_NoDup; [done|]. by intros ? _ ?%elem_of_nil.
  - intros log st' out Hrun. apply (run_queue_000 _ _ _ _ Hrun).
  - intros log. unfold Part001.stateAfter. apply run_queue_001.
  - intros st sock nurse En Hrole. unfold Part001.getWaitingQueue.
    by rewrite En, Hrole.
Qed.

Lemma waiting_queue_is_fifo_witness :
  Part000.waitingQueue (Part000.stateAfter returning_patient_waits) = ["p2"; "p3"] ∧
  Part001.waitingQueue (Part001.stateAfter returning_patient_waits) = ["p2"; "p3"].
Proof.
  destruct waiting_queue_is_fifo as (_ & _ & Hfifo & H000 & H001 & _).
  pose (keep := λ _ : string, true).
  assert (∀ q : list string, List.filter keep q = q) as Hall
    by (intros q; by apply filter_all).
  split.
  - erewrite (H000 returning_patient_waits); [|vm_compute; reflexivity].
    rewrite <- Hall.
    destruct (Hfifo (logQueueOps000 returning_patient_waits Part000.init) keep)
      as [-> _]; [|vm_compute; reflexivity].
    assert (takenOut (logQueueOps000 returning_patient_waits Part000.init) [] = [])
      as -> by (vm_compute; reflexivity).
    by intros x ?%elem_of_nil.
  - rewrite H001, <- Hall.
    destruct (Hfifo (logQueueOps001 returning_patient_waits Part001.init) keep)
      as [-> _]; [|vm_compute; reflexivity].
    assert (takenOut (logQueueOps001 returning_patient_waits Part001.init) [] = [])
      as -> by (vm_compute; reflexivity).
    by intros x ?%elem_of_nil.
Defined.

(** ** Registration by the connection that already holds the id *)

(** part_001 acknowledges the re-registration and changes nothing. *)
Lemma same_socket_reregisters_001 st sock userId role :
  truthy userId = true → valid_role role = true →
  Part001.userSockets st !! userId = Some sock →
  Part001.register sock userId role st
  = (st, [(ToSocket sock, EvRegistered userId role)]).
Proof.
  intros Hid Hrole Hs. unfold Part001.register.
  by rewrite Hid, Hrole, Hs, String.eqb_refl.
Qed.

(** Both servers refuse an id that another connection holds. *)
Lemma other_socket_is_refused st0 st1 sock userId role other :
  truthy userId = true → valid_role role = true →
  (∃ u, (other, u) ∈ Part000.users st0 ∧ Part000.id u = userId) →
  Part001.userSockets st1 !! userId = Some other → other ≠ sock →
  Part000.register sock userId role st0
  = (st0, [(ToSocket sock, EvError "User ID already taken")]) ∧
  Part001.register sock userId role st1
  = (st1, [(ToSocket sock, EvError "User ID already registered")]).
Proof.
  intros Hid Hrole (u & Hin & Hu) Hs Hne. split.
  - unfold Part000.register. rewrite Hid, Hrole. simpl.
    destruct (existsb _ _) eqn:Ex; [done|].
    pose proof (existsb_false_elem (λ u, String.eqb (Part000.id u) userId)
                  _ Ex other u Hin) as Hf.
    by apply String.eqb_neq in Hf.
  - unfold Part001.register. rewrite Hid, Hrole, Hs. simpl.
    by apply String.eqb_neq in Hne as ->.
Qed.

(** part_000 has no exception for the owner of the id: whoever asks for a
    held id is refused. *)
Lemma same_socket_is_refused_000 st sock user role :
  aget sock (Part000.users st) = Some user →
  Part000.register sock (Part000.id user) role st
  = (st, [(ToSocket sock, EvError "Invalid registration")]) ∨
  Part000.register sock (Part000.id user) role st
  = (st, [(ToSocket sock, EvError "User ID already taken")]).
Proof.
  intros Hu%aget_elem_of. unfold Part000.register.
  destruct (_ || _); [by left|]. right.
  destruct (existsb _ _) eqn:Ex; [done|].
  pose proof (existsb_false_elem (λ u, String.eqb (Part000.id u) (Part000.id user))
                _ Ex sock user Hu) as Hf.
  by apply String.eqb_neq in Hf.
Qed.

(** C4.  Nurse [n1] is registered on socket [s1].  Socket [s1] sending the
    same registration again is acknowledged by part_001 with the state
    unchanged, as the claim says, but refused by part_000 with "User ID
    already taken"; a different socket asking for [n1] is refused by both. *)
Theorem reregistration_by_same_socket :
  Part000.register "s1" "n1" "nurse" (Part000.stateAfter nurse_and_patient)
  = (Part000.stateAfter nurse_and_patient,
     [(ToSocket "s1", EvError "User ID already taken")]) ∧
  Part001.register "s1" "n1" "nurse" (Part001.stateAfter nurse_and_patient)
  = (Part001.stateAfter nurse_and_patient,
     [(ToSocket "s1", EvRegistered "n1" "nurse")]) ∧
  Part000.register "s9" "n1" "nurse" (Part000.stateAfter nurse_and_patient)
  = (Part000.stateAfter nurse_and_patient,
     [(ToSocket "s9", EvError "User ID already taken")]) ∧
  Part001.register "s9" "n1" "nurse" (Part001.stateAfter nurse_and_patient)
  = (Part001.stateAfter nurse_and_patient,
     [(ToSocket "s9", EvError "User ID already registered")]).
Proof. split_and!; vm_compute; reflexivity. Qed.

(** ** Relaying with an unresolved sender or target *)

(** part_001: all four relays do nothing unless both ends resolve. *)
Lemma relay_unresolved_is_silent_001 st kind sock body to :
  Part001.getUserBySocketId st sock = None ∨ Part001.getUserById st to = None →
  Part001.relay kind sock body to st = (st, []).
Proof.
  unfold Part001.relay. intros [-> | ->]; [done|].
  by destruct (Part001.getUserBySocketId st sock).
Qed.

(** part_000: the chat relay does nothing unless both ends resolve, and the
    three negotiation relays do nothing when the target does not resolve. *)
Lemma relay_unresolved_is_silent_000 st kind sock body to :
  (kind = ChatMessage ∧
   (truthy_opt (Part000.id <$> aget sock (Part000.users st)) = false ∨
    truthy_opt (Part000.findSocketByUserId st to) = false)) ∨
  (kind ≠ ChatMessage ∧ truthy_opt (Part000.findSocketByUserId st to) = false) →
  Part000.relay kind sock body to st = Returns (st, []).
Proof.
  unfold Part000.relay, Part000.chatMessage, Part000.signal.
  intros [[-> [Hs | Ht]] | [Hk Ht]]; rewrite ?Hs, ?Ht; simpl.
  - done.
  - by destruct (negb _).
  - by destruct kind.
Qed.

(** part_000: a negotiation message from a socket that never registered,
    addressed to a participant that is online, raises. *)
Lemma signal_unregistered_sender_throws_000 st kind sock body to toSocket :
  kind ≠ ChatMessage →
  aget sock (Part000.users st) = None →
  Part000.findSocketByUserId st to = Some toSocket → toSocket ≠ "" →
  Part000.relay kind sock body to st = Throws "TypeError".
Proof.
  intros Hk Hs Ht Hne. unfold Part000.relay, Part000.signal.
  rewrite Hs, Ht. simpl. apply truthy_true in Hne as ->.
  by destruct kind.
Qed.

(** C7.  Socket [s9] never registered; nurse [n1] is online.  In part_000
    an offer, answer or candidate from [s9] to [n1] raises a [TypeError]
    instead of being dropped, while its chat relay, and all four relays of
    part_001, drop the message and leave the state alone. *)
Theorem negotiation_from_unregistered_socket :
  Part000.handle "s9" (Relay Offer "sdp" "n1") (Part000.stateAfter nurse_and_patient)
  = Throws "TypeError" ∧
  Part000.handle "s9" (Relay Answer "sdp" "n1") (Part000.stateAfter nurse_and_patient)
  = Throws "TypeError" ∧
  Part000.handle "s9" (Relay IceCandidate "c" "n1") (Part000.stateAfter nurse_and_patient)
  = Throws "TypeError" ∧
  Part000.handle "s9" (Relay ChatMessage "hi" "n1") (Part000.stateAfter nurse_and_patient)
  = Returns (Part000.stateAfter nurse_and_patient, []) ∧
  (∀ kind,
     Part001.handle "s9" (Relay kind "sdp" "n1") (Part001.stateAfter nurse_and_patient)
     = (Part001.stateAfter nurse_and_patient, [])).
Proof.
  split_and!; [vm_compute; reflexivity..|].
  intros kind. apply relay_unresolved_is_silent_001. left. vm_compute. reflexivity.
Qed.

(** * Further properties of the two servers *)

(** ** Registration *)

Lemma find_aset_fresh {V} (p : V → bool) (k : string) (v : V) (l : list (string * V)) :
  (∀ k' v', (k', v') ∈ l → p v' = false) → p v = true →
  fst <$> List.find (λ e, p e.2) (aset k v l) = Some k.
Proof.
  intros Hall Hv. induction l as [|[k0 v0] l IH]; simpl.
  - by rewrite Hv.
  - pose proof (Hall k0 v0 ltac:(left)) as H0.
    destruct (String.eqb_spec k0 k); simpl.
    + subst. by rewrite Hv.
    + rewrite H0. apply IH. intros k' v' ?. apply (Hall k' v'). by right.
Qed.

(** A registration with a valid role and a non-empty id that is free puts
    an idle participant under the sender's socket: it is found by socket
    and by id, every other socket's entry, the calls and the queue are as
    before, and the new presence snapshot is broadcast (part_001
    acknowledges the sender first and records the reverse index).  Free
    means what each server tests: in part_000 that no entry of [users] has
    the id, in part_001 that the reverse index [userSockets] has no entry
    for it.  An id the reverse index still maps to another socket is
    refused by part_001, whether or not a participant holds it. *)
Theorem register_adds_idle_participant :
  (∀ st sock userId role,
     truthy userId = true → valid_role role = true →
     (∀ s u, (s, u) ∈ Part000.users st → Part000.id u ≠ userId) →
     let st' := (Part000.register sock userId role st).1 in
     aget sock (Part000.users st') = Some (Part000.mkUser userId role false) ∧
     Part000.findSocketByUserId st' userId = Some sock ∧
     Part000.lookupById st' userId = Some (Part000.mkUser userId role false) ∧
     (∀ s, s ≠ sock → aget s (Part000.users st') = aget s (Part000.users st)) ∧
     Part000.activeCalls st' = Part000.activeCalls st ∧
     Part000.waitingQueue st' = Part000.waitingQueue st ∧
     (Part000.register sock userId role st).2
     = [(ToAll, EvOnlineUsers (Part000.getOnlineUsers st'))])
  ∧
  (∀ st sock userId role,
     truthy userId = true → valid_role role = true → sock ≠ "" →
     Part001.userSockets st !! userId = None →
     let st' := (Part001.register sock userId role st).1 in
     Part001.getUserBySocketId st' sock = Some (Part001.mkUser userId role false sock) ∧
     Part001.getUserById st' userId = Some (Part001.mkUser userId role false sock) ∧
     (∀ s, s ≠ sock →
           Part001.getUserBySocketId st' s = Part001.getUserBySocketId st s) ∧
     (∀ x, x ≠ userId → Part001.userSockets st' !! x = Part001.userSockets st !! x) ∧
     Part001.activeCalls st' = Part001.activeCalls st ∧
     Part001.waitingQueue st' = Part001.waitingQueue st ∧
     (Part001.register sock userId role st).2
     = [(ToSocket sock, EvRegistered userId role);
        (ToAll, EvOnlineUsers (Part001.getOnlineUsers st'))])
  ∧
  (∀ st sock userId role other,
     truthy userId = true → valid_role role = true →
     Part001.userSockets st !! userId = Some other → other ≠ sock →
     Part001.register sock userId role st
     = (st, [(ToSocket sock, EvError "User ID already registered")])).
Proof.
  split_and!.
  - intros st sock userId role Hid Hrole Hfresh st'. subst st'.
    unfold Part000.register. rewrite Hid, Hrole. simpl.
    assert (existsb (λ e, String.eqb (Part000.id e.2) userId) (Part000.users st) = false)
      as ->.
    { apply not_true_iff_false. intros (e & Hin & He)%List.existsb_exists.
      apply list_elem_of_In in Hin. destruct e as [s u].
      apply String.eqb_eq in He. by eapply Hfresh. }
    simpl.
    assert (fst <$> List.find (λ e, String.eqb (Part000.id e.2) userId)
                      (aset sock (Part000.mkUser userId role false) (Part000.users st))
            = Some sock) as Hfind.
    { apply (find_aset_fresh (λ u, String.eqb (Part000.id u) userId)).
      - intros k' v' Hin. apply String.eqb_neq. by eapply Hfresh.
      - apply String.eqb_refl. }
    split_and!; try done.
    + by rewrite aget_aset, String.eqb_refl.
    + unfold Part000.lookupById, Part000.findSocketByUserId. simpl. rewrite Hfind.
      by rewrite aget_aset, String.eqb_refl.
    + intros s Hs. rewrite aget_aset. by apply not_eq_sym, String.eqb_neq in Hs as ->.
  - intros st sock userId role Hid Hrole Hsock Hfree st'. subst st'.
    unfold Part001.register. rewrite Hid, Hrole, Hfree. simpl.
    split_and!; try done.
    + unfold Part001.getUserBySocketId. simpl. by rewrite aget_aset, String.eqb_refl.
    + unfold Part001.getUserById. simpl. rewrite lookup_insert_eq. simpl.
      apply truthy_true in Hsock as ->. by rewrite aget_aset, String.eqb_refl.
    + intros s Hs. unfold Part001.getUserBySocketId. simpl. rewrite aget_aset.
      by apply not_eq_sym, String.eqb_neq in Hs as ->.
    + intros x Hx. by rewrite lookup_insert_ne.
  - intros st sock userId role other Hid Hrole Hheld Hother.
    unfold Part001.register. rewrite Hid, Hrole, Hheld. simpl.
    by apply String.eqb_neq in Hother as ->.
Qed.

Lemma register_adds_idle_participant_witness :
  Part000.lookupById (Part000.stateAfter nurse_and_patient) "p1"
  = Some (Part000.mkUser "p1" "patient" false) ∧
  Part001.getUserById (Part001.stateAfter nurse_and_patient) "p1"
  = Some (Part001.mkUser "p1" "patient" false "s2").
Proof.
  destruct register_adds_idle_participant as (H000 & H001 & _). split.
  - edestruct (H000 (Part000.stateAfter [("s1", Register "n1" "nurse")])
                 "s2" "p1" "patient") as (_ & _ & Hl & _);
      [reflexivity | reflexivity | | exact Hl].
    intros s u Hin. vm_compute in Hin. inversion Hin as [|? ? ? Hin']; subst;
      [simpl; congruence | inversion Hin'].
  - edestruct (H001 (Part001.stateAfter [("s1", Register "n1" "nurse")])
                 "s2" "p1" "patient") as (_ & Hl & _);
      [reflexivity | reflexivity | done | vm_compute; reflexivity | exact Hl].
Defined.

(** ** The directory in reachable states *)

Lemma derived000_trans us1 us2 us3 :
  derived000 us1 us2 → derived000 us2 us3 → derived000 us1 us3.
Proof. induction 2; eauto using derived000. Qed.

Lemma derived001_trans us1 us2 us3 :
  derived001 us1 us2 → derived001 us2 us3 → derived001 us1 us3.
Proof. induction 2; eauto using derived001. Qed.

Lemma startCall_derived_000 a b st :
  derived000 (Part000.users st) (Part000.users (Part000.startCall a b st).1).
Proof.
  unfold Part000.startCall. destruct (_ || _); simpl; eauto using derived000.
Qed.

Lemma endCall_derived_000 a st :
  derived000 (Part000.users st) (Part000.users (Part000.endCall a st).1).
Proof.
  unfold Part000.endCall. destruct (negb _); simpl; [constructor|].
  repeat case_match; eauto using derived000.
Qed.

Lemma handle_derived_000 sock req st st' out :
  Part000.handle sock req st = Returns (st', out) →
  derived000 (Part000.users st) (Part000.users st').
Proof.
  destruct req; simpl.
  - intros [= E]. change st' with (st', out).1. rewrite <- E.
    unfold Part000.register.
    destruct (negb (truthy userId) || negb (valid_role role)) eqn:Ev; [constructor|].
    apply orb_false_iff in Ev as [?%negb_false_iff ?%negb_false_iff].
    destruct (existsb _ _); simpl; eauto using derived000.
  - unfold Part000.callUser.
    repeat case_match; intros; simplify_eq; simpl; try constructor.
    match goal with
    | H : Part000.startCall ?a ?b ?s = (?s1, _) |- _ =>
        change s1 with (s1, snd (Part000.startCall a b s)).1;
        replace s1 with (Part000.startCall a b s).1 by (by rewrite H)
    end.
    apply startCall_derived_000.
  - intros [= E]. change st' with (st', out).1. rewrite <- E.
    unfold Part000.acceptWaiting.
    repeat case_match; simpl; try constructor.
    match goal with
    | H : Part000.startCall ?a ?b ?s = (?s1, _) |- _ =>
        replace s1 with (Part000.startCall a b s).1 by (by rewrite H)
    end.
    apply (startCall_derived_000 _ _ (Part000.mkState _ _ _)).
  - unfold Part000.relay, Part000.signal, Part000.chatMessage.
    repeat case_match; intros; simplify_eq; constructor.
  - intros [= E]. change st' with (st', out).1. rewrite <- E.
    unfold Part000.endCallRequest.
    repeat case_match; try constructor. apply endCall_derived_000.
  - intros [= <- _]. constructor.
  - intros [= E]. change st' with (st', out).1. rewrite <- E.
    unfold Part000.disconnect.
    destruct (aget sock _) as [user|]; [|constructor].
    pose proof (endCall_derived_000 (Part000.id user) st).
    destruct (Part000.endCall _ _). simpl in *. eauto using derived000.
Qed.

Lemma setUserBusy_derived_001 x b st :
  Part001.users_ok (Part001.users st) (Part001.userSockets st) →
  derived001 (Part001.users st) (Part001.users (Part001.setUserBusy x b st)).
Proof.
  intros Hok. destruct (Part001.getUserById st x) as [u|] eqn:E.
  - rewrite (Facts001.setUserBusy_eq _ _ _ _ Hok E). simpl. eauto using derived001.
  - unfold Part001.setUserBusy. rewrite E. constructor.
Qed.

Lemma startCall_derived_001 a b st :
  Part001.users_ok (Part001.users st) (Part001.userSockets st) →
  derived001 (Part001.users st) (Part001.users (Part001.startCall a b st).1.1).
Proof.
  intros Hok. unfold Part001.startCall.
  repeat case_match; simpl; try constructor.
  eapply derived001_trans; [by apply setUserBusy_derived_001|].
  apply setUserBusy_derived_001. by apply Calls001.setUserBusy_users_ok.
Qed.

Lemma endCall_derived_001 a st :
  Part001.users_ok (Part001.users st) (Part001.userSockets st) →
  derived001 (Part001.users st) (Part001.users (Part001.endCall a st).1).
Proof.
  intros Hok. unfold Part001.endCall. destruct (negb _); simpl; [constructor|].
  destruct (Part001.getUserById st a), (Part001.getUserById st _); simpl.
  - eapply derived001_trans; [by apply setUserBusy_derived_001|].
    apply setUserBusy_derived_001. by apply Calls001.setUserBusy_users_ok.
  - by apply setUserBusy_derived_001.
  - by apply setUserBusy_derived_001.
  - constructor.
Qed.

Lemma handle_derived_001 sock req st :
  Part001.users_ok (Part001.users st) (Part001.userSockets st) →
  derived001 (Part001.users st) (Part001.users (Part001.handle sock req st).1).
Proof.
  intros Hok. destruct req; simpl.
  - unfold Part001.register.
    destruct (negb (truthy userId)) eqn:Hid; [constructor|].
    destruct (negb (valid_role role)) eqn:Hrole; [constructor|].
    apply negb_false_iff in Hid, Hrole.
    repeat case_match; simpl; eauto using derived001.
  - unfold Part001.callUser.
    repeat case_match; simpl; try constructor;
      match goal with
      | H : Part001.startCall ?a ?b ?s = (?s1, _, _) |- _ =>
          replace s1 with (Part001.startCall a b s).1.1 by (by rewrite H)
      end; by apply startCall_derived_001.
  - unfold Part001.acceptWaiting.
    repeat case_match; simpl; try constructor;
      match goal with
      | H : Part001.startCall ?a ?b ?s = (?s1, _, _) |- _ =>
          replace s1 with (Part001.startCall a b s).1.1 by (by rewrite H)
      end; by apply (startCall_derived_001 _ _ (Part001.mkState _ _ _ _)).
  - unfold Part001.relay. repeat case_match; constructor.
  - unfold Part001.endCallRequest.
    repeat case_match; try constructor. by apply endCall_derived_001.
  - unfold Part001.getWaitingQueue. repeat case_match; constructor.
  - unfold Part001.cleanupUser.
    destruct (aget sock _) as [user|]; [|constructor].
    pose proof (endCall_derived_001 (Part001.id user) st Hok).
    destruct (Part001.activeCalls st !! _); simpl.
    + destruct (Part001.endCall _ _). simpl in *. eauto using derived001.
    + eauto using derived001.
Qed.

Lemma derived000_roles us us' :
  derived000 us us' →
  (∀ s u, (s, u) ∈ us → valid_role (Part000.role u) = true) →
  ∀ s u, (s, u) ∈ us' → valid_role (Part000.role u) = true.
Proof.
  induction 1 as [|? ? ? ? ? IH|? ? ? ? ? ? IH|? ? ? ? IH]; intros Hus s u;
    [apply Hus|..].
  - intros (u0 & ? & _ & ->)%Facts000.setBusyAt_elem. eauto.
  - intros [[= -> ->]|?]%elem_of_aset; simpl; eauto.
  - intros [? _]%elem_of_adel. eauto.
Qed.

Lemma derived001_roles us us' :
  derived001 us us' →
  (∀ s u, (s, u) ∈ us → valid_role (Part001.role u) = true) →
  ∀ s u, (s, u) ∈ us' → valid_role (Part001.role u) = true.
Proof.
  induction 1 as [|? ? ? ? ? IH|? ? ? ? ? ? IH|? ? ? ? IH]; intros Hus s u;
    [apply Hus|..].
  - intros (u0 & ? & [->| ->])%elem_of_aalter; simpl; eauto.
  - intros [[= -> ->]|?]%elem_of_aset; simpl; eauto.
  - intros [? _]%elem_of_adel. eauto.
Qed.

Lemma derived001_keys us us' : derived001 us us' → NoDup us.*1 → NoDup us'.*1.
Proof.
  induction 1; intros Hus; [done|..].
  - rewrite fst_aalter. auto.
  - apply NoDup_fst_aset. auto.
  - apply NoDup_fst_adel. auto.
Qed.

Lemma reachable_roles_000 st :
  Part000.reachable st →
  ∀ s u, (s, u) ∈ Part000.users st → valid_role (Part000.role u) = true.
Proof.
  induction 1 as [|st sock req st' out Hr IH Hs Hh]; [by intros ?? ?%elem_of_nil|].
  eapply derived000_roles; [by eapply handle_derived_000 | done].
Qed.

Lemma reachable_directory_001 st :
  Part001.reachable st →
  NoDup (Part001.users st).*1 ∧
  ∀ s u, (s, u) ∈ Part001.users st → valid_role (Part001.role u) = true.
Proof.
  induction 1 as [|st sock req Hr [IHk IHr] Hs]; [split|].
  - apply NoDup_nil_2.
  - by intros ?? ?%elem_of_nil.
  - pose proof (Part001.inv_users _ (Facts001.reachable_inv_001 _ Hr)) as Hok.
    pose proof (handle_derived_001 sock req st Hok) as Hd. split.
    + by eapply derived001_keys.
    + by eapply derived001_roles.
Qed.

Lemma NoDup_values_of_keys {V} (f : V → string) (l : list (string * V)) :
  NoDup l.*1 →
  (∀ k1 v1 k2 v2, (k1, v1) ∈ l → (k2, v2) ∈ l → f v1 = f v2 → k1 = k2) →
  NoDup ((λ e, f e.2) <$> l).
Proof.
  induction l as [|[k v] l IH]; simpl; [intros; apply NoDup_nil_2|].
  rewrite !NoDup_cons. intros [Hk Hl] Hinj. split.
  - intros ([k' v'] & Hf & Hin)%list_elem_of_fmap. simpl in Hf.
    apply Hk. apply list_elem_of_fmap. exists (k', v'). split; [|done]. simpl.
    eapply Hinj; [left | by right | done].
  - apply IH; [done|]. intros k1 v1 k2 v2 H1 H2. apply Hinj; by right.
Qed.

(** In every reachable state the directory is consistent: a registered
    socket's entry has a non-empty id and the role nurse or patient, the id
    leads back to the same socket and entry, and the presence snapshot
    lists every id once. *)
Theorem directory_is_consistent :
  (∀ st, Part000.reachable st →
     NoDup (snapshotIds (Part000.getOnlineUsers st)) ∧
     ∀ sock u, aget sock (Part000.users st) = Some u →
       Part000.id u ≠ "" ∧ valid_role (Part000.role u) = true ∧
       Part000.findSocketByUserId st (Part000.id u) = Some sock ∧
       Part000.lookupById st (Part000.id u) = Some u ∧
       (Part000.id u, Part000.role u, Part000.busy u) ∈ Part000.getOnlineUsers st)
  ∧
  (∀ st, Part001.reachable st →
     NoDup (snapshotIds (Part001.getOnlineUsers st)) ∧
     ∀ sock u, Part001.getUserBySocketId st sock = Some u →
       Part001.id u ≠ "" ∧ valid_role (Part001.role u) = true ∧
       Part001.socketId u = sock ∧
       Part001.userSockets st !! Part001.id u = Some sock ∧
       Part001.getUserById st (Part001.id u) = Some u ∧
       (Part001.id u, Part001.role u, Part001.busy u) ∈ Part001.getOnlineUsers st).
Proof.
  split.
  - intros st Hr.
    destruct (Facts000.reachable_inv_000 _ Hr) as [Hok _ _ _].
    pose proof Hok as (Hnd & Hne & Hinj). split.
    + unfold snapshotIds, Part000.getOnlineUsers. rewrite <- list_fmap_compose.
      by apply (NoDup_values_of_keys Part000.id).
    + intros sock u Hu. pose proof (aget_elem_of _ _ _ Hu) as Hin.
      pose proof (Facts000.findSocket_entry _ _ _ Hok Hin) as Hf.
      split_and!; [by destruct (Hne _ _ Hin) | by eapply reachable_roles_000 | done | |].
      * unfold Part000.lookupById. by rewrite Hf.
      * apply list_elem_of_fmap. by exists (sock, u).
  - intros st Hr.
    destruct (Facts001.reachable_inv_001 _ Hr) as [Hok _ _ _].
    destruct (reachable_directory_001 _ Hr) as [Hnd Hroles]. split.
    + unfold snapshotIds, Part001.getOnlineUsers. rewrite <- list_fmap_compose.
      apply (NoDup_values_of_keys Part001.id); [done|].
      intros k1 v1 k2 v2 H1 H2 E.
      destruct (Hok _ _ H1) as (_ & _ & _ & E1).
      destruct (Hok _ _ H2) as (_ & _ & _ & E2). congruence.
    + intros sock u Hu. unfold Part001.getUserBySocketId in Hu.
      pose proof (aget_elem_of _ _ _ Hu) as Hin.
      destruct (Hok _ _ Hin) as (? & ? & ? & ?).
      split_and!; try done; [by eapply Hroles | |].
      * by rewrite (Facts001.getUserById_entry _ _ _ Hok Hin).
      * apply list_elem_of_fmap. by exists (sock, u).
Qed.

Lemma directory_is_consistent_witness :
  Part000.findSocketByUserId (Part000.stateAfter second_patient_waits) "p2" = Some "s3" ∧
  Part001.getUserById (Part001.stateAfter second_patient_waits) "p2"
  = Some (Part001.mkUser "p2" "patient" false "s3").
Proof.
  destruct directory_is_consistent as [H000 H001]. split.
  - edestruct (H000 (Part000.stateAfter second_patient_waits)) as [_ Hd].
    + apply Facts000.stateAfter_reachable_000. by repeat constructor.
    + edestruct (Hd "s3") as (_ & _ & Hf & _); [vm_compute; reflexivity | exact Hf].
  - edestruct (H001 (Part001.stateAfter second_patient_waits)) as [_ Hd].
    + apply Facts001.stateAfter_reachable_001. by repeat constructor.
    + edestruct (Hd "s3") as (_ & _ & _ & _ & Hf & _);
        [vm_compute; reflexivity | exact Hf].
Defined.

(** ** Calls: rejection, pairing, hanging up *)

(** A call request that is answered with an error changes nothing, and the
    request is answered with an error when the sender is not registered,
    when the callee is unknown, and when both have the same role. *)
Theorem rejected_call_changes_nothing :
  (∀ st sock calleeId st' out message,
     Part000.callUser sock calleeId st = Returns (st', out) →
     (ToSocket sock, EvError message) ∈ out → st' = st)
  ∧
  (∀ st sock calleeId,
     (aget sock (Part000.users st) = None →
      Part000.callUser sock calleeId st
      = Returns (st, [(ToSocket sock, EvError "Not registered")])) ∧
     (∀ caller, aget sock (Part000.users st) = Some caller →
        Part000.findSocketByUserId st calleeId = None →
        Part000.callUser sock calleeId st
        = Returns (st, [(ToSocket sock, EvError "Callee offline")])) ∧
     (∀ caller calleeSocket callee,
        aget sock (Part000.users st) = Some caller →
        Part000.findSocketByUserId st calleeId = Some calleeSocket →
        calleeSocket ≠ "" →
        aget calleeSocket (Part000.users st) = Some callee →
        Part000.role caller = Part000.role callee →
        Part000.callUser sock calleeId st
        = Returns (st, [(ToSocket sock, EvError "Cannot call same role")])))
  ∧
  (∀ st sock calleeId message,
     (ToSocket sock, EvError message) ∈ (Part001.callUser sock calleeId st).2 →
     (Part001.callUser sock calleeId st).1 = st)
  ∧
  (∀ st sock calleeId,
     (Part001.getUserBySocketId st sock = None →
      Part001.callUser sock calleeId st
      = (st, [(ToSocket sock, EvError "Not registered")])) ∧
     (∀ caller, Part001.getUserBySocketId st sock = Some caller →
        Part001.getUserById st calleeId = None →
        Part001.callUser sock calleeId st
        = (st, [(ToSocket sock, EvError "User not found or offline")])) ∧
     (∀ caller callee,
        Part001.getUserBySocketId st sock = Some caller →
        Part001.getUserById st calleeId = Some callee →
        Part001.role caller = Part001.role callee →
        Part001.callUser sock calleeId st
        = (st, [(ToSocket sock, EvError "Cannot call users with same role")]))).
Proof.
  split_and!.
  - intros st sock calleeId st' out message. unfold Part000.callUser.
    destruct (aget sock _) as [caller|]; [|by intros [= <- _]].
    destruct (negb (truthy_opt _)); [by intros [= <- _]|].
    destruct (aget (js_key _) _) as [callee|]; [|done].
    destruct (String.eqb _ _); [by intros [= <- _]|].
    destruct (Part000.busy callee).
    + destruct (_ && _); [|by intros [= <- _]].
      destruct (negb _); intros [= <- <-] Hout; [not_emitted Hout | done].
    + unfold Part000.startCall. destruct (_ || _); simpl.
      * by intros [= <- _].
      * intros [= <- <-] Hout. not_emitted Hout.
  - intros st sock calleeId. unfold Part000.callUser. split_and!.
    + by intros ->.
    + by intros caller -> ->.
    + intros caller cs callee Ec Es Hcs Ee Hrole. rewrite Ec, Es. simpl.
      apply truthy_true in Hcs as ->. simpl. by rewrite Ee, Hrole, String.eqb_refl.
  - intros st sock calleeId message. unfold Part001.callUser.
    destruct (Part001.getUserBySocketId _ _) as [caller|]; [|done].
    destruct (Part001.getUserById _ _) as [callee|] eqn:Ee; [|done].
    destruct (String.eqb _ _); [done|].
    destruct (Part001.busy callee).
    + destruct (_ && _); [|done].
      destruct (negb _); simpl; intros Hout; [not_emitted Hout | by destruct st].
    + unfold Part001.startCall, Part001.broadcastOnlineUsers.
      destruct (Part001.getUserById st (Part001.id caller)); [|done].
      destruct (Part001.getUserById st (Part001.id callee)); [|done].
      simpl. intros Hout. not_emitted Hout.
  - intros st sock calleeId. unfold Part001.callUser. split_and!.
    + by intros ->.
    + by intros caller -> ->.
    + intros caller callee -> -> ->. by rewrite String.eqb_refl.
Qed.

Lemma rejected_call_changes_nothing_witness :
  Part000.callUser "s2" "p1" (Part000.stateAfter nurse_and_patient)
  = Returns (Part000.stateAfter nurse_and_patient,
             [(ToSocket "s2", EvError "Cannot call same role")]) ∧
  (Part001.callUser "s2" "nobody" (Part001.stateAfter nurse_and_patient)).1
  = Part001.stateAfter nurse_and_patient.
Proof.
  destruct rejected_call_changes_nothing as (_ & H000 & H001 & _). split.
  - edestruct (H000 (Part000.stateAfter nurse_and_patient) "s2" "p1") as (_ & _ & Hsame).
    eapply (Hsame _ "s2"); [vm_compute; reflexivity | vm_compute; reflexivity | done
                           | vm_compute; reflexivity | reflexivity].
  - apply (H001 _ _ _ "User not found or offline"). vm_compute. by left.
Defined.

(** [startCall] either changes nothing and emits nothing, or marks both
    parties busy and binds them.  In part_001 each is then bound to the
    other.  In part_000 that holds for every id other than [__proto__]: an
    id [__proto__] is marked busy but gets no binding, so a call with such a
    party is bound on one side only. *)
Theorem startCall_all_or_nothing :
  (∀ st a b,
     Part000.startCall a b st = (st, []) ∨
     (let st' := (Part000.startCall a b st).1 in
      Part000.isBusy st' a = Some true ∧ Part000.isBusy st' b = Some true ∧
      (a ≠ "__proto__" → Part000.activeCalls st' !! a = Some b) ∧
      (b ≠ "__proto__" → Part000.activeCalls st' !! b = Some a) ∧
      Part000.activeCalls st' !! "__proto__" = Part000.activeCalls st !! "__proto__" ∧
      Part000.waitingQueue st' = Part000.waitingQueue st))
  ∧
  (∀ st a b,
     Part001.users_ok (Part001.users st) (Part001.userSockets st) →
     Part001.startCall a b st = (st, [], false) ∨
     (let st' := (Part001.startCall a b st).1.1 in
      (Part001.startCall a b st).2 = true ∧
      Part001.isBusy st' a = Some true ∧ Part001.isBusy st' b = Some true ∧
      Part001.activeCalls st' !! a = Some b ∧ Part001.activeCalls st' !! b = Some a ∧
      Part001.waitingQueue st' = Part001.waitingQueue st ∧
      Part001.userSockets st' = Part001.userSockets st)).
Proof.
  split.
  - intros st a b.
    destruct (negb (truthy_opt (Part000.findSocketByUserId st a))
              || negb (truthy_opt (Part000.findSocketByUserId st b))) eqn:E.
    + left. unfold Part000.startCall. by rewrite E.
    + right. apply orb_false_iff in E as [Ea Eb].
      apply negb_false_iff, truthy_opt_Some in Ea as (sa & Ea & Hsa).
      apply negb_false_iff, truthy_opt_Some in Eb as (sb & Eb & Hsb).
      destruct (Calls000.startCall_paired_000 a b st sa sb Ea Hsa Eb Hsb)
        as (Ba & Bb & Hac & Hq & _).
      cbv zeta. rewrite Hac. split_and!; try done.
      * intros Ha. unfold objSet. apply String.eqb_neq in Ha as ->.
        destruct (String.eqb b "__proto__"); [by rewrite lookup_insert_eq|].
        rewrite lookup_insert. case_decide; [by subst|]. by rewrite lookup_insert_eq.
      * intros Hb. unfold objSet at 1. apply String.eqb_neq in Hb as ->.
        by rewrite lookup_insert_eq.
      * unfold objSet.
        destruct (String.eqb_spec a "__proto__"), (String.eqb_spec b "__proto__");
          rewrite ?lookup_insert_ne by done; done.
  - intros st a b Hok.
    destruct (Part001.getUserById st a) as [ua|] eqn:Ea;
      [destruct (Part001.getUserById st b) as [ub|] eqn:Eb|].
    + right.
      destruct (Calls001.startCall_paired_001 a b st ua ub Hok Ea Eb)
        as (Hs & Ba & Bb & Hac & Hq & Hsk & _).
      destruct (Calls000.paired_insert a b (Part001.activeCalls st)) as [L1 L2].
      cbv zeta. rewrite Hac. done.
    + left. unfold Part001.startCall. by rewrite Ea, Eb.
    + left. unfold Part001.startCall. by rewrite Ea.
Qed.

Lemma startCall_all_or_nothing_witness :
  Part001.isBusy (Part001.startCall "p1" "n1" (Part001.stateAfter nurse_and_patient)).1.1
                 "n1" = Some true.
Proof.
  destruct startCall_all_or_nothing as [_ H001].
  destruct (H001 (Part001.stateAfter nurse_and_patient) "p1" "n1") as [E|(_ & _ & B & _)].
  - apply Facts001.reachable_inv_001, Facts001.stateAfter_reachable_001.
    by repeat constructor.
  - vm_compute in E. discriminate E.
  - exact B.
Defined.

Lemma endCall_calls_000 a st :
  Part000.activeCalls (Part000.endCall a st).1
  = if truthy_val (objGet a (Part000.activeCalls st))
    then delete (toKey (objGet a (Part000.activeCalls st)))
                (delete a (Part000.activeCalls st))
    else Part000.activeCalls st.
Proof. unfold Part000.endCall. by destruct (truthy_val _). Qed.

Lemma endCall_unbound_000 a st :
  inherited a = false → Part000.activeCalls st !! a = None →
  Part000.endCall a st = (st, []).
Proof.
  intros Ha Hn. unfold Part000.endCall. by rewrite (objGet_plain _ _ Ha), Hn.
Qed.

Lemma endCall_calls_001 a st :
  Part001.activeCalls (Part001.endCall a st).1
  = if truthy_opt (Part001.activeCalls st !! a)
    then delete (js_key (Part001.activeCalls st !! a)) (delete a (Part001.activeCalls st))
    else Part001.activeCalls st.
Proof.
  unfold Part001.endCall. destruct (truthy_opt _); simpl; [|done].
  repeat case_match;
    rewrite ?(proj1 (proj2 (Facts001.setUserBusy_frame _ _ _))); done.
Qed.

(** Hanging up is idempotent: once [endCall] has run for an id, running it
    again for that id, or for the partner it had, changes nothing and
    emits nothing.  In part_000 this holds for ids that are not names of
    members of [Object.prototype]; for such a name without a binding of its
    own [endCall] is never a no-op: it runs on and broadcasts the presence
    snapshot every time. *)
Theorem endCall_twice_is_once :
  (∀ st a,
     inherited a = false →
     Part000.endCall a (Part000.endCall a st).1 = ((Part000.endCall a st).1, []))
  ∧
  (∀ st a b,
     Part000.activeCalls st !! a = Some b → b ≠ "" → inherited b = false →
     Part000.endCall b (Part000.endCall a st).1 = ((Part000.endCall a st).1, []))
  ∧
  (∀ st a,
     inherited a = true → Part000.activeCalls st !! a = None →
     (ToAll, EvOnlineUsers (Part000.getOnlineUsers (Part000.endCall a st).1))
       ∈ (Part000.endCall a st).2)
  ∧
  (∀ st a,
     Part001.endCall a (Part001.endCall a st).1 = ((Part001.endCall a st).1, []))
  ∧
  (∀ st a b,
     Part001.activeCalls st !! a = Some b → b ≠ "" →
     Part001.endCall b (Part001.endCall a st).1 = ((Part001.endCall a st).1, [])).
Proof.
  split_and!.
  - intros st a Ha. pose proof (endCall_calls_000 a st) as Hc.
    destruct (truthy_val (objGet a (Part000.activeCalls st))) eqn:E.
    + apply endCall_unbound_000; [done|]. rewrite Hc, lookup_delete.
      case_decide; [done|]. by rewrite lookup_delete_eq.
    + assert (Part000.endCall a st = (st, [])) as Hnop
        by (unfold Part000.endCall; by rewrite E).
      by rewrite !Hnop.
  - intros st a b Eab Hb Hib. pose proof (endCall_calls_000 a st) as Hc.
    rewrite (proj2 (objGet_string _ _ _) Eab) in Hc. simpl in Hc.
    apply truthy_true in Hb. rewrite Hb in Hc.
    apply endCall_unbound_000; [done|]. by rewrite Hc, lookup_delete_eq.
  - intros st a Ha Hn. unfold Part000.endCall, objGet. rewrite Hn, Ha. simpl.
    apply elem_of_app. right. by left.
  - intros st a. pose proof (endCall_calls_001 a st) as Hc.
    destruct (truthy_opt (Part001.activeCalls st !! a)) eqn:E.
    + unfold Part001.endCall at 1. rewrite Hc, lookup_delete.
      case_decide; [done|]. by rewrite lookup_delete_eq.
    + assert (Part001.endCall a st = (st, [])) as Hnop
        by (unfold Part001.endCall; by rewrite E).
      by rewrite !Hnop.
  - intros st a b Eab Hb. pose proof (endCall_calls_001 a st) as Hc.
    rewrite Eab in Hc. simpl in Hc. apply truthy_true in Hb. rewrite Hb in Hc.
    unfold Part001.endCall at 1. by rewrite Hc, lookup_delete_eq.
Qed.

Lemma endCall_twice_is_once_witness :
  Part000.endCall "n1" (Part000.endCall "p1" (Part000.stateAfter first_call)).1
  = ((Part000.endCall "p1" (Part000.stateAfter first_call)).1, []) ∧
  Part001.endCall "n1" (Part001.endCall "p1" (Part001.stateAfter first_call)).1
  = ((Part001.endCall "p1" (Part001.stateAfter first_call)).1, []).
Proof.
  destruct endCall_twice_is_once as (_ & H000 & _ & _ & H001). split.
  - apply H000; [vm_compute; reflexivity | done | reflexivity].
  - apply H001; [vm_compute; reflexivity | done].
Defined.

Lemma aget_aalter_inv {V} (f : V → V) (k s : string) (l : list (string * V)) v :
  aget s (aalter f k l) = Some v →
  ∃ v0, aget s l = Some v0 ∧ (v = v0 ∨ v = f v0).
Proof.
  rewrite aget_aalter. destruct (String.eqb_spec k s) as [->|].
  - intros (v0 & ? & ->)%fmap_Some. eauto.
  - eauto.
Qed.

Lemma endCall_users_001 a st :
  Part001.users_ok (Part001.users st) (Part001.userSockets st) →
  ∃ sids : list string,
    Part001.users (Part001.endCall a st).1
    = foldr (aalter (Part001.withBusy false)) (Part001.users st) sids.
Proof.
  intros Hok. unfold Part001.endCall. destruct (negb _); simpl; [by exists []|].
  destruct (Part001.getUserById st a) as [ua|] eqn:Ea.
  - pose proof (Calls001.setUserBusy_users_ok a false st Hok) as Hok1.
    rewrite (Facts001.setUserBusy_eq _ _ _ _ Hok Ea) in *.
    match goal with
    | |- context [Part001.setUserBusy ?p false ?s1] =>
        destruct (Part001.getUserById st p) as [up|];
        [destruct (Part001.getUserById s1 p) as [up1|] eqn:Ep1;
         [rewrite (Facts001.setUserBusy_eq _ _ _ _ Hok1 Ep1)
         |unfold Part001.setUserBusy; rewrite Ep1]|]
    end; simpl.
    + by exists [Part001.socketId up1; Part001.socketId ua].
    + by exists [Part001.socketId ua].
    + by exists [Part001.socketId ua].
  - match goal with
    | |- context [Part001.setUserBusy ?p false st] =>
        destruct (Part001.getUserById st p) as [up|] eqn:Ep;
        [rewrite (Facts001.setUserBusy_eq _ _ _ _ Hok Ep)|]
    end; simpl.
    + by exists [Part001.socketId up].
    + by exists [].
Qed.

Lemma flag_writes_keep_table (sids : list string) (us : list (string * Part001.user)) :
  let us' := foldr (aalter (Part001.withBusy false)) us sids in
  us'.*1 = us.*1 ∧
  ∀ s u, aget s us' = Some u →
    ∃ u0, aget s us = Some u0 ∧
          Part001.id u = Part001.id u0 ∧ Part001.role u = Part001.role u0 ∧
          Part001.socketId u = Part001.socketId u0 ∧
          (Part001.busy u = true → Part001.busy u0 = true).
Proof.
  induction sids as [|k sids [IHk IHg]]; simpl.
  - split; [done|]. intros s u Hu. by exists u.
  - split; [by rewrite fst_aalter|].
    intros s u (u1 & Hu1 & Hcase)%aget_aalter_inv.
    destruct (IHg _ _ Hu1) as (u0 & ? & ? & ? & ? & ?).
    exists u0. destruct Hcase as [->| ->]; simpl; done.
Qed.

(** Ending a call never admits anyone: the queue is untouched, no binding
    is added or redirected, the table keeps its sockets, ids and roles, and
    no busy flag goes from false to true. *)
Theorem endCall_only_releases :
  (∀ st a,
     let st' := (Part000.endCall a st).1 in
     Part000.waitingQueue st' = Part000.waitingQueue st ∧
     (∀ x y, Part000.activeCalls st' !! x = Some y →
             Part000.activeCalls st !! x = Some y) ∧
     (Part000.users st').*1 = (Part000.users st).*1 ∧
     (∀ s u, aget s (Part000.users st') = Some u →
        ∃ u0, aget s (Part000.users st) = Some u0 ∧
              Part000.id u = Part000.id u0 ∧ Part000.role u = Part000.role u0 ∧
              (Part000.busy u = true → Part000.busy u0 = true)))
  ∧
  (∀ st a,
     Part001.users_ok (Part001.users st) (Part001.userSockets st) →
     let st' := (Part001.endCall a st).1 in
     Part001.waitingQueue st' = Part001.waitingQueue st ∧
     Part001.userSockets st' = Part001.userSockets st ∧
     (∀ x y, Part001.activeCalls st' !! x = Some y →
             Part001.activeCalls st !! x = Some y) ∧
     (Part001.users st').*1 = (Part001.users st).*1 ∧
     (∀ s u, aget s (Part001.users st') = Some u →
        ∃ u0, aget s (Part001.users st) = Some u0 ∧
              Part001.id u = Part001.id u0 ∧ Part001.role u = Part001.role u0 ∧
              Part001.socketId u = Part001.socketId u0 ∧
              (Part001.busy u = true → Part001.busy u0 = true))).
Proof.
  split.
  - intros st a st'. subst st'. split_and!.
    + apply Facts000.endCall_queue_000.
    + intros x y. rewrite endCall_calls_000. destruct (truthy_val _); [|done].
      rewrite !lookup_delete. by repeat case_decide.
    + unfold Part000.endCall. destruct (negb _); simpl; [done|].
      unfold Part000.setBusyAt. repeat case_match; by rewrite ?fst_aalter.
    + intros s u. unfold Part000.endCall. destruct (negb _); simpl; [eauto|].
      unfold Part000.setBusyAt.
      repeat case_match; intros Hu;
        repeat match goal with
               | H : aget _ (aalter _ _ _) = Some _ |- _ =>
                   apply aget_aalter_inv in H as (? & H & [->| ->])
               end; eexists; (split; [done|]); simpl; done.
  - intros st a Hok st'. subst st'. split_and!.
    + apply Facts001.endCall_queue_001.
    + apply Facts001.endCall_userSockets.
    + intros x y. rewrite endCall_calls_001. destruct (truthy_opt _); [|done].
      rewrite !lookup_delete. by repeat case_decide.
    + destruct (endCall_users_001 a st Hok) as [sids ->].
      apply flag_writes_keep_table.
    + destruct (endCall_users_001 a st Hok) as [sids ->].
      apply flag_writes_keep_table.
Qed.

Lemma endCall_only_releases_witness :
  Part001.waitingQueue (Part001.endCall "p1" (Part001.stateAfter second_patient_waits)).1
  = ["p2"].
Proof.
  destruct endCall_only_releases as [_ H001].
  destruct (H001 (Part001.stateAfter second_patient_waits) "p1") as (Hq & _).
  - apply Facts001.reachable_inv_001, Facts001.stateAfter_reachable_001.
    by repeat constructor.
  - rewrite Hq. vm_compute. reflexivity.
Defined.

(** An ['endCall'] request ends a call only for a registered sender who
    names its current partner; every other request changes nothing and
    emits nothing, and even an accepted one leaves the bindings of third
    parties alone. *)
Theorem endCall_request_is_guarded :
  (∀ st sock to,
     Part000.endCallRequest sock to st = (st, []) ∨
     ∃ from,
       aget sock (Part000.users st) = Some from ∧
       Part000.activeCalls st !! Part000.id from = Some to ∧ to ≠ "" ∧
       Part000.endCallRequest sock to st = Part000.endCall (Part000.id from) st ∧
       ∀ x, x ≠ Part000.id from → x ≠ to →
            Part000.activeCalls (Part000.endCallRequest sock to st).1 !! x
            = Part000.activeCalls st !! x)
  ∧
  (∀ st sock to,
     Part001.endCallRequest sock to st = (st, []) ∨
     ∃ from,
       Part001.getUserBySocketId st sock = Some from ∧
       Part001.activeCalls st !! Part001.id from = Some to ∧ to ≠ "" ∧
       Part001.endCallRequest sock to st = Part001.endCall (Part001.id from) st ∧
       ∀ x, x ≠ Part001.id from → x ≠ to →
            Part001.activeCalls (Part001.endCallRequest sock to st).1 !! x
            = Part001.activeCalls st !! x).
Proof.
  split.
  - intros st sock to. unfold Part000.endCallRequest.
    destruct (aget sock (Part000.users st)) as [from|]; simpl; [|by left].
    destruct (truthy (Part000.id from)); [|by left].
    destruct (objGet (Part000.id from) (Part000.activeCalls st)) as [|p|]
      eqn:Ep; [by left| |by left].
    destruct (String.eqb_spec p to) as [->|]; [|by left].
    destruct (truthy to) eqn:Ht.
    + right. exists from. split_and!; try done;
        [by apply objGet_string | by apply truthy_true|].
      intros x Hx1 Hx2. rewrite endCall_calls_000, Ep. simpl. rewrite Ht.
      by rewrite !lookup_delete_ne.
    + left. unfold Part000.endCall. rewrite Ep. simpl. by rewrite Ht.
  - intros st sock to. unfold Part001.endCallRequest.
    destruct (Part001.getUserBySocketId st sock) as [from|]; simpl; [|by left].
    destruct (Part001.activeCalls st !! Part001.id from) as [p|] eqn:Ep; [|by left].
    destruct (String.eqb_spec p to) as [->|]; [|by left].
    destruct (truthy to) eqn:Ht.
    + right. exists from. split_and!; try done; [by apply truthy_true|].
      intros x Hx1 Hx2. rewrite endCall_calls_001, Ep. simpl. rewrite Ht.
      by rewrite !lookup_delete_ne.
    + left. unfold Part001.endCall. rewrite Ep. simpl. by rewrite Ht.
Qed.

(** Replaces the components of a result [r = (a, b)] by [r.1] and [r.2]. *)
Ltac split_result E :=
  match type of E with
  | ?r = (?a, ?b) =>
      let H := fresh in
      assert (a = r.1 ∧ b = r.2) as H by (by rewrite E); clear E;
      destruct H as [-> ->]
  end.

(** Whenever a request changes the [users] table, the presence snapshot of
    the resulting state is broadcast to every socket. *)
Theorem directory_change_is_broadcast :
  (∀ st sock req st' out,
     Part000.handle sock req st = Returns (st', out) →
     Part000.users st' = Part000.users st ∨
     (ToAll, EvOnlineUsers (Part000.getOnlineUsers st')) ∈ out)
  ∧
  (∀ st sock req,
     Part001.users (Part001.handle sock req st).1 = Part001.users st ∨
     (ToAll, EvOnlineUsers (Part001.getOnlineUsers (Part001.handle sock req st).1))
       ∈ (Part001.handle sock req st).2).
Proof.
  assert (∀ a b st, Part000.users (Part000.startCall a b st).1 = Part000.users st ∨
            (ToAll, EvOnlineUsers (Part000.getOnlineUsers (Part000.startCall a b st).1))
              ∈ (Part000.startCall a b st).2) as Hstart0.
  { intros. unfold Part000.startCall. destruct (_ || _); simpl; [by left|].
    right. emitted. }
  assert (∀ a st, Part000.users (Part000.endCall a st).1 = Part000.users st ∨
            (ToAll, EvOnlineUsers (Part000.getOnlineUsers (Part000.endCall a st).1))
              ∈ (Part000.endCall a st).2) as Hend0.
  { intros. unfold Part000.endCall. destruct (negb _); simpl; [by left|].
    right. rewrite !elem_of_app. do 2 right. by left. }
  assert (∀ a b st, Part001.users (Part001.startCall a b st).1.1 = Part001.users st ∨
            (ToAll, EvOnlineUsers (Part001.getOnlineUsers (Part001.startCall a b st).1.1))
              ∈ (Part001.startCall a b st).1.2) as Hstart1.
  { intros. unfold Part001.startCall, Part001.broadcastOnlineUsers.
    repeat case_match; simpl; [|by left..]. right. emitted. }
  assert (∀ a st, Part001.users (Part001.endCall a st).1 = Part001.users st ∨
            (ToAll, EvOnlineUsers (Part001.getOnlineUsers (Part001.endCall a st).1))
              ∈ (Part001.endCall a st).2) as Hend1.
  { intros. unfold Part001.endCall, Part001.broadcastOnlineUsers.
    destruct (negb _); simpl; [by left|].
    right. rewrite !elem_of_app. do 2 right. by left. }
  split.
  - intros st sock req st' out. destruct req; simpl.
    + intros [= E]. split_result E.
      unfold Part000.register. repeat case_match; simpl; [by left..|]. right. emitted.
    + unfold Part000.callUser.
      repeat case_match; intros; simplify_eq; simpl; try (by left).
      match goal with
      | H : Part000.startCall ?a ?b ?s = _ |- _ =>
          destruct (Hstart0 a b s) as [Hu|Hb]; rewrite H in *; simpl in *
      end; [by left|right]. apply elem_of_app. by left.
    + intros [= E]. split_result E.
      unfold Part000.acceptWaiting.
      repeat case_match; simpl; try (by left).
      match goal with
      | H : Part000.startCall ?a ?b ?s = _ |- _ =>
          destruct (Hstart0 a b s) as [Hu|Hb]; rewrite H in *; simpl in *
      end; [by left|right]. apply elem_of_app. by left.
    + unfold Part000.relay, Part000.signal, Part000.chatMessage.
      repeat case_match; intros; simplify_eq; by left.
    + intros [= E]. split_result E.
      unfold Part000.endCallRequest. repeat case_match; try (by left). apply Hend0.
    + intros [= <- _]. by left.
    + intros [= E]. split_result E.
      unfold Part000.disconnect.
      destruct (aget sock _); [|by left].
      destruct (Part000.endCall _ _). simpl. right.
      apply elem_of_app. right. by left.
  - intros st sock req. destruct req; simpl.
    + unfold Part001.register, Part001.broadcastOnlineUsers.
      repeat case_match; simpl; try (by left). right. emitted.
    + unfold Part001.callUser.
      repeat case_match; simpl; try (by left);
        match goal with
        | H : Part001.startCall ?a ?b ?s = _ |- _ =>
            destruct (Hstart1 a b s) as [Hu|Hb]; rewrite H in *; simpl in *
        end; try (by left); right; apply elem_of_app; by left.
    + unfold Part001.acceptWaiting.
      repeat case_match; simpl; try (by left);
        match goal with
        | H : Part001.startCall ?a ?b ?s = _ |- _ =>
            destruct (Hstart1 a b s) as [Hu|Hb]; rewrite H in *; simpl in *
        end; try (by left); try (by right); right; apply elem_of_app; by left.
    + unfold Part001.relay. repeat case_match; by left.
    + unfold Part001.endCallRequest. repeat case_match; try (by left). apply Hend1.
    + unfold Part001.getWaitingQueue. repeat case_match; by left.
    + unfold Part001.cleanupUser, Part001.broadcastOnlineUsers.
      destruct (aget sock _); [|by left].
      repeat case_match; simpl; right; apply elem_of_app; right; by left.
Qed.

Lemma directory_change_is_broadcast_witness :
  (ToAll, EvOnlineUsers [("n1", "nurse", true); ("p1", "patient", true)])
    ∈ match Part000.handle "s2" (CallUser "n1") (Part000.stateAfter nurse_and_patient) with
      | Returns (_, out) => out
      | Throws _ => []
      end.
Proof.
  destruct directory_change_is_broadcast as [H000 _].
  edestruct (H000 (Part000.stateAfter nurse_and_patient) "s2" (CallUser "n1")) as [E|Hb];
    [vm_compute; reflexivity | vm_compute in E; discriminate E |].
  vm_compute. vm_compute in Hb. exact Hb.
Defined.

(** ** Disconnecting *)

Lemma disconnect_gone_000 sock st :
  aget sock (Part000.users (Part000.disconnect sock st).1) = None.
Proof.
  unfold Part000.disconnect. destruct (aget sock (Part000.users st)) eqn:E; [|done].
  destruct (Part000.endCall _ _). simpl. by rewrite aget_adel, String.eqb_refl.
Qed.

Lemma cleanupUser_gone_001 sock st :
  aget sock (Part001.users (Part001.cleanupUser sock st).1) = None.
Proof.
  unfold Part001.cleanupUser. destruct (aget sock (Part001.users st)) eqn:E; [|done].
  destruct (Part001.activeCalls st !! _); [destruct (Part001.endCall _ _)|];
    simpl; by rewrite aget_adel, String.eqb_refl.
Qed.

(** Cleanup on disconnect is idempotent, a socket that never registered
    leaves no trace, and a participant whose id has no binding is just
    removed: its entry (and, in part_001, its reverse index) and its queue
    entry go, every other entry and every binding stay, and the new
    snapshot is broadcast once.  In part_000 the last part holds for ids
    that are not names of members of [Object.prototype]; for those names
    [endCall] runs in any case. *)
Theorem disconnect_cleans_up_once :
  (∀ st sock,
     Part000.disconnect sock (Part000.disconnect sock st).1
     = ((Part000.disconnect sock st).1, []))
  ∧
  (∀ st sock user,
     aget sock (Part000.users st) = Some user →
     Part000.activeCalls st !! Part000.id user = None →
     inherited (Part000.id user) = false →
     let st' := Part000.mkState (adel sock (Part000.users st)) (Part000.activeCalls st)
                  (removeId (Part000.id user) (Part000.waitingQueue st)) in
     Part000.disconnect sock st = (st', [(ToAll, EvOnlineUsers (Part000.getOnlineUsers st'))]) ∧
     ∀ s, s ≠ sock → aget s (Part000.users st') = aget s (Part000.users st))
  ∧
  (∀ st sock,
     Part001.cleanupUser sock (Part001.cleanupUser sock st).1
     = ((Part001.cleanupUser sock st).1, []))
  ∧
  (∀ st sock user,
     Part001.getUserBySocketId st sock = Some user →
     Part001.activeCalls st !! Part001.id user = None →
     let st' := Part001.mkState (adel sock (Part001.users st))
                  (delete (Part001.id user) (Part001.userSockets st))
                  (Part001.activeCalls st)
                  (removeId (Part001.id user) (Part001.waitingQueue st)) in
     Part001.cleanupUser sock st
     = (st', [(ToAll, EvOnlineUsers (Part001.getOnlineUsers st'))]) ∧
     Part001.getUserById st' (Part001.id user) = None ∧
     ∀ s, s ≠ sock → Part001.getUserBySocketId st' s = Part001.getUserBySocketId st s).
Proof.
  split_and!.
  - intros st sock. pose proof (disconnect_gone_000 sock st) as Hg.
    remember (Part000.disconnect sock st).1 as st1.
    unfold Part000.disconnect. by rewrite Hg.
  - intros st sock user Eu Ec Hi st'. split.
    + unfold Part000.disconnect. by rewrite Eu, (endCall_unbound_000 _ _ Hi Ec).
    + intros s Hs. simpl. rewrite aget_adel.
      by apply not_eq_sym, String.eqb_neq in Hs as ->.
  - intros st sock. pose proof (cleanupUser_gone_001 sock st) as Hg.
    remember (Part001.cleanupUser sock st).1 as st1.
    unfold Part001.cleanupUser. by rewrite Hg.
  - intros st sock user Eu Ec st'. unfold Part001.getUserBySocketId in *. split_and!.
    + unfold Part001.cleanupUser. by rewrite Eu, Ec.
    + unfold Part001.getUserById. simpl. by rewrite lookup_delete_eq.
    + intros s Hs. simpl. rewrite aget_adel.
      by apply not_eq_sym, String.eqb_neq in Hs as ->.
Qed.

Lemma disconnect_cleans_up_once_witness :
  Part000.waitingQueue
    (Part000.disconnect "s3" (Part000.stateAfter second_patient_waits)).1 = [] ∧
  Part001.getUserById
    (Part001.cleanupUser "s3" (Part001.stateAfter second_patient_waits)).1 "p2" = None.
Proof.
  destruct disconnect_cleans_up_once as (_ & H000 & _ & H001). split.
  - edestruct (H000 (Part000.stateAfter second_patient_waits) "s3") as [-> _];
      [vm_compute; reflexivity | vm_compute; reflexivity | reflexivity |].
    vm_compute. reflexivity.
  - edestruct (H001 (Part001.stateAfter second_patient_waits) "s3") as (-> & Hg & _);
      [vm_compute; reflexivity | vm_compute; reflexivity |].
    exact Hg.
Defined.

(** ** Queueing notices *)

Lemma indexOf_app_fresh x q : x ∉ q → indexOf x (q ++ [x]) = Some (length q).
Proof.
  induction q as [|y q IH]; simpl; intros Hx.
  - by rewrite String.eqb_refl.
  - apply not_elem_of_cons in Hx as [Hxy Hx].
    apply not_eq_sym, String.eqb_neq in Hxy as ->. by rewrite IH.
Qed.

(** A patient who calls a busy nurse is told the queue position: a new
    entry stands last, the nurse's socket is notified once with the new
    queue length (part_001) and that length is the reported position; a
    patient already queued is told the position it has, and the nurse is
    not notified again. *)
Theorem queue_notice_reports_position :
  (∀ st sock calleeId caller calleeSocket callee,
     aget sock (Part000.users st) = Some caller →
     Part000.findSocketByUserId st calleeId = Some calleeSocket →
     calleeSocket ≠ "" →
     aget calleeSocket (Part000.users st) = Some callee →
     Part000.busy callee = true →
     Part000.role caller = "patient" → Part000.role callee = "nurse" →
     ∃ st',
       (Part000.id caller ∉ Part000.waitingQueue st →
        Part000.callUser sock calleeId st
        = Returns (st', [(ToSocket calleeSocket,
                          EvWaitingPatient (Some (Part000.id caller)) None);
                         (ToSocket sock,
                          EvCallWaiting "Nurse is busy, added to queue" None)])) ∧
       (Part000.id caller ∈ Part000.waitingQueue st →
        Part000.callUser sock calleeId st
        = Returns (st', [(ToSocket sock,
                          EvCallWaiting "Nurse is busy, added to queue" None)])))
  ∧
  (∀ st sock calleeId caller callee,
     Part001.getUserBySocketId st sock = Some caller →
     Part001.getUserById st calleeId = Some callee →
     Part001.busy callee = true →
     Part001.role caller = "patient" → Part001.role callee = "nurse" →
     (Part001.id caller ∉ Part001.waitingQueue st →
      (Part001.callUser sock calleeId st).2
      = [(ToSocket (Part001.socketId callee),
          EvWaitingPatient (Some (Part001.id caller))
                           (Some (S (length (Part001.waitingQueue st)))));
         (ToSocket sock,
          EvCallWaiting "Nurse is busy. You have been added to the queue."
                        (Some (S (length (Part001.waitingQueue st)))))]) ∧
     (∀ i, indexOf (Part001.id caller) (Part001.waitingQueue st) = Some i →
           Part001.waitingQueue st !! i = Some (Part001.id caller) ∧
           (Part001.callUser sock calleeId st).2
           = [(ToSocket sock,
               EvCallWaiting "Nurse is busy. You have been added to the queue."
                             (Some (S i)))])).
Proof.
  split.
  - intros st sock calleeId caller cs callee Ec Es Hs Ee Hb Hrc Hre.
    exists (Part000.mkState (Part000.users st) (Part000.activeCalls st)
              (pushUnique (Part000.id caller) (Part000.waitingQueue st))).
    unfold Part000.callUser, pushUnique. rewrite Ec, Es. simpl.
    apply truthy_true in Hs as ->. simpl. rewrite Ee, Hb, Hrc, Hre. simpl.
    split.
    + by intros ->%includes_false.
    + intros ->%includes_elem_of. simpl. by destruct st.
  - intros st sock calleeId caller callee Ec Ee Hb Hrc Hre.
    unfold Part001.callUser. rewrite Ec, Ee, Hb, Hrc, Hre. simpl. split.
    + intros Hx. pose proof Hx as ->%includes_false. simpl.
      by rewrite indexOf_app_fresh, length_app, Nat.add_comm.
    + intros i Hi. split; [by apply indexOf_Some|].
      assert (includes (Part001.id caller) (Part001.waitingQueue st) = true) as ->.
      { apply includes_elem_of. apply indexOf_Some in Hi.
        by eapply list_elem_of_lookup_2. }
      simpl. by rewrite Hi.
Qed.

Lemma queue_notice_reports_position_witness :
  (Part001.callUser "s3" "n1"
     (Part001.stateAfter (first_call ++ [("s3", Register "p2" "patient")]))).2
  = [(ToSocket "s1", EvWaitingPatient (Some "p2") (Some 1%nat));
     (ToSocket "s3",
      EvCallWaiting "Nurse is busy. You have been added to the queue." (Some 1%nat))].
Proof.
  destruct queue_notice_reports_position as [_ H001].
  edestruct (H001 (Part001.stateAfter (first_call ++ [("s3", Register "p2" "patient")]))
               "s3" "n1") as [Hnew _];
    [vm_compute; reflexivity | vm_compute; reflexivity
    | reflexivity | reflexivity | reflexivity |].
  rewrite Hnew; [reflexivity|]. vm_compute. intros Hin. inversion Hin.
Defined.

(** ** Busy flags, statistics and read-only requests *)

Lemma aalter_aalter {V} (f g : V → V) (k : string) (l : list (string * V)) :
  aalter g k (aalter f k l) = aalter (g ∘ f) k l.
Proof.
  induction l as [|[k0 v0] l IH]; simpl; [done|].
  destruct (String.eqb k0 k) eqn:E; simpl; rewrite E; [done | by rewrite IH].
Qed.

Lemma fmap_aalter {V W} (h : string * V → W) (f : V → V) (k : string)
    (l : list (string * V)) :
  (∀ s v, h (s, f v) = h (s, v)) → h <$> aalter f k l = h <$> l.
Proof.
  intros Hh. induction l as [|[k0 v0] l IH]; simpl; [done|].
  destruct (String.eqb k0 k); simpl; [by rewrite Hh | by f_equal].
Qed.

(** [setUserBusy] on an unknown id does nothing; on a known id it writes
    that participant's flag and nothing else: the entry reads back with the
    new flag, entries on other sockets, the order of the table, the ids and
    roles of the snapshot, calls, queue and reverse index are unchanged,
    and a second write overrides the first. *)
Theorem setUserBusy_writes_one_flag :
  (∀ st x b, Part001.getUserById st x = None → Part001.setUserBusy x b st = st)
  ∧
  (∀ st x b u,
     Part001.users_ok (Part001.users st) (Part001.userSockets st) →
     Part001.getUserById st x = Some u →
     let st' := Part001.setUserBusy x b st in
     Part001.getUserById st' x = Some (Part001.withBusy b u) ∧
     Part001.isBusy st' x = Some b ∧
     (∀ y v, Part001.getUserById st y = Some v →
             Part001.socketId v ≠ Part001.socketId u →
             Part001.getUserById st' y = Some v) ∧
     (λ t, t.1) <$> Part001.getOnlineUsers st' = (λ t, t.1) <$> Part001.getOnlineUsers st ∧
     Part001.userSockets st' = Part001.userSockets st ∧
     Part001.activeCalls st' = Part001.activeCalls st ∧
     Part001.waitingQueue st' = Part001.waitingQueue st ∧
     ∀ b', Part001.setUserBusy x b' st' = Part001.setUserBusy x b' st).
Proof.
  split.
  - intros st x b E. unfold Part001.setUserBusy. by rewrite E.
  - intros st x b u Hok Eu st'. subst st'.
    pose proof (Calls001.getUserById_setUserBusy st x b) as Hget.
    pose proof (Calls001.setUserBusy_users_ok x b st Hok) as Hok'.
    rewrite Eu in Hget.
    assert (Part001.getUserById (Part001.setUserBusy x b st) x
            = Some (Part001.withBusy b u)) as Hx.
    { rewrite Hget, Eu by done. simpl. by rewrite String.eqb_refl. }
    split_and!.
    + done.
    + unfold Part001.isBusy. by rewrite Hx.
    + intros y v Ev Hne. rewrite Hget, Ev by done. simpl.
      by apply not_eq_sym, String.eqb_neq in Hne as ->.
    + rewrite (Facts001.setUserBusy_eq _ _ _ _ Hok Eu).
      unfold Part001.getOnlineUsers. simpl. rewrite <- !list_fmap_compose.
      by apply fmap_aalter.
    + apply Facts001.setUserBusy_frame.
    + apply Facts001.setUserBusy_frame.
    + apply Facts001.setUserBusy_frame.
    + intros b'. rewrite (Facts001.setUserBusy_eq x b' _ _ Hok' Hx).
      rewrite !(Facts001.setUserBusy_eq _ _ _ _ Hok Eu). simpl.
      by rewrite aalter_aalter.
Qed.

Lemma setUserBusy_writes_one_flag_witness :
  Part001.isBusy (Part001.setUserBusy "p1" true (Part001.stateAfter nurse_and_patient)) "p1"
  = Some true ∧
  Part001.isBusy (Part001.setUserBusy "p1" true (Part001.stateAfter nurse_and_patient)) "n1"
  = Some false.
Proof.
  destruct setUserBusy_writes_one_flag as [_ H001].
  edestruct (H001 (Part001.stateAfter nurse_and_patient) "p1" true)
    as (_ & Hb & Hother & _).
  - apply Facts001.reachable_inv_001, Facts001.stateAfter_reachable_001.
    by repeat constructor.
  - vm_compute. reflexivity.
  - split; [exact Hb|]. unfold Part001.isBusy.
    rewrite (Hother "n1" {| Part001.id := "n1"; Part001.role := "nurse";
                            Part001.busy := false; Part001.socketId := "s1" |});
      [reflexivity | vm_compute; reflexivity | done].
Defined.

Lemma count_roles (us : list (string * Part001.user)) :
  (∀ s u, (s, u) ∈ us → valid_role (Part001.role u) = true) →
  (length (List.filter (λ e, String.eqb (Part001.role e.2) "nurse") us)
   + length (List.filter (λ e, String.eqb (Part001.role e.2) "patient") us)
   = length us)%nat.
Proof.
  induction us as [|[s u] us IH]; simpl; [done|]. intros Hall.
  specialize (IH (λ s' u' H, Hall s' u' (list_elem_of_further _ _ _ H))).
  pose proof (Hall s u ltac:(left)) as Hv. unfold valid_role in Hv.
  destruct (String.eqb_spec (Part001.role u) "nurse") as [E|E];
    destruct (String.eqb_spec (Part001.role u) "patient") as [E'|E'];
    simpl in *; try lia; congruence.
Qed.

(** The statistics of a reachable state add up: every online user is
    counted as a nurse or as a patient and never as both, the user count is
    the length of the presence snapshot, the queue count is the length of
    the queue, and twice the reported number of calls is the number of
    bindings. *)
Theorem stats_add_up :
  ∀ st, Part001.reachable st →
    let s := Api001.apiStats st in
    (Api001.nurses s + Api001.patients s = Api001.onlineUsers s)%nat ∧
    Api001.onlineUsers s = length (Api001.apiUsers st) ∧
    Api001.waitingQueue s = length (Part001.waitingQueue st) ∧
    QArith_base.Qeq (QArith_base.Qmult (QArith_base.Qmake 2 1) (Api001.activeCalls s))
                    (QArith_base.Qmake (Z.of_nat (size (Part001.activeCalls st))) 1).
Proof.
  intros st Hr s. subst s. simpl. split_and!.
  - apply count_roles. by destruct (reachable_directory_001 _ Hr).
  - unfold Api001.apiUsers, Part001.getOnlineUsers. by rewrite length_fmap.
  - done.
  - unfold QArith_base.Qeq, QArith_base.Qmult. simpl. lia.
Qed.

Lemma stats_add_up_witness :
  Api001.onlineUsers (Api001.apiStats (Part001.stateAfter second_patient_waits)) = 3%nat ∧
  Api001.nurses (Api001.apiStats (Part001.stateAfter second_patient_waits)) = 1%nat ∧
  Api001.patients (Api001.apiStats (Part001.stateAfter second_patient_waits)) = 2%nat.
Proof.
  destruct (stats_add_up (Part001.stateAfter second_patient_waits)) as (Hsum & _).
  - apply Facts001.stateAfter_reachable_001. by repeat constructor.
  - assert (Api001.nurses (Api001.apiStats (Part001.stateAfter second_patient_waits))
            = 1%nat) as Hn by (vm_compute; reflexivity).
    assert (Api001.onlineUsers (Api001.apiStats (Part001.stateAfter second_patient_waits))
            = 3%nat) as Ho by (vm_compute; reflexivity).
    rewrite Hn, Ho in Hsum. split_and!; [done | done | lia].
Defined.

(** Relays and queue reads are stateless: a log made of such requests
    only leaves the state as it was, whatever the senders and targets, and
    addresses every message to a single socket, never to all. *)
Theorem read_only_requests_keep_state :
  (∀ log st st' out,
     Forall (λ e, readsOnly e.2 = true) log →
     Part000.run log st = Returns (st', out) →
     st' = st ∧ ∀ t ev, (t, ev) ∈ out → t ≠ ToAll)
  ∧
  (∀ log st,
     Forall (λ e, readsOnly e.2 = true) log →
     (Part001.run log st).1 = st ∧
     ∀ t ev, (t, ev) ∈ (Part001.run log st).2 → t ≠ ToAll).
Proof.
  split.
  - induction log as [|[sock req] log IH]; simpl; intros st st' out Hl.
    + intros [= <- <-]. split; [done|]. by intros ?? ?%elem_of_nil.
    + apply Forall_cons in Hl as [Hreq Hl]. simpl in Hreq.
      destruct (Part000.handle sock req st) as [[st1 out1]|] eqn:Eh; [|done].
      destruct (Part000.run log st1) as [[st2 out2]|] eqn:Er; [|done].
      intros [= <- <-].
      destruct (IH _ _ _ Hl Er) as [-> Hout2].
      assert (st1 = st ∧ ∀ t ev, (t, ev) ∈ out1 → t ≠ ToAll) as [-> Hout1].
      { destruct req; try done; simpl in Eh.
        - unfold Part000.relay, Part000.signal, Part000.chatMessage in Eh.
          repeat case_match; simplify_eq; (split; [done|]);
            intros t ev Hin; not_emitted Hin.
        - simplify_eq. split; [done|]. by intros ?? ?%elem_of_nil. }
      split; [done|]. intros t ev [?|?]%elem_of_app; eauto.
  - induction log as [|[sock req] log IH]; simpl; intros st Hl.
    + split; [done|]. by intros ?? ?%elem_of_nil.
    + apply Forall_cons in Hl as [Hreq Hl]. simpl in Hreq.
      assert ((Part001.handle sock req st).1 = st ∧
              ∀ t ev, (t, ev) ∈ (Part001.handle sock req st).2 → t ≠ ToAll)
        as [Hst Hout1].
      { destruct req; try done; simpl.
        - unfold Part001.relay.
          repeat case_match; simpl; (split; [done|]);
            intros t ev Hin; not_emitted Hin.
        - unfold Part001.getWaitingQueue.
          repeat case_match; simpl; (split; [done|]);
            intros t ev Hin; not_emitted Hin. }
      destruct (Part001.handle sock req st) as [st1 out1]. simpl in *. subst st1.
      destruct (IH st Hl) as [Hst2 Hout2].
      destruct (Part001.run log st) as [st2 out2]. simpl in *.
      split; [done|]. intros t ev [?|?]%elem_of_app; eauto.
Qed.

Lemma read_only_requests_keep_state_witness :
  Part001.stateAfter
    (first_call ++ [("s1", Relay Offer "sdp" "p1"); ("s1", GetWaitingQueue);
                    ("s2", Relay ChatMessage "hello" "n1")])
  = Part001.stateAfter first_call.
Proof.
  destruct read_only_requests_keep_state as [_ H001].
  destruct (H001 [("s1", Relay Offer "sdp" "p1"); ("s1", GetWaitingQueue);
                  ("s2", Relay ChatMessage "hello" "n1")]
                 (Part001.stateAfter first_call)) as [Hst _].
  - by repeat constructor.
  - etransitivity; [|exact Hst]. vm_compute. reflexivity.
Defined.

(** ** The notice of the next waiting patient *)

(** When a call ends while patients wait, the two servers tell different
    people.  part_000 tells the nurse of the call whoever hangs up: the
    ender when the ender is a nurse, the partner otherwise.  part_001 tells
    only a nurse who hangs up: every ['waitingPatient'] notice of its
    [endCall] goes to the ender's own socket, the ender is a nurse, and the
    notice carries the head and the length of a non-empty queue; when a
    patient hangs up nobody is told. *)
Theorem next_patient_notice :
  (∀ st a b sa sb ua q0 q,
     Part000.reachable st →
     Part000.activeCalls st !! a = Some b →
     Part000.findSocketByUserId st a = Some sa →
     aget sa (Part000.users st) = Some ua →
     Part000.findSocketByUserId st b = Some sb →
     Part000.waitingQueue st = q0 :: q →
     (ToSocket (if String.eqb (Part000.role ua) "nurse" then sa else sb),
      EvWaitingPatient (Some q0) None) ∈ (Part000.endCall a st).2)
  ∧
  (∀ st a t x len,
     (t, EvWaitingPatient x len) ∈ (Part001.endCall a st).2 →
     ∃ u q0, Part001.getUserById st a = Some u ∧ Part001.role u = "nurse" ∧
             t = ToSocket (Part001.socketId u) ∧
             head (Part001.waitingQueue st) = Some q0 ∧ x = Some q0 ∧
             len = Some (length (Part001.waitingQueue st)))
  ∧
  (∀ st a b u q0 q,
     Part001.activeCalls st !! a = Some b → b ≠ "" →
     Part001.getUserById st a = Some u →
     Part001.waitingQueue st = q0 :: q →
     (ToSocket (Part001.socketId u),
      EvWaitingPatient (Some q0) (Some (S (length q)))) ∈ (Part001.endCall a st).2
     ↔ Part001.role u = "nurse").
Proof.
  split_and!.
  - intros st a b sa sb ua q0 q Hr Hac Hsa Hua Hsb Hq.
    pose proof (Facts000.reachable_inv_000 _ Hr) as [Hok _ _ Hcalls].
    pose proof (Hcalls _ _ Hac) as Hb. apply truthy_true in Hb.
    destruct (Hok) as (_ & Hne & _).
    assert (truthy sa = true) as Hsat.
    { apply truthy_true. by destruct (Hne _ _ (aget_elem_of _ _ _ Hua)). }
    assert (truthy sb = true) as Hsbt.
    { apply truthy_true.
      destruct (Facts000.findSocket_Some _ _ _ Hsb) as (ub & Hin & _).
      by destruct (Hne _ _ Hin). }
    unfold Part000.endCall. rewrite (proj2 (objGet_string _ _ _) Hac). simpl.
    rewrite Hb, Hsa, Hsb, Hq. simpl.
    rewrite Hsat, Hsbt. simpl.
    assert (truthy a = true) as Ha.
    { apply truthy_true.
      destruct (Facts000.findSocket_Some _ _ _ Hsa) as (ua' & Hin & <-).
      by destruct (Hne _ _ Hin). }
    set (us2 := Part000.setBusyAt sb false (Part000.setBusyAt sa false (Part000.users st))).
    assert (∃ u', aget sa us2 = Some u' ∧ Part000.role u' = Part000.role ua)
      as (u' & -> & ->).
    { unfold us2, Part000.setBusyAt. rewrite !aget_aalter.
      destruct (String.eqb_spec sb sa) as [->|_];
        rewrite ?String.eqb_refl, Hua; simpl; eauto. }
    assert (∀ ac x, Part000.findSocketByUserId
                      (Part000.mkState us2 ac (q0 :: q)) x
                    = Part000.findSocketByUserId st x) as Hf.
    { intros ac x. unfold Part000.findSocketByUserId, us2. simpl.
      by rewrite !Facts000.find_setBusyAt. }
    destruct (String.eqb (Part000.role ua) "nurse"); simpl;
      rewrite !Hf, ?Ha, ?Hb, ?Hsa, ?Hsb; simpl; rewrite ?Hsat, ?Hsbt; right; left.
  - intros st a t x len Hin. unfold Part001.endCall in Hin.
    destruct (negb (truthy_opt (Part001.activeCalls st !! a))); simpl in Hin;
      [by apply elem_of_nil in Hin|].
    assert (∀ y b s, Part001.waitingQueue (Part001.setUserBusy y b s)
                     = Part001.waitingQueue s) as Hwq
      by (intros; apply Facts001.setUserBusy_frame).
    unfold Part001.broadcastOnlineUsers in Hin.
    destruct (Part001.getUserById st a) as [u|];
      destruct (Part001.getUserById st (js_key _)) as [p|];
      simpl in Hin; rewrite ?Hwq in Hin;
      try destruct (String.eqb_spec (Part001.role u) "nurse");
      destruct (Part001.waitingQueue st) as [|q0 q]; simpl in Hin;
      repeat (rewrite ?elem_of_app, ?elem_of_cons, ?elem_of_nil in Hin);
      naive_solver.
  - intros st a b u q0 q Hac Hb Hu Hq.
    assert (∀ y b s, Part001.waitingQueue (Part001.setUserBusy y b s)
                     = Part001.waitingQueue s) as Hwq
      by (intros; apply Facts001.setUserBusy_frame).
    apply truthy_true in Hb.
    unfold Part001.endCall, Part001.broadcastOnlineUsers.
    rewrite Hac. simpl. rewrite Hb, Hu. simpl.
    destruct (Part001.getUserById st b) as [p|]; simpl; rewrite ?Hwq, Hq; simpl;
      destruct (String.eqb_spec (Part001.role u) "nurse"); simpl;
      rewrite ?elem_of_app, ?elem_of_cons, ?elem_of_nil; naive_solver.
Qed.

Lemma next_patient_notice_witness :
  (ToSocket "s1", EvWaitingPatient (Some "p2") None)
    ∈ (Part000.endCall "p1" (Part000.stateAfter second_patient_waits)).2 ∧
  (ToSocket "s1", EvWaitingPatient (Some "p2") (Some 1%nat))
    ∈ (Part001.endCall "n1" (Part001.stateAfter second_patient_waits)).2.
Proof.
  destruct next_patient_notice as (H000 & _ & H001). split.
  - apply (H000 (Part000.stateAfter second_patient_waits) "p1" "n1" "s2" "s1"
                (Part000.mkUser "p1" "patient" true) "p2" []).
    + apply Facts000.stateAfter_reachable_000. by repeat constructor.
    + vm_compute. reflexivity.
    + vm_compute. reflexivity.
    + vm_compute. reflexivity.
    + vm_compute. reflexivity.
    + vm_compute. reflexivity.
  - apply (H001 (Part001.stateAfter second_patient_waits) "n1" "p1"
                (Part001.mkUser "n1" "nurse" true "s1") "p2" []).
    + vm_compute. reflexivity.
    + done.
    + vm_compute. reflexivity.
    + vm_compute. reflexivity.
    + reflexivity.
Defined.


(** * The room-based server *)

Module RoomFacts.
Import Rooms.

Lemma adel_absent {V} (k : string) (l : list (string * V)) :
  aget k l = None → adel k l = l.
Proof.
  induction l as [|[k0 v0] l IH]; simpl; [done|].
  destruct (String.eqb k0 k); [done|]. intros ?. f_equal. auto.
Qed.

Lemma dropRoom_rooms k rs : (dropRoom k rs).1 = adel k rs.
Proof.
  unfold dropRoom. destruct (aget k rs) eqn:E; simpl; [done|].
  by rewrite adel_absent.
Qed.

Lemma find_entry {V} (p : V → bool) (l : list (string * V)) k v :
  List.find (λ e, p e.2) l = Some (k, v) → (k, v) ∈ l ∧ p v = true.
Proof.
  intros [Hin Hp]%find_some. split; [by apply list_elem_of_In | done].
Qed.

Lemma find_no_entry {V} (p : V → bool) (l : list (string * V)) k v :
  List.find (λ e, p e.2) l = None → (k, v) ∈ l → p v = false.
Proof.
  intros Hn Hin%list_elem_of_In. apply (find_none _ _ Hn (k, v) Hin).
Qed.

(** The loop drops at most one call, one the test selects; calls the test
    rejects stay, and no call appears. *)
Lemma dropFirstCall_calls p cs :
  NoDup cs.*1 →
  (∀ k c, aget k cs = Some c → p c = false →
          aget k (dropFirstCall p cs).1 = Some c) ∧
  (∀ e, e ∈ (dropFirstCall p cs).1 → e ∈ cs) ∧
  NoDup (dropFirstCall p cs).1.*1.
Proof.
  intros Hnd. unfold dropFirstCall.
  destruct (List.find _ cs) as [[k0 c0]|] eqn:E; simpl; [|done].
  apply find_entry in E as [Hin Hp]. split_and!.
  - intros k c Hk Hc. rewrite aget_adel.
    destruct (String.eqb_spec k0 k) as [->|]; [|done].
    rewrite (NoDup_fst_aget _ _ _ Hnd Hin) in Hk. congruence.
  - by intros e [? _]%elem_of_adel.
  - by apply NoDup_fst_adel.
Qed.

Lemma register_inv_rooms sock userType name roomId st :
  inv st → inv (register sock userType name roomId st).1.
Proof.
  intros []. unfold register.
  destruct (String.eqb userType "nurse"); simpl; split; simpl; try done.
  all: try by apply NoDup_fst_aset.
  all: by intros k u [[= -> ->]|?]%elem_of_aset; eauto.
Qed.

Lemma setRoomId_users rid sock us :
  NoDup us.*1 → (∀ k u, (k, u) ∈ us → User.id u = k) →
  NoDup (aalter (setRoomId rid) sock us).*1 ∧
  ∀ k u, (k, u) ∈ aalter (setRoomId rid) sock us → User.id u = k.
Proof.
  intros Hnd Hid. rewrite fst_aalter. split; [done|].
  intros k u (u0 & Hin & [->| ->])%elem_of_aalter; simpl; eauto.
Qed.

Lemma callNurse_inv_rooms sock patientName roomName now1 now2 now3 st :
  inv st → inv (callNurse sock patientName roomName now1 now2 now3 st).1.
Proof.
  intros []. unfold callNurse. split; simpl.
  - by apply NoDup_fst_aset.
  - destruct (aget sock (users st)); [|done]. by apply setRoomId_users.
  - by apply NoDup_fst_aset.
  - intros k r [[= -> ->]|?]%elem_of_aset; [|eauto].
    split; [done|]. by left.
  - destruct (aget sock (users st)); [|done]. by apply setRoomId_users.
  - intros k c [[= -> ->]|?]%elem_of_aset; eauto.
Qed.

Lemma activate_ok sock nurseName k r : room_ok k r → room_ok k (activate sock nurseName r).
Proof. intros [Hid _]. split; [done|]. right. by exists sock, nurseName. Qed.

Lemma acceptCall_inv_rooms sock callId nurseName st :
  inv st → inv (acceptCall sock callId nurseName st).1.
Proof.
  intros Hinv. pose proof Hinv as []. unfold acceptCall.
  destruct (aget callId (waitingCalls st)) as [c|]; [|done].
  destruct (aget (Call.roomId c) (rooms st)); [|done].
  split; simpl.
  - by rewrite fst_aalter.
  - destruct (aget sock (users st)); [|done]. by apply setRoomId_users.
  - by apply NoDup_fst_adel.
  - intros k r (r0 & Hin & [->| ->])%elem_of_aalter; [eauto|].
    apply activate_ok. eauto.
  - destruct (aget sock (users st)); [|done]. by apply setRoomId_users.
  - intros k c' [? _]%elem_of_adel. eauto.
Qed.

Lemma endCall_state sock roomId st :
  (endCall sock roomId st).1
  = mkState (adel roomId (rooms st)) (users st)
            (dropFirstCall (λ c, String.eqb (Call.roomId c) roomId) (waitingCalls st)).1.
Proof.
  unfold endCall. rewrite <- dropRoom_rooms.
  destruct (dropRoom roomId (rooms st)), (dropFirstCall _ (waitingCalls st)). done.
Qed.

Lemma endCall_inv_rooms sock roomId st : inv st → inv (endCall sock roomId st).1.
Proof.
  intros []. rewrite endCall_state.
  destruct (dropFirstCall_calls (λ c, String.eqb (Call.roomId c) roomId)
              (waitingCalls st)) as (_ & Hsub & Hnd); [done|].
  split; simpl; try done.
  - by apply NoDup_fst_adel.
  - intros k r [? _]%elem_of_adel. eauto.
  - intros k c ?%Hsub. eauto.
Qed.

Lemma disconnect_state sock st u :
  aget sock (users st) = Some u →
  (disconnect sock st).1
  = mkState (if truthy_opt (User.roomId u)
             then adel (js_key (User.roomId u)) (rooms st) else rooms st)
            (adel sock (users st))
            (dropFirstCall (λ c, String.eqb (Call.patientId c) sock) (waitingCalls st)).1.
Proof.
  intros E. unfold disconnect. rewrite E.
  destruct (truthy_opt (User.roomId u)).
  - rewrite <- dropRoom_rooms.
    destruct (dropRoom _ (rooms st)), (dropFirstCall _ (waitingCalls st)). done.
  - by destruct (dropFirstCall _ (waitingCalls st)).
Qed.

Lemma disconnect_unregistered sock st :
  aget sock (users st) = None → disconnect sock st = (st, []).
Proof.
  intros E. unfold disconnect. rewrite E, (adel_absent _ _ E). by destruct st.
Qed.

Lemma disconnect_inv_rooms sock st : inv st → inv (disconnect sock st).1.
Proof.
  intros Hinv. destruct (aget sock (users st)) as [u|] eqn:E;
    [|by rewrite disconnect_unregistered].
  destruct Hinv. rewrite (disconnect_state _ _ _ E).
  destruct (dropFirstCall_calls (λ c, String.eqb (Call.patientId c) sock)
              (waitingCalls st)) as (_ & Hsub & Hnd); [done|].
  split; simpl; try done.
  - destruct (truthy_opt _); [by apply NoDup_fst_adel | done].
  - by apply NoDup_fst_adel.
  - destruct (truthy_opt _); [|done]. intros k r [? _]%elem_of_adel. eauto.
  - intros k u' [? _]%elem_of_adel. eauto.
  - intros k c ?%Hsub. eauto.
Qed.

Lemma relays_state sock req st : relays req = true → (handle sock req st).1 = st.
Proof.
  destruct req; try done; intros _; simpl; [|].
  - unfold ready. by repeat case_match.
  - unfold iceCandidate. by case_match.
Qed.

Lemma handle_inv_rooms sock req st : inv st → inv (handle sock req st).1.
Proof.
  intros Hinv. destruct (relays req) eqn:Er; [by rewrite relays_state|].
  destruct req; try done; simpl.
  - by apply register_inv_rooms.
  - by apply callNurse_inv_rooms.
  - by apply acceptCall_inv_rooms.
  - by apply endCall_inv_rooms.
  - by apply disconnect_inv_rooms.
Qed.

Lemma reachable_inv_rooms st : reachable st → inv st.
Proof.
  induction 1 as [|sock req st _ IH].
  - split; simpl; try apply NoDup_nil_2; by intros ?? ?%elem_of_nil.
  - by apply handle_inv_rooms.
Qed.

Lemma run_reachable_rooms log st : reachable st → reachable (run log st).1.
Proof.
  revert st. induction log as [|[sock req] log IH]; simpl; intros st Hr; [done|].
  pose proof (reachable_step sock req st Hr) as Hr1.
  destruct (handle sock req st) as [st1 out1]. simpl in Hr1.
  specialize (IH st1 Hr1). by destruct (run log st1).
Qed.

Lemma stateAfter_reachable_rooms log : reachable (stateAfter log).
Proof. apply run_reachable_rooms, reachable_init. Qed.

End RoomFacts.

(** ** Accepting a waiting call *)

(** ['accept-call'] answers a call at most once.  When the call is not
    waiting, or its room is gone, nothing happens and nothing is sent.
    Otherwise the patient who placed the call is sent ['call-accepted'] with
    the room and the accepting socket, the accepting socket joins the room,
    the room becomes active with that socket as its nurse, the call leaves
    the waiting table and every other call and room is as before.  Whatever
    the first request did, a second one for the same call id, from any
    socket, changes nothing and sends nothing. *)
Theorem call_is_accepted_at_most_once :
  (∀ st sock callId nurseName,
     (∀ c, aget callId (Rooms.waitingCalls st) = Some c →
           aget (Rooms.Call.roomId c) (Rooms.rooms st) = None) →
     Rooms.acceptCall sock callId nurseName st = (st, []))
  ∧
  (∀ st sock callId nurseName c r,
     aget callId (Rooms.waitingCalls st) = Some c →
     aget (Rooms.Call.roomId c) (Rooms.rooms st) = Some r →
     let res := Rooms.acceptCall sock callId nurseName st in
     Rooms.EmitTo (Rooms.Call.patientId c)
       (Rooms.MsgCallAccepted (Rooms.Call.roomId c) nurseName sock) ∈ res.2 ∧
     Rooms.Join sock (Rooms.Call.roomId c) ∈ res.2 ∧
     aget callId (Rooms.waitingCalls res.1) = None ∧
     (∀ k, k ≠ callId →
           aget k (Rooms.waitingCalls res.1) = aget k (Rooms.waitingCalls st)) ∧
     aget (Rooms.Call.roomId c) (Rooms.rooms res.1)
     = Some (Rooms.Room.mk (Rooms.Room.id r) (Rooms.Room.name r)
               (Rooms.Room.patientName r) "active" (Rooms.Room.patientId r)
               (Some (sock, nurseName)) (Some sock)) ∧
     (∀ k, k ≠ Rooms.Call.roomId c →
           aget k (Rooms.rooms res.1) = aget k (Rooms.rooms st)))
  ∧
  (∀ st sock1 name1 sock2 name2 callId,
     let st1 := (Rooms.acceptCall sock1 callId name1 st).1 in
     Rooms.acceptCall sock2 callId name2 st1 = (st1, [])).
Proof.
  split_and!.
  - intros st sock callId nurseName Hgone. unfold Rooms.acceptCall.
    destruct (aget callId (Rooms.waitingCalls st)) as [c|]; [|done].
    by rewrite (Hgone c).
  - intros st sock callId nurseName c r Hc Hr res. subst res.
    unfold Rooms.acceptCall. rewrite Hc, Hr. simpl. split_and!.
    + emitted.
    + emitted.
    + by rewrite aget_adel, String.eqb_refl.
    + intros k Hk. rewrite aget_adel.
      by apply not_eq_sym, String.eqb_neq in Hk as ->.
    + by rewrite aget_aalter, String.eqb_refl, Hr.
    + intros k Hk. rewrite aget_aalter.
      by apply not_eq_sym, String.eqb_neq in Hk as ->.
  - intros st sock1 name1 sock2 name2 callId st1. subst st1.
    unfold Rooms.acceptCall at 2 3.
    destruct (aget callId (Rooms.waitingCalls st)) as [c|] eqn:Hc; simpl.
    + destruct (aget (Rooms.Call.roomId c) (Rooms.rooms st)) eqn:Hr; simpl.
      * unfold Rooms.acceptCall. simpl.
        by rewrite aget_adel, String.eqb_refl.
      * unfold Rooms.acceptCall. by rewrite Hc, Hr.
    + unfold Rooms.acceptCall. by rewrite Hc.
Qed.

Lemma call_is_accepted_at_most_once_witness :
  Rooms.EmitTo "s2" (Rooms.MsgCallAccepted "room_1000" "Nora" "s1")
    ∈ (Rooms.acceptCall "s1" "call_1000" "Nora"
         (Rooms.stateAfter patient_calls_nurse)).2 ∧
  Rooms.acceptCall "s1" "call_7" "Nora" (Rooms.stateAfter patient_calls_nurse)
  = (Rooms.stateAfter patient_calls_nurse, []).
Proof.
  destruct call_is_accepted_at_most_once as (Hgone & Hacc & _). split.
  - edestruct (Hacc (Rooms.stateAfter patient_calls_nurse) "s1" "call_1000" "Nora")
      as (Hmsg & _).
    + vm_compute. reflexivity.
    + vm_compute. reflexivity.
    + exact Hmsg.
  - apply Hgone. intros c Hc. vm_compute in Hc. discriminate.
Defined.

(** A patient's ['call-nurse'] followed by ['accept-call'] for the id the
    call was given always connects the two: whatever the state, the
    readings and the accepting socket, the caller is sent ['call-accepted']
    for the room created by the call, the room is active with the caller as
    patient and the accepting socket as nurse, and the call no longer
    waits. *)
Theorem call_nurse_then_accept :
  ∀ st patient patientName roomName now1 now2 now3 nurse nurseName,
    let st1 := (Rooms.callNurse patient patientName roomName now1 now2 now3 st).1 in
    let res := Rooms.acceptCall nurse (Rooms.callIdOf now1) nurseName st1 in
    Rooms.EmitTo patient
      (Rooms.MsgCallAccepted (Rooms.roomIdOf now2) nurseName nurse) ∈ res.2 ∧
    aget (Rooms.callIdOf now1) (Rooms.waitingCalls res.1) = None ∧
    aget (Rooms.roomIdOf now2) (Rooms.rooms res.1)
    = Some (Rooms.Room.mk (Rooms.roomIdOf now2) (Rooms.roomNameOr roomName)
              patientName "active" patient (Some (nurse, nurseName)) (Some nurse)).
Proof.
  intros st patient patientName roomName now1 now2 now3 nurse nurseName st1 res.
  subst res st1. unfold Rooms.acceptCall, Rooms.callNurse. simpl.
  rewrite !aget_aset, !String.eqb_refl. simpl.
  rewrite !aget_aset, !String.eqb_refl. simpl. split_and!.
  - emitted.
  - by rewrite aget_adel, String.eqb_refl.
  - by rewrite aget_aalter, String.eqb_refl, aget_aset, String.eqb_refl.
Qed.

(** ** Clock readings as identifiers *)

Lemma length_aset {V} (k : string) (v : V) (l : list (string * V)) :
  length (aset k v l)
  = match aget k l with
    | Some _ => length l
    | None => S (length l)
    end.
Proof.
  induction l as [|[k0 v0] l IH]; simpl; [done|].
  destruct (String.eqb k0 k); simpl; [done|].
  rewrite IH. by destruct (aget k l).
Qed.

Lemma callIdOf_inj t t' : Rooms.callIdOf t = Rooms.callIdOf t' → t = t'.
Proof. unfold Rooms.callIdOf. intros ?%String.app_inj. by apply (inj pretty). Qed.

Lemma roomIdOf_inj t t' : Rooms.roomIdOf t = Rooms.roomIdOf t' → t = t'.
Proof. unfold Rooms.roomIdOf. intros ?%String.app_inj. by apply (inj pretty). Qed.

(** ['call-nurse'] files the call under its first clock reading and the
    room under its second, whether or not the socket is registered.  Calls
    and rooms filed under other readings are untouched.  A call or a room
    already filed under the same reading is replaced: the table does not
    grow, and the earlier entry is lost. *)
Theorem clock_readings_name_calls :
  ∀ st sock patientName roomName now1 now2 now3,
    let st' := (Rooms.callNurse sock patientName roomName now1 now2 now3 st).1 in
    aget (Rooms.callIdOf now1) (Rooms.waitingCalls st')
    = Some (Rooms.Call.mk (Rooms.callIdOf now1) (Rooms.roomIdOf now2)
              (Rooms.roomNameOr roomName) patientName sock now3) ∧
    aget (Rooms.roomIdOf now2) (Rooms.rooms st')
    = Some (Rooms.Room.mk (Rooms.roomIdOf now2) (Rooms.roomNameOr roomName)
              patientName "waiting" sock None None) ∧
    (∀ t, t ≠ now1 →
          aget (Rooms.callIdOf t) (Rooms.waitingCalls st')
          = aget (Rooms.callIdOf t) (Rooms.waitingCalls st)) ∧
    (∀ t, t ≠ now2 →
          aget (Rooms.roomIdOf t) (Rooms.rooms st')
          = aget (Rooms.roomIdOf t) (Rooms.rooms st)) ∧
    length (Rooms.waitingCalls st')
    = match aget (Rooms.callIdOf now1) (Rooms.waitingCalls st) with
      | Some _ => length (Rooms.waitingCalls st)
      | None => S (length (Rooms.waitingCalls st))
      end ∧
    length (Rooms.rooms st')
    = match aget (Rooms.roomIdOf now2) (Rooms.rooms st) with
      | Some _ => length (Rooms.rooms st)
      | None => S (length (Rooms.rooms st))
      end.
Proof.
  intros st sock patientName roomName now1 now2 now3 st'. subst st'.
  unfold Rooms.callNurse. simpl. split_and!.
  - by rewrite aget_aset, String.eqb_refl.
  - by rewrite aget_aset, String.eqb_refl.
  - intros t Ht. rewrite aget_aset.
    destruct (String.eqb_spec (Rooms.callIdOf now1) (Rooms.callIdOf t)) as [E|]; [|done].
    by apply callIdOf_inj in E.
  - intros t Ht. rewrite aget_aset.
    destruct (String.eqb_spec (Rooms.roomIdOf now2) (Rooms.roomIdOf t)) as [E|]; [|done].
    by apply roomIdOf_inj in E.
  - apply length_aset.
  - apply length_aset.
Qed.

Lemma clock_readings_name_calls_witness :
  aget (Rooms.callIdOf 1000)
    (Rooms.waitingCalls
       (Rooms.callNurse "s3" "Quinn" "" 2000 2000 2000
          (Rooms.stateAfter patient_calls_nurse)).1)
  = aget (Rooms.callIdOf 1000)
      (Rooms.waitingCalls (Rooms.stateAfter patient_calls_nurse)).
Proof.
  destruct (clock_readings_name_calls (Rooms.stateAfter patient_calls_nurse)
              "s3" "Quinn" "" 2000 2000 2000) as (_ & _ & Hother & _).
  by apply (Hother 1000%N).
Defined.

(** ** Ending a call and leaving *)

(** ['end-call'] on a reachable state removes the room it names and
    nothing else of the rooms; it leaves every user record as it is, so a
    record keeps naming a room that is gone; waiting calls for other rooms
    stay, no call appears, and everybody else in the room is sent
    ['call-ended'] first, whether or not the room exists. *)
Theorem end_call_removes_the_room :
  ∀ st sock roomId,
    Rooms.reachable st →
    let res := Rooms.endCall sock roomId st in
    aget roomId (Rooms.rooms res.1) = None ∧
    (∀ k, k ≠ roomId → aget k (Rooms.rooms res.1) = aget k (Rooms.rooms st)) ∧
    Rooms.users res.1 = Rooms.users st ∧
    (∀ k c, aget k (Rooms.waitingCalls st) = Some c →
            Rooms.Call.roomId c ≠ roomId →
            aget k (Rooms.waitingCalls res.1) = Some c) ∧
    (∀ k c, aget k (Rooms.waitingCalls res.1) = Some c →
            aget k (Rooms.waitingCalls st) = Some c) ∧
    head res.2 = Some (Rooms.EmitToOthers sock roomId Rooms.MsgCallEnded).
Proof.
  intros st sock roomId Hr res. subst res.
  pose proof (RoomFacts.reachable_inv_rooms _ Hr) as [_ _ Hnd _ _ _].
  destruct (RoomFacts.dropFirstCall_calls
              (λ c, String.eqb (Rooms.Call.roomId c) roomId)
              (Rooms.waitingCalls st) Hnd) as (Hkeep & Hsub & Hnd').
  rewrite RoomFacts.endCall_state. simpl. split_and!.
  - by rewrite aget_adel, String.eqb_refl.
  - intros k Hk. rewrite aget_adel.
    by apply not_eq_sym, String.eqb_neq in Hk as ->.
  - done.
  - intros k c Hk Hc. apply Hkeep; [done|]. by apply String.eqb_neq.
  - intros k c Hk. apply NoDup_fst_aget; [done|].
    by apply Hsub, aget_elem_of.
  - unfold Rooms.endCall.
    by destruct (Rooms.dropRoom _ _), (Rooms.dropFirstCall _ _).
Qed.

Lemma end_call_removes_the_room_witness :
  aget "room_1000"
    (Rooms.rooms (Rooms.endCall "s2" "room_1000"
                    (Rooms.stateAfter patient_calls_nurse)).1) = None.
Proof.
  destruct (end_call_removes_the_room (Rooms.stateAfter patient_calls_nurse)
              "s2" "room_1000") as (Hgone & _).
  - apply RoomFacts.stateAfter_reachable_rooms.
  - exact Hgone.
Defined.

Lemma adel_adel {V} (k : string) (l : list (string * V)) : adel k (adel k l) = adel k l.
Proof. apply RoomFacts.adel_absent. by rewrite aget_adel, String.eqb_refl. Qed.

(** ['disconnect'] of a socket that never registered changes nothing.  For
    a registered socket of a reachable state it removes that socket's
    record and no other; when the record names a room, the room is told
    ['user-disconnected'] and removed, and no other room is; calls placed
    by other sockets keep waiting and no call appears.  A second
    ['disconnect'] of the same socket changes nothing and sends nothing. *)
Theorem disconnect_forgets_the_user :
  (∀ st sock, aget sock (Rooms.users st) = None →
              Rooms.disconnect sock st = (st, []))
  ∧
  (∀ st sock u,
     Rooms.reachable st →
     aget sock (Rooms.users st) = Some u →
     let res := Rooms.disconnect sock st in
     aget sock (Rooms.users res.1) = None ∧
     (∀ k, k ≠ sock → aget k (Rooms.users res.1) = aget k (Rooms.users st)) ∧
     (∀ rid, Rooms.User.roomId u = Some rid → rid ≠ "" →
             aget rid (Rooms.rooms res.1) = None ∧
             head res.2 = Some (Rooms.EmitTo rid Rooms.MsgUserDisconnected)) ∧
     (∀ k, Rooms.User.roomId u ≠ Some k →
           aget k (Rooms.rooms res.1) = aget k (Rooms.rooms st)) ∧
     (∀ k c, aget k (Rooms.waitingCalls st) = Some c →
             Rooms.Call.patientId c ≠ sock →
             aget k (Rooms.waitingCalls res.1) = Some c) ∧
     (∀ k c, aget k (Rooms.waitingCalls res.1) = Some c →
             aget k (Rooms.waitingCalls st) = Some c))
  ∧
  (∀ st sock,
     let st1 := (Rooms.disconnect sock st).1 in
     Rooms.disconnect sock st1 = (st1, [])).
Proof.
  split_and!.
  - intros st sock. apply RoomFacts.disconnect_unregistered.
  - intros st sock u Hr Hu res. subst res.
    pose proof (RoomFacts.reachable_inv_rooms _ Hr) as [_ _ Hnd _ _ _].
    destruct (RoomFacts.dropFirstCall_calls
                (λ c, String.eqb (Rooms.Call.patientId c) sock)
                (Rooms.waitingCalls st) Hnd) as (Hkeep & Hsub & Hnd').
    rewrite (RoomFacts.disconnect_state _ _ _ Hu). simpl. split_and!.
    + by rewrite aget_adel, String.eqb_refl.
    + intros k Hk. rewrite aget_adel.
      by apply not_eq_sym, String.eqb_neq in Hk as ->.
    + intros rid Hrid Hne. unfold Rooms.disconnect. rewrite Hu, Hrid. simpl.
      apply truthy_true in Hne. rewrite Hne. split.
      * rewrite <- RoomFacts.dropRoom_rooms.
        destruct (Rooms.dropRoom rid (Rooms.rooms st)) eqn:Ed. simpl.
        pose proof (RoomFacts.dropRoom_rooms rid (Rooms.rooms st)) as Hd.
        rewrite Ed in Hd. simpl in Hd. subst.
        by rewrite aget_adel, String.eqb_refl.
      * by destruct (Rooms.dropRoom _ _), (Rooms.dropFirstCall _ _).
    + intros k Hk. destruct (truthy_opt _) eqn:Et; [|done].
      apply truthy_opt_Some in Et as (rid & Erid & _). rewrite Erid. simpl.
      rewrite aget_adel. destruct (String.eqb_spec rid k); [|done]. congruence.
    + intros k c Hk Hc. apply Hkeep; [done|]. by apply String.eqb_neq.
    + intros k c Hk. apply NoDup_fst_aget; [done|].
      by apply Hsub, aget_elem_of.
  - intros st sock st1. subst st1.
    apply RoomFacts.disconnect_unregistered.
    destruct (aget sock (Rooms.users st)) as [u|] eqn:Hu.
    + rewrite (RoomFacts.disconnect_state _ _ _ Hu). simpl.
      by rewrite aget_adel, String.eqb_refl.
    + by rewrite RoomFacts.disconnect_unregistered.
Qed.

Lemma disconnect_forgets_the_user_witness :
  aget "s2" (Rooms.users (Rooms.disconnect "s2"
                            (Rooms.stateAfter patient_calls_nurse)).1) = None ∧
  Rooms.disconnect "s9" (Rooms.stateAfter patient_calls_nurse)
  = (Rooms.stateAfter patient_calls_nurse, []).
Proof.
  destruct disconnect_forgets_the_user as (Hnone & Hsome & _). split.
  - edestruct (Hsome (Rooms.stateAfter patient_calls_nurse) "s2") as (Hgone & _).
    + apply RoomFacts.stateAfter_reachable_rooms.
    + vm_compute. reflexivity.
    + exact Hgone.
  - apply Hnone. vm_compute. reflexivity.
Defined.

(** ** Relays and the state of rooms *)

(** The signalling and toggle requests of the room-based server change no
    table, however many are sent.  What they send cannot pass for another
    socket's message: an offer, an answer or an ICE candidate names the
    requesting socket as its sender, a ['user-connected'] notice names it as
    the patient, a toggle or screen-share notice goes to the others in the
    room and never back to the requester, and no socket joins a room. *)
Theorem relayed_messages_name_their_sender :
  (∀ log st,
     Forall (λ e, Rooms.relays e.2 = true) log → (Rooms.run log st).1 = st)
  ∧
  (∀ sock req st e,
     Rooms.relays req = true → e ∈ (Rooms.handle sock req st).2 →
     match e with
     | Rooms.Join _ _ => False
     | Rooms.EmitTo _ m =>
         Rooms.senderOf m = Some sock ∨ m = Rooms.MsgUserConnected sock
     | Rooms.EmitToOthers sender _ _ => sender = sock
     end).
Proof.
  split.
  - induction log as [|[sock req] log IH]; simpl; intros st Hl; [done|].
    apply Forall_cons in Hl as [Hreq Hl]. simpl in Hreq.
    pose proof (RoomFacts.relays_state sock req st Hreq) as Hst.
    destruct (Rooms.handle sock req st) as [st1 out1]. simpl in Hst. subst st1.
    specialize (IH st Hl). by destruct (Rooms.run log st).
  - intros sock req st e Hreq Hin.
    destruct req as [| | |roomId|body to|body to|body to|roomId on|roomId on
                    |roomId|roomId| |]; try done; simpl in Hin.
    + unfold Rooms.ready in Hin.
      destruct (aget roomId (Rooms.rooms st)) as [r|]; [|by apply elem_of_nil in Hin].
      destruct (String.eqb_spec (Rooms.Room.patientId r) sock) as [E|];
        [|by apply elem_of_nil in Hin].
      destruct (Rooms.Room.nurse r) as [[n nm]|]; [|by apply elem_of_nil in Hin].
      apply list_elem_of_singleton in Hin as ->. right. by rewrite E.
    + apply list_elem_of_singleton in Hin as ->. by left.
    + apply list_elem_of_singleton in Hin as ->. by left.
    + unfold Rooms.iceCandidate in Hin.
      destruct (truthy to); [|by apply elem_of_nil in Hin].
      apply list_elem_of_singleton in Hin as ->. by left.
    + by apply list_elem_of_singleton in Hin as ->.
    + by apply list_elem_of_singleton in Hin as ->.
    + by apply list_elem_of_singleton in Hin as ->.
    + by apply list_elem_of_singleton in Hin as ->.
Qed.

Lemma relayed_messages_name_their_sender_witness :
  Rooms.stateAfter
    (patient_calls_nurse ++
     [("s2", Rooms.Offer "sdp" "s1"); ("s1", Rooms.ToggleAudio "room_1000" false);
      ("s2", Rooms.Ready "room_1000")])
  = Rooms.stateAfter patient_calls_nurse.
Proof.
  destruct relayed_messages_name_their_sender as [Hlog _].
  etransitivity;
    [|apply (Hlog [("s2", Rooms.Offer "sdp" "s1");
                   ("s1", Rooms.ToggleAudio "room_1000" false);
                   ("s2", Rooms.Ready "room_1000")]
                  (Rooms.stateAfter patient_calls_nurse))].
  - vm_compute. reflexivity.
  - by repeat constructor.
Defined.

(** In every state the room-based server can reach, a room is filed under
    its own id and is either ['waiting'] with no nurse or ['active'] with a
    nurse whose socket is its [nurseId]; calls and user records are filed
    under their own ids.  So ['ready'] from the patient of an active room
    always reaches that room's nurse, and ['ready'] for a waiting room
    reaches nobody. *)
Theorem room_status_tracks_nurse :
  ∀ st, Rooms.reachable st →
    (∀ k r, aget k (Rooms.rooms st) = Some r → Rooms.room_ok k r) ∧
    (∀ k c, aget k (Rooms.waitingCalls st) = Some c → Rooms.Call.id c = k) ∧
    (∀ k u, aget k (Rooms.users st) = Some u → Rooms.User.id u = k) ∧
    (∀ sock roomId r,
       aget roomId (Rooms.rooms st) = Some r →
       Rooms.Room.patientId r = sock → Rooms.Room.status r = "active" →
       ∃ n, Rooms.Room.nurseId r = Some n ∧
            (Rooms.ready sock roomId st).2
            = [Rooms.EmitTo n (Rooms.MsgUserConnected sock)]) ∧
    (∀ sock roomId r,
       aget roomId (Rooms.rooms st) = Some r →
       Rooms.Room.status r = "waiting" →
       (Rooms.ready sock roomId st).2 = []).
Proof.
  intros st Hr. destruct (RoomFacts.reachable_inv_rooms _ Hr) as [_ _ _ Hrooms Hus Hcs].
  split_and!.
  - intros k r ?%aget_elem_of. eauto.
  - intros k c ?%aget_elem_of. eauto.
  - intros k u ?%aget_elem_of. eauto.
  - intros sock roomId r Hk Hp Hs.
    destruct (Hrooms _ _ (aget_elem_of _ _ _ Hk))
      as [_ [(Hw & _)|(n & nm & _ & Hn & Hid)]]; [congruence|].
    exists n. split; [done|]. unfold Rooms.ready.
    by rewrite Hk, Hp, String.eqb_refl, Hn.
  - intros sock roomId r Hk Hs.
    destruct (Hrooms _ _ (aget_elem_of _ _ _ Hk))
      as [_ [(_ & Hn & _)|(n & nm & Ha & _)]]; [|congruence].
    unfold Rooms.ready. rewrite Hk, Hn. by destruct (String.eqb _ _).
Qed.

Lemma room_status_tracks_nurse_witness :
  (Rooms.ready "s2" "room_1000"
     (Rooms.stateAfter (patient_calls_nurse ++ [("s1", Rooms.AcceptCall "call_1000" "Nora")]))).2
  = [Rooms.EmitTo "s1" (Rooms.MsgUserConnected "s2")].
Proof.
  destruct (room_status_tracks_nurse
              (Rooms.stateAfter (patient_calls_nurse
                                 ++ [("s1", Rooms.AcceptCall "call_1000" "Nora")])))
    as (_ & _ & _ & Hready & _).
  - apply RoomFacts.stateAfter_reachable_rooms.
  - edestruct (Hready "s2" "room_1000") as (n & Hn & Hout).
    + vm_compute. reflexivity.
    + reflexivity.
    + reflexivity.
    + rewrite Hout. vm_compute in Hn. by injection Hn as <-.
Defined.

Lemma aget_values {V} (k : string) (v : V) (l : list (string * V)) :
  aget k l = Some v → v ∈ l.*2.
Proof.
  intros ?%aget_elem_of. apply list_elem_of_fmap. by exists (k, v).
Qed.

(** ['register'] on the room-based server never fails and never touches
    rooms, waiting calls or another socket's record; it replaces the
    socket's own record, and with it the room the record named.  A socket
    registering as nurse joins ['nurses'] and is sent every room and every
    call that waits at that moment; any other socket is sent nothing. *)
Theorem registering_nurse_is_told_of_waiting_calls :
  (∀ st sock userType name roomId,
     let res := Rooms.register sock userType name roomId st in
     Rooms.rooms res.1 = Rooms.rooms st ∧
     Rooms.waitingCalls res.1 = Rooms.waitingCalls st ∧
     aget sock (Rooms.users res.1)
     = Some (Rooms.User.mk sock name userType
               (if truthy roomId then Some roomId else None)) ∧
     (∀ k, k ≠ sock → aget k (Rooms.users res.1) = aget k (Rooms.users st)) ∧
     (userType ≠ "nurse" → res.2 = []))
  ∧
  (∀ st sock name roomId,
     ∃ rooms calls,
       (Rooms.register sock "nurse" name roomId st).2
       = [Rooms.Join sock "nurses";
          Rooms.EmitTo sock (Rooms.MsgRoomsUpdate rooms);
          Rooms.EmitTo sock (Rooms.MsgWaitingCallsUpdate calls)] ∧
       (∀ k r, aget k (Rooms.rooms st) = Some r → r ∈ rooms) ∧
       (∀ k c, aget k (Rooms.waitingCalls st) = Some c → c ∈ calls)).
Proof.
  split.
  - intros st sock userType name roomId res. subst res. unfold Rooms.register.
    destruct (String.eqb_spec userType "nurse"); simpl; split_and!; try done.
    all: try by rewrite aget_aset, String.eqb_refl.
    all: intros k Hk; rewrite aget_aset;
      by apply not_eq_sym, String.eqb_neq in Hk as ->.
  - intros st sock name roomId.
    exists (Rooms.rooms st).*2, (Rooms.waitingCalls st).*2.
    split_and!; [done|..]; intros k v; apply aget_values.
Qed.

Lemma registering_nurse_is_told_of_waiting_calls_witness :
  (Rooms.register "s3" "visitor" "Vic" "" (Rooms.stateAfter patient_calls_nurse)).2 = [].
Proof.
  destruct registering_nurse_is_told_of_waiting_calls as [Hany _].
  destruct (Hany (Rooms.stateAfter patient_calls_nurse) "s3" "visitor" "Vic" "")
    as (_ & _ & _ & _ & Hquiet).
  by apply Hquiet.
Defined.
